(** * Vocabulary service: ingestion core

    A shallow embedding of the ingestion core of the vocabulary service
    ([app/core/utils.py], [app/core/loading.py], [app/core/db_pool.py] and
    [app/core/database.py]) and of the handlers that call it
    ([app/routers/wordbook.py], [app/routers/lookup.py] and
    [app/routers/excel.py]), together with the properties stated about
    them.

    Conventions of the embedding:
    - a Python [str] is a list of Unicode code points ([pystr]);
    - a Python [int] is a [Z]; the [float] held in ["percent"] is modelled by
      an exact rational ([Q]), so rounding is outside the model while the
      division-by-zero behaviour of [/] and [%] is kept;
    - mutable module and object state is passed explicitly; a method that
      can raise returns the state it leaves behind together with its outcome;
    - the clock ([datetime.utcnow().isoformat()]) and the other threads are
      inputs of the operations that read them. *)

From Stdlib Require Import ZArith NArith QArith List Bool String Ascii DecimalString Lia
  SpecFloat.
Import ListNotations.

Set Implicit Arguments.

(** ** Python strings *)

Module PyStr.

Definition pychar := N.
Definition pystr := list pychar.

Definition of_string (s : string) : pystr :=
  List.map N_of_ascii (list_ascii_of_string s).

Definition in_range (lo hi c : N) : bool := ((lo <=? c) && (c <=? hi))%N.

Definition SPACE : pychar := 32%N.

(** The code points [str.strip()] removes when called without argument:
    those for which [str.isspace] holds. *)
Definition is_space (c : pychar) : bool :=
  in_range 9 13 c || in_range 28 32 c
  || (c =? 133)%N || (c =? 160)%N || (c =? 5760)%N
  || in_range 8192 8202 c
  || (c =? 8232)%N || (c =? 8233)%N || (c =? 8239)%N
  || (c =? 8287)%N || (c =? 12288)%N.

Fixpoint lstrip (s : pystr) : pystr :=
  match s with
  | [] => []
  | c :: r => if is_space c then lstrip r else s
  end.

Fixpoint rstrip (s : pystr) : pystr :=
  match s with
  | [] => []
  | c :: r =>
      match rstrip r with
      | [] => if is_space c then [] else [c]
      | r' => c :: r'
      end
  end.

(** [s.strip()] *)
Definition strip (s : pystr) : pystr := rstrip (lstrip s).

Definition is_upper (c : pychar) : bool := in_range 65 90 c.
Definition is_lower (c : pychar) : bool := in_range 97 122 c.

(** [s.lower()] on the ASCII range.  In the program [lower] is only
    applied to the output of [re.sub] in [normalize_word], whose code
    points are ASCII letters, hyphen, apostrophe and space (lemma
    [re_sub_alphabet] below), where it agrees with [str.lower]. *)
Definition lower_char (c : pychar) : pychar :=
  if is_upper c then (c + 32)%N else c.

Definition lower (s : pystr) : pystr := List.map lower_char s.

(** Truth value of a string: [bool(s)]. *)
Definition truthy (s : pystr) : bool :=
  match s with [] => false | _ => true end.

End PyStr.

(** ** [app/core/utils.py] *)

Module Utils.
Import PyStr.

(** The character class [[A-Za-z\-']]. *)
Definition word_char (c : pychar) : bool :=
  is_upper c || is_lower c || (c =? 45)%N || (c =? 39)%N.

(** [re.sub(r"[^A-Za-z\-']+", " ", text)]: scanning from the left, every
    match of the negated class, taken greedily, is replaced by one space.
    [in_run] tells that the scan is inside a match whose replacement has
    already been emitted. *)
Fixpoint sub_runs (in_run : bool) (text : pystr) : pystr :=
  match text with
  | [] => []
  | c :: r =>
      if word_char c then c :: sub_runs false r
      else if in_run then sub_runs true r
      else SPACE :: sub_runs true r
  end.

Definition re_sub_nonword (text : pystr) : pystr := sub_runs false text.

(** [normalize_word(word)]; [None] stands for Python's [None]. *)
Definition normalize_word (word : option pystr) : pystr :=
  match word with
  | None => []
  | Some w =>
      let text := strip w in
      let text := lower (strip (re_sub_nonword text)) in
      text
  end.

(** *** The word-normalization rule, as the specification words it

    "every maximal run of characters other than ASCII letters, hyphen and
    apostrophe is replaced by a single space, the result is trimmed and
    lowercased". *)

(** The maximal runs of a string, each tagged with whether it is made of
    letters, hyphens and apostrophes. *)
Fixpoint maximal_runs (s : pystr) : list (bool * pystr) :=
  match s with
  | [] => []
  | c :: r =>
      match maximal_runs r with
      | (b, run) :: rs =>
          if Bool.eqb b (word_char c) then (b, c :: run) :: rs
          else (word_char c, [c]) :: (b, run) :: rs
      | [] => [(word_char c, [c])]
      end
  end.

Definition replace_run (r : bool * pystr) : pystr :=
  if fst r then snd r else [SPACE].

Definition collapse_runs (s : pystr) : pystr :=
  List.concat (List.map replace_run (maximal_runs s)).

Definition normalization_rule (s : pystr) : pystr :=
  lower (strip (collapse_runs s)).

End Utils.

(** ** Outcomes of calls that can raise *)

Inductive exn : Type :=
| ZeroDivisionError                 (* division or modulo by zero *)
| QueueEmpty                        (* queue.Empty *)
| ValueError                        (* Queue.get with a negative timeout *)
| RuntimeError (msg : string)
| PoolError                         (* the Exception raised by get_db *)
| IntegrityError                    (* NOT NULL constraint failed *)
| OperationalError (msg : string)   (* sqlite3.OperationalError *)
| OverflowError (msg : string)      (* an int too large for a float or for sqlite *)
| LoadError (text : PyStr.pystr).   (* what load_workbook raises on a file it
                                       cannot read, given by its str() *)

Inductive outcome (A : Type) : Type :=
| Returned (a : A)
| Raised (e : exn)
| Hangs.                            (* the call blocks for ever *)

Arguments Returned {A} a.
Arguments Raised {A} e.
Arguments Hangs {A}.

(** ** Python integers and sequences *)

Module Py.

(** [a / b] on integers: true division, [ZeroDivisionError] for [b = 0]. *)
Definition truediv (a b : Z) : option Q :=
  if (b =? 0)%Z then None else Some (inject_Z a / inject_Z b)%Q.

(** [a % b] on integers: the sign follows the divisor, as [Z.modulo]. *)
Definition modulo (a b : Z) : option Z :=
  if (b =? 0)%Z then None else Some (a mod b)%Z.

Definition len {A} (l : list A) : Z := Z.of_nat (List.length l).

(** [l[start:]] *)
Definition slice_from {A} (start : Z) (l : list A) : list A :=
  let start := if (start <? 0)%Z then Z.max 0 (start + len l) else Z.min start (len l) in
  List.skipn (Z.to_nat start) l.

End Py.

(** ** [app/core/loading.py] *)

Module Loading.
Import PyStr.

(** The dictionary [LoadingStateStore.state]; its key set is fixed by
    [DEFAULT_STATE]. *)
Record State : Type := mkState {
  running : bool;
  file : option pystr;
  current_sheet : option pystr;
  processed_words : Z;
  total_words : Z;
  percent : Q;
  error : option pystr;
  latest_words : list pystr;
  timestamp : option pystr
}.

Definition DEFAULT_STATE : State :=
  {| running := false; file := None; current_sheet := None;
     processed_words := 0; total_words := 0; percent := 0;
     error := None; latest_words := []; timestamp := None |}.

Definition set_processed_words (v : Z) (s : State) : State :=
  mkState (running s) (file s) (current_sheet s) v (total_words s)
          (percent s) (error s) (latest_words s) (timestamp s).
Definition set_percent (v : Q) (s : State) : State :=
  mkState (running s) (file s) (current_sheet s) (processed_words s)
          (total_words s) v (error s) (latest_words s) (timestamp s).
Definition set_latest_words (v : list pystr) (s : State) : State :=
  mkState (running s) (file s) (current_sheet s) (processed_words s)
          (total_words s) (percent s) (error s) v (timestamp s).
Definition set_timestamp (v : option pystr) (s : State) : State :=
  mkState (running s) (file s) (current_sheet s) (processed_words s)
          (total_words s) (percent s) (error s) (latest_words s) v.
Definition set_error (v : option pystr) (s : State) : State :=
  mkState (running s) (file s) (current_sheet s) (processed_words s)
          (total_words s) (percent s) v (latest_words s) (timestamp s).
Definition set_running (v : bool) (s : State) : State :=
  mkState v (file s) (current_sheet s) (processed_words s)
          (total_words s) (percent s) (error s) (latest_words s) (timestamp s).
Definition set_sheet (v : option pystr) (s : State) : State :=
  mkState (running s) (file s) v (processed_words s)
          (total_words s) (percent s) (error s) (latest_words s) (timestamp s).

(** Every method runs under [self.lock]; [now] is the value of
    [datetime.utcnow().isoformat()] read inside the critical section. *)

(** [snapshot()]: a deep copy of the dictionary. *)
Definition snapshot (s : State) : State := s.

(** [reset_for_file(file_name, total_rows)] *)
Definition reset_for_file (now : pystr) (file_name : pystr) (total_rows : Z)
    (_ : State) : State :=
  {| running := true; file := Some file_name; current_sheet := None;
     processed_words := 0; total_words := total_rows; percent := 0;
     error := None; latest_words := []; timestamp := Some now |}.

(** [set_current_sheet(sheet)] *)
Definition set_current_sheet (now : pystr) (sheet : option pystr) (s : State) : State :=
  set_timestamp (Some now) (set_sheet sheet s).

(** The expression [(processed / total * 100.0) if total > 0 else 0.0],
    read in exact arithmetic: the quotient is the rational, before any
    rounding to a [float] ([LoadingFloat] below has the rounded value and
    the [OverflowError] of a quotient too large for a [float]); [None] is
    the [ZeroDivisionError] of [/]. *)
Definition percent_expr (processed total : Z) : option Q :=
  if (total >? 0)%Z
  then option_map (fun q => q * 100)%Q (Py.truediv processed total)
  else Some 0%Q.

(** [sample_word and sample_word.strip()] *)
Definition sample_ok (sample_word : option pystr) : bool :=
  match sample_word with
  | None => false
  | Some w => truthy w && truthy (strip w)
  end.

(** The trimming of the sample list:
    [if len(latest) > latest_limit: latest = latest[-latest_limit:]]. *)
Definition trim_latest (latest_limit : Z) (latest : list pystr) : list pystr :=
  if (Py.len latest >? latest_limit)%Z
  then Py.slice_from (- latest_limit) latest
  else latest.

(** [increment_processed(increment, sample_word, sample_step, latest_limit)].
    The state component is the dictionary as the call leaves it, also when
    it raises: the writes made before the fault stay. *)
Definition increment_processed (now : pystr) (increment : Z)
    (sample_word : option pystr) (sample_step latest_limit : Z)
    (s : State) : State * outcome Z :=
  let processed := (processed_words s + increment)%Z in
  let s := set_processed_words processed s in
  let total := total_words s in
  match percent_expr processed total with
  | None => (s, Raised ZeroDivisionError)
  | Some p =>
      let s := set_percent p s in
      if sample_ok sample_word then
        match Py.modulo processed sample_step with
        | None => (s, Raised ZeroDivisionError)
        | Some m =>
            let s :=
              if (m =? 0)%Z then
                let latest := latest_words s in
                let latest := latest ++ [match sample_word with Some w => w | None => [] end] in
                set_latest_words (trim_latest latest_limit latest) s
              else s in
            (set_timestamp (Some now) s, Returned processed)
        end
      else (set_timestamp (Some now) s, Returned processed)
  end.

(** [mark_finished(error)] *)
Definition mark_finished (now : pystr) (err : option pystr) (s : State) : State :=
  let s := set_running false s in
  let s := match err with
           | Some e => if truthy e then set_error (Some e) s else s
           | None => s
           end in
  set_timestamp (Some now) s.

(** [clear_error()] *)
Definition clear_error (now : pystr) (s : State) : State :=
  set_timestamp (Some now) (set_error None s).

(** One [increment_processed] call of a caller, with the clock value it
    meets. *)
Record Call : Type := mkCall {
  call_now : pystr;
  call_increment : Z;
  call_sample : option pystr;
  call_step : Z
}.

Definition do_call (latest_limit : Z) (s : State) (c : Call) : State :=
  fst (increment_processed (call_now c) (call_increment c) (call_sample c)
                           (call_step c) latest_limit s).

(** The state after a sequence of calls made with the same sample cap. *)
Definition run_calls (latest_limit : Z) (calls : list Call) (s : State) : State :=
  List.fold_left (do_call latest_limit) calls s.




End Loading.

(** ** [app/core/loading.py], the percentage as a [float]

    [Loading] above reads the percentage as the exact quotient.  What the
    code stores is a [float], an IEEE 754 double: [processed / total] is
    the quotient of two integers rounded to the nearest double, and
    [* 100.0] rounds again.  This module has the store with that value,
    through [SpecFloat] of the Standard Library; the other fields and the
    other steps are those of [Loading]. *)

Module LoadingFloat.
Import PyStr.

Definition prec : Z := 53.
Definition emax : Z := 1024.

(** [0.0] and [100.0] *)
Definition ZERO : spec_float := S754_zero false.
Definition HUNDRED : spec_float := S754_finite false 7036874417766400 (-46).

(** An integer as a binary number, not rounded. *)
Definition of_int (z : Z) : spec_float :=
  match z with
  | Z0 => S754_zero false
  | Zpos p => S754_finite false p 0
  | Zneg p => S754_finite true p 0
  end.

Definition TOO_LARGE_FOR_FLOAT : exn :=
  OverflowError "integer division result too large for a float".

(** [a / b] on integers: the quotient rounded to the nearest double;
    [ZeroDivisionError] for [b = 0], [OverflowError] when the rounded
    quotient is beyond the largest double. *)
Definition truediv (a b : Z) : outcome spec_float :=
  if (b =? 0)%Z then Raised ZeroDivisionError
  else
    match SFdiv prec emax (of_int a) (of_int b) with
    | S754_infinity _ => Raised TOO_LARGE_FOR_FLOAT
    | q => Returned q
    end.

(** [x * y] on floats: the product rounded to the nearest double, [inf]
    beyond the largest one, without exception. *)
Definition mul (x y : spec_float) : spec_float := SFmul prec emax x y.

Record State : Type := mkState {
  running : bool;
  file : option pystr;
  current_sheet : option pystr;
  processed_words : Z;
  total_words : Z;
  percent : spec_float;
  error : option pystr;
  latest_words : list pystr;
  timestamp : option pystr
}.

Definition DEFAULT_STATE : State :=
  {| running := false; file := None; current_sheet := None;
     processed_words := 0; total_words := 0; percent := ZERO;
     error := None; latest_words := []; timestamp := None |}.

Definition set_processed_words (v : Z) (s : State) : State :=
  mkState (running s) (file s) (current_sheet s) v (total_words s)
          (percent s) (error s) (latest_words s) (timestamp s).
Definition set_percent (v : spec_float) (s : State) : State :=
  mkState (running s) (file s) (current_sheet s) (processed_words s)
          (total_words s) v (error s) (latest_words s) (timestamp s).
Definition set_latest_words (v : list pystr) (s : State) : State :=
  mkState (running s) (file s) (current_sheet s) (processed_words s)
          (total_words s) (percent s) (error s) v (timestamp s).
Definition set_timestamp (v : option pystr) (s : State) : State :=
  mkState (running s) (file s) (current_sheet s) (processed_words s)
          (total_words s) (percent s) (error s) (latest_words s) v.

(** [reset_for_file(file_name, total_rows)] *)
Definition reset_for_file (now : pystr) (file_name : pystr) (total_rows : Z)
    (_ : State) : State :=
  {| running := true; file := Some file_name; current_sheet := None;
     processed_words := 0; total_words := total_rows; percent := ZERO;
     error := None; latest_words := []; timestamp := Some now |}.

(** The expression [(processed / total * 100.0) if total > 0 else 0.0]. *)
Definition percent_expr (processed total : Z) : outcome spec_float :=
  if (total >? 0)%Z then
    match truediv processed total with
    | Returned q => Returned (mul q HUNDRED)
    | Raised e => Raised e
    | Hangs => Hangs
    end
  else Returned ZERO.

(** [increment_processed(increment, sample_word, sample_step, latest_limit)].
    The state component is the dictionary as the call leaves it, also when
    it raises: the writes made before the fault stay. *)
Definition increment_processed (now : pystr) (increment : Z)
    (sample_word : option pystr) (sample_step latest_limit : Z)
    (s : State) : State * outcome Z :=
  let processed := (processed_words s + increment)%Z in
  let s := set_processed_words processed s in
  let total := total_words s in
  match percent_expr processed total with
  | Returned p =>
      let s := set_percent p s in
      if Loading.sample_ok sample_word then
        match Py.modulo processed sample_step with
        | None => (s, Raised ZeroDivisionError)
        | Some m =>
            let s :=
              if (m =? 0)%Z then
                let latest := latest_words s in
                let latest := latest ++ [match sample_word with Some w => w | None => [] end] in
                set_latest_words (Loading.trim_latest latest_limit latest) s
              else s in
            (set_timestamp (Some now) s, Returned processed)
        end
      else (set_timestamp (Some now) s, Returned processed)
  | Raised e => (s, Raised e)
  | Hangs => (s, Hangs)
  end.

Definition do_call (latest_limit : Z) (s : State) (c : Loading.Call) : State :=
  fst (increment_processed (Loading.call_now c) (Loading.call_increment c)
                           (Loading.call_sample c) (Loading.call_step c) latest_limit s).

(** The state after a sequence of calls made with the same sample cap. *)
Definition run_calls (latest_limit : Z) (calls : list Loading.Call) (s : State) : State :=
  List.fold_left (do_call latest_limit) calls s.

(** The store of [Loading] with the same content, the percentage apart. *)
Definition same_counts (s : State) (q : Loading.State) : Prop :=
  running s = Loading.running q /\
  file s = Loading.file q /\
  current_sheet s = Loading.current_sheet q /\
  processed_words s = Loading.processed_words q /\
  total_words s = Loading.total_words q /\
  error s = Loading.error q /\
  latest_words s = Loading.latest_words q /\
  timestamp s = Loading.timestamp q.

End LoadingFloat.

(** ** [app/core/db_pool.py] *)

Module DbPool.
Import PyStr.

(** The identity of a [sqlite3.Connection] object. *)
Definition Connection := nat.

(** A [DatabasePool] object.  [queue] is [self._pool], oldest item first;
    [opened] counts the connections the pool has created, [closed] lists
    those on which [close()] was called. *)
Record Pool : Type := mkPool {
  db_path : pystr;
  pool_size : Z;
  queue : list Connection;
  initialized : bool;
  opened : nat;
  closed : list Connection
}.

(** [DatabasePool(db_path, pool_size)] *)
Definition new_pool (path : pystr) (size : Z) : Pool :=
  mkPool path size [] false 0 [].

Definition set_queue (q : list Connection) (p : Pool) : Pool :=
  mkPool (db_path p) (pool_size p) q (initialized p) (opened p) (closed p).

(** *** [queue.Queue(maxsize)] *)

Definition queue_full (maxsize : Z) (q : list Connection) : bool :=
  ((0 <? maxsize) && (maxsize <=? Py.len q))%Z.

(** [Queue.put(item)]: blocks while the queue is full; [None] when no
    other thread takes an item, so that the call never returns. *)
Definition queue_put (maxsize : Z) (c : Connection) (q : list Connection)
    : option (list Connection) :=
  if queue_full maxsize q then None else Some (q ++ [c]).

(** [Queue.get(timeout=timeout)].  [arrival], when present, is the item
    another thread puts on the empty queue and the delay after which it
    does so.  The result carries the time the caller stayed blocked. *)
Definition queue_get (timeout : Q) (arrival : option (Q * Connection))
    (q : list Connection) : outcome Connection * Q * list Connection :=
  if Qle_bool 0 timeout then
    match q with
    | c :: q' => (Returned c, 0%Q, q')
    | [] =>
        match arrival with
        | Some (delay, c) =>
            if Qle_bool timeout delay then (Raised QueueEmpty, timeout, [])
            else (Returned c, delay, [])
        | None => (Raised QueueEmpty, timeout, [])
        end
    end
  else (Raised ValueError, 0%Q, q).

(** *** The methods of [DatabasePool] *)

Fixpoint fill (n : nat) (p : Pool) : Pool * outcome unit :=
  match n with
  | O => (p, Returned tt)
  | S n' =>
      let conn := opened p in
      let p := mkPool (db_path p) (pool_size p) (queue p) (initialized p)
                      (S conn) (closed p) in
      match queue_put (pool_size p) conn (queue p) with
      | Some q => fill n' (set_queue q p)
      | None => (p, Hangs)
      end
  end.

(** [initialize()] *)
Definition initialize (p : Pool) : Pool * outcome unit :=
  if initialized p then (p, Returned tt)
  else
    match fill (Z.to_nat (pool_size p)) p with
    | (p, Returned _) =>
        (mkPool (db_path p) (pool_size p) (queue p) true (opened p) (closed p),
         Returned tt)
    | r => r
    end.

(** [get_connection(timeout)]; the [Q] is the time spent blocked. *)
Definition get_connection (timeout : Q) (arrival : option (Q * Connection))
    (p : Pool) : Pool * outcome (option Connection) * Q :=
  match queue_get timeout arrival (queue p) with
  | (Returned c, t, q) => (set_queue q p, Returned (Some c), t)
  | (Raised QueueEmpty, t, q) => (set_queue q p, Returned None, t)
  | (Raised e, t, q) => (set_queue q p, Raised e, t)
  | (Hangs, t, q) => (set_queue q p, Hangs, t)
  end.

Definition DEFAULT_TIMEOUT : Q := 5.

(** [return_connection(conn)] *)
Definition return_connection (conn : option Connection) (p : Pool)
    : Pool * outcome unit :=
  match conn with
  | None => (p, Returned tt)
  | Some c =>
      match queue_put (pool_size p) c (queue p) with
      | Some q => (set_queue q p, Returned tt)
      | None => (p, Hangs)
      end
  end.

(** [with pool.get_db() as conn: body]: the context manager around a
    body that works on some state [W]. *)
Definition get_db {W A : Type} (arrival : option (Q * Connection))
    (body : Connection -> W -> W * outcome A) (p : Pool) (w : W)
    : Pool * W * outcome A :=
  match get_connection DEFAULT_TIMEOUT arrival p with
  | (p, Returned (Some conn), _) =>
      match body conn w with
      | (w, Hangs) => (p, w, Hangs)
      | (w, r) =>
          match return_connection (Some conn) p with
          | (p, Returned _) => (p, w, r)
          | (p, Raised e) => (p, w, Raised e)
          | (p, Hangs) => (p, w, Hangs)
          end
      end
  | (p, Returned None, _) => (p, w, Raised PoolError)
  | (p, Raised e, _) => (p, w, Raised e)
  | (p, Hangs, _) => (p, w, Hangs)
  end.

(** [close_all()] *)
Definition close_all (p : Pool) : Pool :=
  mkPool (db_path p) (pool_size p) [] false (opened p) (closed p ++ queue p).

(** The calls threads make on a pool, for traces. *)
Inductive Op : Type :=
| OpInitialize
| OpGet (timeout : Q)
| OpReturn (conn : Connection)
| OpCloseAll.

(** What a call answered: the connection handed out, if any. *)
Definition step (p : Pool) (op : Op) : Pool * outcome (option Connection) :=
  match op with
  | OpInitialize =>
      match initialize p with
      | (p, Returned _) => (p, Returned None)
      | (p, Raised e) => (p, Raised e)
      | (p, Hangs) => (p, Hangs)
      end
  | OpGet timeout => fst (get_connection timeout None p)
  | OpReturn c =>
      match return_connection (Some c) p with
      | (p, Returned _) => (p, Returned None)
      | (p, Raised e) => (p, Raised e)
      | (p, Hangs) => (p, Hangs)
      end
  | OpCloseAll => (close_all p, Returned None)
  end.

(** The pool after a trace and the answers it gave, in order. *)
Fixpoint run (ops : list Op) (p : Pool) : Pool * list (outcome (option Connection)) :=
  match ops with
  | [] => (p, [])
  | op :: rest =>
      let (p, r) := step p op in
      let (p, rs) := run rest p in
      (p, r :: rs)
  end.

End DbPool.

(** ** [app/core/database.py] *)

Module Database.
Import PyStr.

(** *** The source document *)

(** A cell read with [values_only=True]: [None], or a value given by its
    [str()] rendering. *)
Definition Cell := option pystr.

Record Worksheet : Type := mkWorksheet {
  title : pystr;
  max_row : option Z;
  max_column : option Z;
  iter_rows : list (list Cell)
}.

(** [wb.worksheets]; titles are unique in a workbook, so [wb[ws.title]] is
    [ws]. *)
Definition Workbook := list Worksheet.

(** *** The store *)

Inductive sqlval : Type :=
| SqlNull
| SqlText (s : pystr)
| SqlInteger (z : Z).

(** The tuple bound to the six placeholders of the [INSERT]. *)
Record Params : Type := mkParams {
  word_norm : sqlval;
  word : sqlval;
  phonetic : sqlval;
  meaning : sqlval;
  sheet : sqlval;
  row_index : sqlval
}.

Record Entry : Type := mkEntry { id : Z; fields : Params }.

(** The table [entries] with the names of its indexes. *)
Record Table : Type := mkTable {
  table_rows : list Entry;
  table_indexes : list string
}.

(** A database: its table [entries], if there is one. *)
Definition Db := option Table.

(** A [sqlite3.Connection] in the module's default transaction mode:
    [committed] is the database as the file holds it and as other
    connections read it, [working] is what this connection sees. *)
Record Con : Type := mkCon {
  committed : Db;
  working : Db;
  in_transaction : bool;
  is_open : bool
}.

(** [sqlite3.connect(path)]; a missing file is created empty. *)
Definition connect (db_file : option Db) : Con :=
  let db := match db_file with Some db => db | None => None end in
  mkCon db db false true.

(** A statement that is not run inside an open transaction is committed
    at once. *)
Definition after_statement (db : Db) (con : Con) : Con :=
  if in_transaction con
  then mkCon (committed con) db true (is_open con)
  else mkCon db db false (is_open con).

(** [DROP TABLE IF EXISTS entries] *)
Definition drop_table (con : Con) : Con * outcome unit :=
  (after_statement None con, Returned tt).

(** [CREATE TABLE entries (...)] *)
Definition create_table (con : Con) : Con * outcome unit :=
  match working con with
  | Some _ => (con, Raised (OperationalError "table entries already exists"))
  | None => (after_statement (Some (mkTable [] [])) con, Returned tt)
  end.

(** [BEGIN] *)
Definition begin (con : Con) : Con * outcome unit :=
  if in_transaction con
  then (con, Raised (OperationalError "cannot start a transaction within a transaction"))
  else (mkCon (committed con) (working con) true (is_open con), Returned tt).

(** The rowid given to a new row of an [INTEGER PRIMARY KEY] table. *)
Definition next_id (rows : list Entry) : Z :=
  (1 + List.fold_right Z.max 0 (List.map id rows))%Z.

(** One [INSERT]; [word_norm] is declared [NOT NULL]. *)
Definition insert_row (t : Table) (p : Params) : option Table :=
  match word_norm p with
  | SqlNull => None
  | _ => Some (mkTable (table_rows t ++ [mkEntry (next_id (table_rows t)) p])
                       (table_indexes t))
  end.

Fixpoint insert_rows (t : Table) (batch : list Params) : Table * outcome unit :=
  match batch with
  | [] => (t, Returned tt)
  | p :: rest =>
      match insert_row t p with
      | Some t => insert_rows t rest
      | None => (t, Raised IntegrityError)
      end
  end.

(** [cur.executemany(insert_sql, batch)]: a transaction is opened first
    when none is open. *)
Definition executemany (batch : list Params) (con : Con) : Con * outcome unit :=
  match working con with
  | None => (con, Raised (OperationalError "no such table: entries"))
  | Some t =>
      let (t, r) := insert_rows t batch in
      (mkCon (committed con) (Some t) true (is_open con), r)
  end.

(** [CREATE INDEX name ON entries(...)] *)
Definition create_index (name : string) (con : Con) : Con * outcome unit :=
  match working con with
  | None => (con, Raised (OperationalError "no such table: main.entries"))
  | Some t =>
      if List.existsb (String.eqb name) (table_indexes t)
      then (con, Raised (OperationalError "index already exists"))
      else (after_statement (Some (mkTable (table_rows t) (table_indexes t ++ [name]))) con,
            Returned tt)
  end.

(** [con.commit()] *)
Definition commit (con : Con) : Con * outcome unit :=
  (mkCon (working con) (working con) false (is_open con), Returned tt).

(** [con.rollback()] *)
Definition rollback (con : Con) : Con * outcome unit :=
  (mkCon (committed con) (committed con) false (is_open con), Returned tt).

(** [con.close()]: what was not committed is lost. *)
Definition close (con : Con) : Con * outcome unit :=
  (mkCon (committed con) (committed con) false false, Returned tt).

(** The [PRAGMA]s and [VACUUM] change the journal and the layout of the
    file, not the tables. *)
Definition pragma (con : Con) : Con * outcome unit := (con, Returned tt).
Definition vacuum (con : Con) : Con * outcome unit := (con, Returned tt).

(** *** The state of a loader thread *)

(** What the loader reads from outside: the clock at each update of the
    progress store, and [loading_cancelled] at each of its polls. *)
Record Env : Type := mkEnv {
  clock : nat -> pystr;
  cancel_seen : nat -> bool
}.

Record Run : Type := mkRun {
  con : Con;
  progress : Loading.State;       (* loading_state *)
  data_loaded : bool;             (* app_state.data_loaded *)
  current_excel_file : option pystr;
  polls : nat;                    (* reads of loading_cancelled so far *)
  ticks : nat                     (* reads of the clock so far *)
}.

Definition M (A : Type) : Type := Run -> Run * outcome A.

Definition ret {A} (a : A) : M A := fun s => (s, Returned a).
Definition raise {A} (e : exn) : M A := fun s => (s, Raised e).
Definition bind {A B} (m : M A) (k : A -> M B) : M B :=
  fun s =>
    match m s with
    | (s, Returned a) => k a s
    | (s, Raised e) => (s, Raised e)
    | (s, Hangs) => (s, Hangs)
    end.

(** [try: m finally: f] *)
Definition finally {A} (m : M A) (f : M unit) : M A :=
  fun s =>
    match m s with
    | (s, Hangs) => (s, Hangs)
    | (s, r) =>
        match f s with
        | (s, Returned _) => (s, r)
        | (s, Raised e) => (s, Raised e)
        | (s, Hangs) => (s, Hangs)
        end
    end.

Notation "x <- m ;; k" := (bind m (fun x => k))
  (at level 61, m at next level, right associativity).
Notation "m ;;; k" := (bind m (fun _ => k))
  (at level 61, right associativity).

Definition on_con {A} (f : Con -> Con * outcome A) : M A :=
  fun s =>
    let (c, r) := f (con s) in
    (mkRun c (progress s) (data_loaded s) (current_excel_file s) (polls s) (ticks s), r).

(** A method of [loading_state] that cannot raise. *)
Definition on_progress (f : pystr -> Loading.State -> Loading.State) (env : Env) : M unit :=
  fun s =>
    (mkRun (con s) (f (clock env (ticks s)) (progress s)) (data_loaded s)
           (current_excel_file s) (polls s) (S (ticks s)), Returned tt).

Definition increment_processed (env : Env) (increment : Z) (sample_word : option pystr)
    (sample_step latest_limit : Z) : M Z :=
  fun s =>
    let (st, r) := Loading.increment_processed (clock env (ticks s)) increment
                     sample_word sample_step latest_limit (progress s) in
    (mkRun (con s) st (data_loaded s) (current_excel_file s) (polls s) (S (ticks s)), r).

(** Reading the global [loading_cancelled]. *)
Definition read_cancelled (env : Env) : M bool :=
  fun s =>
    (mkRun (con s) (progress s) (data_loaded s) (current_excel_file s)
           (S (polls s)) (ticks s),
     Returned (cancel_seen env (polls s))).

Definition set_loaded (loaded : bool) (file : option pystr) : M unit :=
  fun s => (mkRun (con s) (progress s) loaded file (polls s) (ticks s), Returned tt).

(** *** [_rebuild_sqlite_from_excel] *)

Definition SAMPLE_STEP : Z := 10.
Definition LATEST_LIMIT : Z := 40.
Definition BATCH_SIZE : Z := 10000.

Definition cancelled_error : exn := RuntimeError "loading cancelled".

(** [row[i]] for [0 <= i < len(row)]. *)
Definition item (row : list Cell) (i : Z) : Cell :=
  List.nth (Z.to_nat i) row None.

Definition text_or_null (c : Cell) : sqlval :=
  match c with None => SqlNull | Some s => SqlText s end.

(** The display word of a row: the stripped rendering of its word cell. *)
Definition display_word_of (word_col_idx : Z) (row : list Cell) : pystr :=
  let word_raw := if (word_col_idx <? Py.len row)%Z then item row word_col_idx else None in
  match word_raw with None => [] | Some s => strip s end.

(** Truth value of a row tuple. *)
Definition truthy_row (row : list Cell) : bool :=
  match row with [] => false | _ => true end.

(** The record buffered for a row. *)
Definition record_of (sheet_title : pystr) (word_col_idx row_idx : Z)
    (row : list Cell) : Params :=
  let display_word := display_word_of word_col_idx row in
  let norm := Utils.normalize_word (Some display_word) in
  let phonetic_val := if (truthy_row row && (Py.len row >? 2)%Z) then item row 2 else None in
  let meaning_val := if (truthy_row row && (Py.len row >? 3)%Z) then item row 3 else None in
  mkParams (SqlText norm)
           (if truthy display_word then SqlText display_word else SqlNull)
           (text_or_null phonetic_val) (text_or_null meaning_val)
           (SqlText sheet_title) (SqlInteger row_idx).

Fixpoint load_rows (env : Env) (sheet_title : pystr) (word_col_idx row_idx : Z)
    (rows : list (list Cell)) (batch : list Params) : M (list Params) :=
  match rows with
  | [] => ret batch
  | row :: rest =>
      cancelled <- read_cancelled env ;;
      if cancelled : bool then
        on_con rollback ;;; raise cancelled_error
      else
        let batch := batch ++ [record_of sheet_title word_col_idx row_idx row] in
        increment_processed env 1 (Some (display_word_of word_col_idx row))
                            SAMPLE_STEP LATEST_LIMIT ;;;
        batch <- (if (Py.len batch >=? BATCH_SIZE)%Z
                  then on_con (executemany batch) ;;; ret []
                  else ret batch) ;;
        load_rows env sheet_title word_col_idx (row_idx + 1) rest batch
  end.

Definition load_sheet (env : Env) (ws : Worksheet) : M unit :=
  cancelled <- read_cancelled env ;;
  if cancelled : bool then
    on_con rollback ;;; raise cancelled_error
  else
    on_progress (fun now => Loading.set_current_sheet now (Some (title ws))) env ;;;
    let max_cols := match max_column ws with
                    | Some c => if (c =? 0)%Z then 1%Z else c
                    | None => 1%Z
                    end in
    let word_col_idx := if (max_cols >? 1)%Z then 1%Z else 0%Z in
    batch <- load_rows env (title ws) word_col_idx 0 (iter_rows ws) [] ;;
    match batch with
    | [] => ret tt
    | _ => on_con (executemany batch)
    end.

Fixpoint load_sheets (env : Env) (sheets : list Worksheet) : M unit :=
  match sheets with
  | [] => ret tt
  | ws :: rest => load_sheet env ws ;;; load_sheets env rest
  end.

(** The body of [_rebuild_sqlite_from_excel(file_path)] once the workbook
    [wb] is loaded and the connection is made.  Its [logger.info] lines
    only write to the log; the last one is recorded by [loader_worker]. *)
Definition rebuild_body (env : Env) (file_path : pystr) (wb : Workbook) : M unit :=
  on_con pragma ;;; on_con pragma ;;; on_con pragma ;;;
  on_con drop_table ;;;
  on_con create_table ;;;
  on_con begin ;;;
  on_progress Loading.clear_error env ;;;
  load_sheets env wb ;;;
  on_con (create_index "idx_entries_word_norm") ;;;
  on_con (create_index "idx_entries_sheet_row") ;;;
  on_con commit ;;;
  on_con pragma ;;; on_con pragma ;;;
  on_con commit ;;;
  on_con vacuum ;;;
  set_loaded true (Some file_path).

Definition _rebuild_sqlite_from_excel (env : Env) (file_path : pystr) (wb : Workbook)
    : M unit :=
  finally (rebuild_body env file_path wb) (on_con close).

(** *** The module state and the orchestration *)

(** A [threading.Thread] whose target is [loader_worker]. *)
Record Thread : Type := mkThread { thread_args : pystr }.

Inductive LogRecord : Type :=
| WarnAlreadyRunning
| InfoPreparing
| InfoThreadStarted (file_name : pystr)
| InfoLoadStarted (file_name : pystr) (total_rows : Z)
| InfoLoadDone (file_name : pystr)
| ErrorLoadFailed (exc : exn)
| InfoUnloaded.

(** The file the connections of [app_state.db_pool] have open.
    [DatabasePool.initialize] opened them all, one after the other, on the
    file that was at [SQLITE_DB_PATH] then, and no connection of the pool
    is ever opened again.  They are [Attached] while that file is still
    the one at the path.  Once [os.remove] has unlinked it they go on
    reading the removed file: [Detached db], where [db] is its content,
    which no longer changes. *)
Inductive PoolFile : Type :=
| Attached
| Detached (db : Db).

(** [app_state], the globals of the module, the file at [SQLITE_DB_PATH]
    ([None] when there is no such file), the log, and the file the
    connections of the pool have open. *)
Record World : Type := mkWorld {
  app_data_loaded : bool;
  app_current_excel_file : option pystr;
  app_db_pool : option DbPool.Pool;
  loading_state : Loading.State;
  loading_thread : option Thread;
  started_threads : list Thread;
  db_file : option Db;
  log : list LogRecord;
  pool_file : PoolFile
}.

Definition set_data_loaded (v : bool) (w : World) : World :=
  mkWorld v (app_current_excel_file w) (app_db_pool w) (loading_state w)
          (loading_thread w) (started_threads w) (db_file w) (log w) (pool_file w).
Definition set_current_excel_file (v : option pystr) (w : World) : World :=
  mkWorld (app_data_loaded w) v (app_db_pool w) (loading_state w)
          (loading_thread w) (started_threads w) (db_file w) (log w) (pool_file w).
Definition set_db_pool (v : option DbPool.Pool) (w : World) : World :=
  mkWorld (app_data_loaded w) (app_current_excel_file w) v (loading_state w)
          (loading_thread w) (started_threads w) (db_file w) (log w) (pool_file w).
Definition set_loading_state (v : Loading.State) (w : World) : World :=
  mkWorld (app_data_loaded w) (app_current_excel_file w) (app_db_pool w) v
          (loading_thread w) (started_threads w) (db_file w) (log w) (pool_file w).
Definition set_loading_thread (v : option Thread) (w : World) : World :=
  mkWorld (app_data_loaded w) (app_current_excel_file w) (app_db_pool w)
          (loading_state w) v (started_threads w) (db_file w) (log w) (pool_file w).
Definition start_thread (t : Thread) (w : World) : World :=
  mkWorld (app_data_loaded w) (app_current_excel_file w) (app_db_pool w)
          (loading_state w) (loading_thread w) (started_threads w ++ [t])
          (db_file w) (log w) (pool_file w).
Definition set_db_file (v : option Db) (w : World) : World :=
  mkWorld (app_data_loaded w) (app_current_excel_file w) (app_db_pool w)
          (loading_state w) (loading_thread w) (started_threads w) v (log w) (pool_file w).
Definition logger (r : LogRecord) (w : World) : World :=
  mkWorld (app_data_loaded w) (app_current_excel_file w) (app_db_pool w)
          (loading_state w) (loading_thread w) (started_threads w) (db_file w)
          (log w ++ [r]) (pool_file w).
Definition set_pool_file (v : PoolFile) (w : World) : World :=
  mkWorld (app_data_loaded w) (app_current_excel_file w) (app_db_pool w)
          (loading_state w) (loading_thread w) (started_threads w) (db_file w)
          (log w) v.

(** [os.path.basename(path)] *)
Fixpoint basename (path : pystr) : pystr :=
  match path with
  | [] => []
  | c :: r =>
      if List.existsb (N.eqb 47) r then basename r
      else if (c =? 47)%N then r else path
  end.

(** [compute_total_rows(file_path)] on a workbook that loads. *)
Definition compute_total_rows (wb : Workbook) : Z :=
  List.fold_left
    (fun total ws => (total + match max_row ws with Some n => n | None => 0 end)%Z)
    wb 0%Z.

(** [str(exc)].  The message of a [RuntimeError] or of a
    [sqlite3.OperationalError] is the one it carries; the other exceptions,
    which no run of the loader raises (lemma [rebuild_outcome]), get a
    non-empty text that stands for theirs. *)
Definition str_exc (exc : exn) : pystr :=
  match exc with
  | RuntimeError msg => of_string msg
  | OperationalError msg => of_string msg
  | ZeroDivisionError => of_string "division by zero"
  | QueueEmpty => []
  | ValueError => of_string "'timeout' must be a non-negative number"
  | PoolError => of_string "no pooled connection"
  | IntegrityError => of_string "NOT NULL constraint failed: entries.word_norm"
  | OverflowError msg => of_string msg
  | LoadError text => text
  end.

(** [loader_worker(file_path)], run to its end; [wb] is the workbook the
    file holds.  The worker resets [loading_cancelled] before it loads:
    what [cancel_seen] tells is what is written to the flag after that. *)
Definition loader_worker (env : Env) (file_path : pystr) (wb : Workbook)
    (w : World) : World :=
  let file_name := basename file_path in
  let total_rows := compute_total_rows wb in
  let st := Loading.reset_for_file (clock env 0) file_name total_rows (loading_state w) in
  let w := logger (InfoLoadStarted file_name total_rows) w in
  let run := mkRun (connect (db_file w)) st (app_data_loaded w)
                   (app_current_excel_file w) 0 1 in
  let publish (s : Run) (w : World) : World :=
    set_db_file (Some (committed (con s)))
      (set_current_excel_file (current_excel_file s)
        (set_data_loaded (data_loaded s) w)) in
  match _rebuild_sqlite_from_excel env file_path wb run with
  | (s, Returned _) =>
      let w := logger (InfoLoadDone file_name) (publish s w) in
      let st := Loading.mark_finished (clock env (ticks s)) None (progress s) in
      set_loading_thread None (set_loading_state st w)
  | (s, Raised exc) =>
      let w := logger (ErrorLoadFailed exc) (publish s w) in
      let st := Loading.mark_finished (clock env (ticks s)) (Some (str_exc exc)) (progress s) in
      let w := set_data_loaded false w in
      let st := Loading.mark_finished (clock env (S (ticks s))) None st in
      set_loading_thread None (set_loading_state st w)
  | (s, Hangs) => set_loading_state (progress s) (publish s w)
  end.



(** [start_loading(file_path)] up to its [return]; the thread it starts
    is recorded in [started_threads] and runs [loader_worker] later. *)
Definition start_loading (file_path : pystr) (w : World) : World * bool :=
  if Loading.running (Loading.snapshot (loading_state w)) then
    (logger WarnAlreadyRunning w, false)
  else
    let w := set_data_loaded false w in
    let w := set_current_excel_file None w in
    let w := logger InfoPreparing w in
    let t := mkThread file_path in
    let w := set_loading_thread (Some t) w in
    let w := start_thread t w in
    let w := logger (InfoThreadStarted (basename file_path)) w in
    (w, true).

(** The connections of the pool after the file at the path was removed:
    those that had it open keep it, with its content [db]. *)
Definition detach (db : Db) (w : World) : World :=
  match pool_file w with
  | Attached => set_pool_file (Detached db) w
  | Detached _ => w
  end.

(** [unload_data()] when the file can be removed. *)
Definition unload_data (w : World) : World :=
  let w := set_data_loaded false w in
  let w := set_current_excel_file None w in
  match db_file w with
  | Some db => logger InfoUnloaded (set_db_file None (detach db w))
  | None => w
  end.

(** What a readiness check meets: a connection another thread returns to
    the pool while the check waits for one, and the error, if any, that
    sqlite raises on the [SELECT]. *)
Record CheckEnv : Type := mkCheckEnv {
  arrival : option (Q * DbPool.Connection);
  select_fault : option exn
}.

(** Whether the file holds a table named [entries]. *)
Definition has_entries (f : option Db) : bool :=
  match f with Some (Some _) => true | _ => false end.

(** The database a statement reads through a connection made on the spot
    ([sqlite3.connect(SQLITE_DB_PATH)]: the file at the path, created
    empty when there is none), and through a connection borrowed from the
    pool (the file the pool has open). *)
Definition path_db (w : World) : Db :=
  match db_file w with Some db => db | None => None end.

Definition pooled_db (w : World) : Db :=
  match pool_file w with
  | Attached => path_db w
  | Detached db => db
  end.

(** [SELECT name FROM sqlite_master WHERE type='table' AND name='entries']
    followed by [cur.fetchone() is not None], on a connection that reads
    [db]. *)
Definition select_entries (cenv : CheckEnv) (db : Db) (w : World) : World * outcome bool :=
  match select_fault cenv with
  | Some e => (w, Raised e)
  | None => (w, Returned (has_entries (Some db)))
  end.

(** [is_data_loaded()] *)
Definition is_data_loaded (cenv : CheckEnv) (w : World) : World * outcome bool :=
  let answer (w : World) := (w, Returned (app_data_loaded w)) in
  if negb (app_data_loaded w) then
    match db_file w with
    | Some _ =>
        match app_db_pool w with
        | Some pool =>
            match DbPool.get_db (arrival cenv)
                                (fun _ w => select_entries cenv (pooled_db w) w) pool w with
            | (pool, w, Returned found) =>
                let w := set_db_pool (Some pool) w in
                answer (if found : bool then set_data_loaded true w else w)
            | (pool, w, Raised _) =>
                answer (set_data_loaded false (set_db_pool (Some pool) w))
            | (pool, w, Hangs) => (set_db_pool (Some pool) w, Hangs)
            end
        | None =>
            match select_entries cenv (path_db w) w with
            | (w, Returned found) =>
                answer (if found : bool then set_data_loaded true w else w)
            | (w, Raised _) => answer (set_data_loaded false w)
            | (w, Hangs) => (w, Hangs)
            end
        end
    | None => answer w
    end
  else answer w.

(** *** Notions used to state the properties of the loader *)

(** The records of the rows of a sheet from row [row_idx] on. *)
Fixpoint records_from (sheet_title : pystr) (word_col_idx row_idx : Z)
    (rows : list (list Cell)) : list Params :=
  match rows with
  | [] => []
  | row :: rest =>
      record_of sheet_title word_col_idx row_idx row
      :: records_from sheet_title word_col_idx (row_idx + 1) rest
  end.

(** The word column of a sheet: column 1 when the sheet has more than one
    column, column 0 otherwise. *)
Definition word_column (ws : Worksheet) : Z :=
  match max_column ws with
  | Some c => if (c >? 1)%Z then 1%Z else 0%Z
  | None => 0%Z
  end.

Definition sheet_records (ws : Worksheet) : list Params :=
  records_from (title ws) (word_column ws) 0 (iter_rows ws).

(** The full set of records of a workbook, in insertion order. *)
Definition workbook_records (wb : Workbook) : list Params :=
  List.concat (List.map sheet_records wb).

(** The polls of the cancellation flag in a run that is not cancelled:
    one at the entry of each sheet, one at the entry of each row. *)
Definition sheet_polls (ws : Worksheet) : nat := S (List.length (iter_rows ws)).
Definition workbook_polls (wb : Workbook) : nat :=
  List.fold_right (fun ws n => (sheet_polls ws + n)%nat) 0%nat wb.

(** Whether the flag is seen set at one of [count] polls from [first]. *)
Definition cancel_observed (env : Env) (first count : nat) : bool :=
  List.existsb (cancel_seen env) (List.seq first count).

(** The rows of the table [entries] that other connections read. *)
Definition committed_records (c : Con) : option (list Params) :=
  match committed c with
  | Some t => Some (List.map fields (table_rows t))
  | None => None
  end.

(** A pool whose queue holds no more than its capacity. *)
Definition pool_bounded (p : DbPool.Pool) : Prop :=
  (0 < DbPool.pool_size p)%Z ->
  (Py.len (DbPool.queue p) <= DbPool.pool_size p)%Z.

(** Whether [get_connection()] obtains a connection within its default
    timeout. *)
Definition connection_available (arr : option (Q * DbPool.Connection))
    (p : DbPool.Pool) : bool :=
  match DbPool.queue p with
  | _ :: _ => true
  | [] =>
      match arr with
      | Some (delay, _) => negb (Qle_bool DbPool.DEFAULT_TIMEOUT delay)
      | None => false
      end
  end.

(** The database the readiness check reads: the file the pool has open
    when there is a pool, the file at the path otherwise. *)
Definition checked_db (w : World) : Db :=
  match app_db_pool w with
  | Some _ => pooled_db w
  | None => path_db w
  end.

(** [os.path.exists(SQLITE_DB_PATH)] *)
Definition file_exists (w : World) : bool :=
  match db_file w with Some _ => true | None => false end.

(** Whether the readiness check runs to its end without an exception. *)
Definition check_completes (cenv : CheckEnv) (w : World) : bool :=
  match select_fault cenv with
  | Some _ => false
  | None =>
      match app_db_pool w with
      | Some p => connection_available (arrival cenv) p
      | None => true
      end
  end.

(** A record the [NOT NULL] constraint accepts. *)
Definition not_null (p : Params) : Prop := word_norm p <> SqlNull.

(** The state of a load that is under way: the transaction is open, other
    connections read [base], and the connection sees the records [recs]
    in a table without index. *)
Definition loading (base : Db) (recs : list Params) (s : Run) : Prop :=
  committed (con s) = base /\ in_transaction (con s) = true /\
  exists t, working (con s) = Some t /\
            List.map fields (table_rows t) = recs /\ table_indexes t = [].

Definition rolled_back (base : Db) (s : Run) : Prop :=
  committed (con s) = base /\ working (con s) = base /\
  in_transaction (con s) = false.

End Database.

(** ** Notions used to state further properties of the loader *)

Module Invariants.
Import PyStr Database.

(** A computation of the loader keeps a property of its state. *)
Definition preserves {A} (P : Run -> Prop) (m : M A) : Prop :=
  forall s, P s -> P (fst (m s)).

(** The progress store still describes the same job. *)
Definition same_job (st st' : Loading.State) : Prop :=
  Loading.running st' = Loading.running st /\
  Loading.file st' = Loading.file st /\
  Loading.total_words st' = Loading.total_words st /\
  Loading.error st' = Loading.error st.

(** The sample list is within the cap the loader uses. *)
Definition sampled_within (st : Loading.State) : Prop :=
  (Py.len (Loading.latest_words st) <= LATEST_LIMIT)%Z.

(** The number of rows of a workbook. *)
Definition workbook_rows (wb : Workbook) : Z :=
  List.fold_right (fun ws n => (Py.len (iter_rows ws) + n)%Z) 0%Z wb.

(** The rowids of a table are 1, 2, ... in the order of its rows. *)
Definition numbered (t : Table) : Prop :=
  List.map id (table_rows t)
  = List.map Z.of_nat (List.seq 1 (List.length (table_rows t))).

Definition db_numbered (db : Db) : Prop :=
  match db with Some t => numbered t | None => True end.

(** The tables of the connection, as the file holds them and as the
    connection sees them, are numbered. *)
Definition stores_numbered (s : Run) : Prop :=
  db_numbered (committed (con s)) /\ db_numbered (working (con s)).

(** The progress store of the run describes the job of [st], and its
    sample list is within the cap if that of [st] is. *)
Definition job_kept (st : Loading.State) (s : Run) : Prop :=
  same_job st (progress s) /\
  (sampled_within st -> sampled_within (progress s)).

(** The readiness flag and the current file of the run are [loaded] and
    [file]. *)
Definition flags_kept (loaded : bool) (file : option pystr) (s : Run) : Prop :=
  data_loaded s = loaded /\ current_excel_file s = file.


(** [percent] is the value the store computes from the count and the
    total it holds. *)
Definition percent_tracks (st : Loading.State) : Prop :=
  (Loading.percent st ==
   if (Loading.total_words st >? 0)%Z
   then inject_Z (Loading.processed_words st) / inject_Z (Loading.total_words st) * 100
   else 0)%Q.

(** The dimension [max_row] of every sheet is the number of its rows. *)
Definition dimensions_exact (wb : Workbook) : Prop :=
  List.Forall (fun ws => max_row ws = Some (Py.len (iter_rows ws))) wb.


End Invariants.

(** ** [app/routers]: the handlers that read and drive the store

    The handlers of [routers/wordbook.py], [routers/lookup.py] and
    [routers/excel.py] that call the ingestion core.  Their own loggers
    only write to the log files and are left out. *)

Module Routers.
Import PyStr Database.

(** An exception caught by a handler's [except Exception]. *)
Inductive failure : Type :=
| Exn (e : exn)
| AttributeError.            (* [app_state.db_pool] is [None] *)

(** The [detail] of an [HTTPException]. *)
Inductive Detail : Type :=
| NotReady                   (* "loading or db not ready" *)
| InvalidRange               (* "invalid range" *)
| MissingWord                (* "missing word" *)
| MissingSheetOrRow          (* "missing sheet or row_index" *)
| NotFound                   (* "not found" *)
| InvalidFile                (* "invalid file" *)
| LoadingInProgress          (* "loading in progress" *)
| DbError (exc : failure).   (* f"db error: {exc}" *)

(** What a handler answers: the body it returns, the [HTTPException] it
    raises, another exception that leaves it, or nothing when it blocks. *)
Inductive Reply (A : Type) : Type :=
| Ok (body : A)
| HTTPException (status_code : Z) (detail : Detail)
| Uncaught (e : exn)
| Unanswered.

Arguments Ok {A} body.
Arguments HTTPException {A} status_code detail.
Arguments Uncaught {A} e.
Arguments Unanswered {A}.

(** What a request meets: at the readiness check, and at the statement the
    handler runs itself; [py_int] is [int(r)] on a text; [track_returns]
    tells whether the [await track_ip(...)] of [api_lookup] comes back
    (what it raises is caught, and what it writes goes to the activity
    database, which is not part of the state). *)
Record ReqEnv : Type := mkReqEnv {
  at_check : CheckEnv;
  at_query : CheckEnv;
  py_int : pystr -> option Z;
  track_returns : bool
}.

(** A [SELECT ... FROM entries] through a pooled connection reads the table
    of the file the pool has open; without that table sqlite raises.
    [table_rows] lists the rows in rowid order, the order in which a
    statement without [ORDER BY] visits them. *)
Definition select_from_entries (cenv : CheckEnv) (w : World) : outcome Table :=
  match select_fault cenv with
  | Some e => Raised e
  | None =>
      match pooled_db w with
      | Some t => Returned t
      | None => Raised (OperationalError "no such table: entries")
      end
  end.

(** [try: with app_state.db_pool.get_db() as conn: body] with the handlers'
    [except Exception as exc: raise HTTPException(500, f"db error: {exc}")].
    An [HTTPException] raised in [body] leaves the [with] block as a
    returned value does and is raised again by [except HTTPException]. *)
Definition with_pool {A} (cenv : CheckEnv) (body : World -> outcome (Reply A))
    (w : World) : World * Reply A :=
  match app_db_pool w with
  | None => (w, HTTPException 500 (DbError AttributeError))
  | Some pool =>
      match DbPool.get_db (arrival cenv) (fun _ w => (w, body w)) pool w with
      | (pool, w, Returned r) => (set_db_pool (Some pool) w, r)
      | (pool, w, Raised e) =>
          (set_db_pool (Some pool) w, HTTPException 500 (DbError (Exn e)))
      | (pool, w, Hangs) => (set_db_pool (Some pool) w, Unanswered)
      end
  end.

Fixpoint str_eqb (a b : pystr) : bool :=
  match a, b with
  | [], [] => true
  | x :: a, y :: b => (x =? y)%N && str_eqb a b
  | _, _ => false
  end.

(** [column = ?] for a text and for an integer parameter. *)
Definition text_is (s : pystr) (v : sqlval) : bool :=
  match v with SqlText s' => str_eqb s' s | _ => false end.
Definition integer_is (z : Z) (v : sqlval) : bool :=
  match v with SqlInteger z' => (z' =? z)%Z | _ => false end.

(** Binding a Python [int] to a placeholder of a statement, once the
    statement is prepared: [sqlite3] raises [OverflowError] for an integer
    that does not fit in 64 bits. *)
Definition TOO_LARGE_FOR_SQLITE : exn :=
  OverflowError "Python int too large to convert to SQLite INTEGER".

Definition bind_int (z : Z) : outcome Z :=
  if ((- 2 ^ 63 <=? z) && (z <? 2 ^ 63))%Z then Returned z
  else Raised TOO_LARGE_FOR_SQLITE.

(** [v or ""] on a value read from the store. *)
Definition or_empty (v : sqlval) : sqlval :=
  match v with
  | SqlNull => SqlText []
  | SqlText [] => SqlText []
  | SqlInteger 0 => SqlText []
  | v => v
  end.

(** *** [routers/wordbook.py] *)

Record Batch : Type := mkBatch {
  batch_label : pystr;
  batch_start : Z;
  batch_end : Z
}.

Record BatchList : Type := mkBatchList {
  batches_total : Z;
  batches_size : Z;
  batches : list Batch
}.

(** [str(n)] *)
Definition str_int (n : Z) : pystr :=
  of_string (NilZero.string_of_int (Z.to_int n)).

(** [f"V{start}-{end}"] *)
Definition label_of (start end_ : Z) : pystr :=
  of_string "V" ++ str_int start ++ of_string "-" ++ str_int end_.

(** The loop [while start <= total_count: ...]; [None] when the fuel does
    not see it end. *)
Fixpoint batch_loop (fuel : nat) (start total_count batch_size : Z)
    (acc : list Batch) : option (list Batch) :=
  if (start <=? total_count)%Z then
    match fuel with
    | O => None
    | S fuel =>
        let end_ := Z.min (start + batch_size - 1) total_count in
        batch_loop fuel (end_ + 1) total_count batch_size
                   (acc ++ [mkBatch (label_of start end_) start end_])
    end
  else Some acc.

(** [api_wordbook_batches()] *)
Definition api_wordbook_batches (env : ReqEnv) (w : World) : World * Reply BatchList :=
  match is_data_loaded (at_check env) w with
  | (w, Returned true) =>
      with_pool (at_query env)
        (fun w =>
           match select_from_entries (at_query env) w with
           | Returned t =>
               let total_count := Py.len (table_rows t) in
               let batch_size := 100%Z in
               if (total_count >? 0)%Z then
                 match batch_loop (Z.to_nat total_count) 1 total_count batch_size [] with
                 | Some bs => Returned (Ok (mkBatchList total_count batch_size bs))
                 | None => Hangs
                 end
               else Returned (Ok (mkBatchList total_count batch_size []))
           | Raised e => Raised e
           | Hangs => Hangs
           end) w
  | (w, Returned false) => (w, HTTPException 400 NotReady)
  | (w, Raised e) => (w, Uncaught e)
  | (w, Hangs) => (w, Unanswered)
  end.

Record Item : Type := mkItem {
  item_id : Z;
  item_word : sqlval;
  item_phonetic : sqlval;
  item_meaning : sqlval
}.

Record RangeBody : Type := mkRangeBody {
  range_start : Z;
  range_end : Z;
  range_count : Z;
  range_items : list Item
}.

(** [ORDER BY id ASC] *)
Fixpoint insert_by_id (e : Entry) (l : list Entry) : list Entry :=
  match l with
  | [] => [e]
  | x :: r => if (id e <=? id x)%Z then e :: l else x :: insert_by_id e r
  end.

Definition order_by_id (l : list Entry) : list Entry :=
  List.fold_right insert_by_id [] l.

Definition item_of (e : Entry) : Item :=
  mkItem (id e) (or_empty (word (fields e))) (or_empty (phonetic (fields e)))
         (or_empty (meaning (fields e))).

(** [api_wordbook_range(start, end)] *)
Definition api_wordbook_range (env : ReqEnv) (start end_ : Z) (w : World)
    : World * Reply RangeBody :=
  match is_data_loaded (at_check env) w with
  | (w, Returned true) =>
      if (start <=? 0)%Z || (end_ <? start)%Z || (end_ - start >? 1000)%Z then
        (w, HTTPException 400 InvalidRange)
      else
        with_pool (at_query env)
          (fun w =>
             match select_from_entries (at_query env) w with
             | Returned t =>
                 match bind_int start with
                 | Returned _ =>
                     match bind_int end_ with
                     | Returned _ =>
                         let rows :=
                           order_by_id
                             (List.filter
                                (fun e => (start <=? id e)%Z && (id e <=? end_)%Z)
                                (table_rows t)) in
                         let items := List.map item_of rows in
                         Returned (Ok (mkRangeBody start end_ (Py.len items) items))
                     | Raised e => Raised e
                     | Hangs => Hangs
                     end
                 | Raised e => Raised e
                 | Hangs => Hangs
                 end
             | Raised e => Raised e
             | Hangs => Hangs
             end) w
  | (w, Returned false) => (w, HTTPException 400 NotReady)
  | (w, Raised e) => (w, Uncaught e)
  | (w, Hangs) => (w, Unanswered)
  end.

(** *** [routers/lookup.py] *)

(** The object [{"1": w or "", "2": phonetic or "", "3": meaning or ""}]. *)
Record RowObj : Type := mkRowObj {
  col1 : sqlval;
  col2 : sqlval;
  col3 : sqlval
}.

Definition row_obj (p : Params) : RowObj :=
  mkRowObj (or_empty (word p)) (or_empty (phonetic p)) (or_empty (meaning p)).

Record LookupBody : Type := mkLookupBody {
  lookup_word : pystr;
  lookup_row : RowObj
}.

(** [api_lookup(word, request)] *)
Definition api_lookup (env : ReqEnv) (word : pystr) (w : World)
    : World * Reply LookupBody :=
  match is_data_loaded (at_check env) w with
  | (w, Returned true) =>
      if negb (truthy word) then (w, HTTPException 400 MissingWord)
      else
        let norm := Utils.normalize_word (Some word) in
        with_pool (at_query env)
          (fun w =>
             match select_from_entries (at_query env) w with
             | Returned t =>
                 match List.filter (fun e => text_is norm (word_norm (fields e)))
                                   (table_rows t) with
                 | [] => Returned (HTTPException 404 NotFound)
                 | e :: _ =>
                     if track_returns env
                     then Returned (Ok (mkLookupBody word (row_obj (fields e))))
                     else Hangs
                 end
             | Raised e => Raised e
             | Hangs => Hangs
             end) w
  | (w, Returned false) => (w, HTTPException 400 NotReady)
  | (w, Raised e) => (w, Uncaught e)
  | (w, Hangs) => (w, Unanswered)
  end.

Record Match : Type := mkMatch {
  match_sheet : sqlval;
  match_row_index : Z
}.

Record SearchBody : Type := mkSearchBody {
  search_word : pystr;
  search_normalized : pystr;
  search_count : Z;
  search_matches : list Match
}.

(** [{"sheet": s, "row_index": int(r) if r is not None else 0}] *)
Definition match_of (env : ReqEnv) (p : Params) : outcome Match :=
  match row_index p with
  | SqlNull => Returned (mkMatch (sheet p) 0)
  | SqlInteger z => Returned (mkMatch (sheet p) z)
  | SqlText s =>
      match py_int env s with
      | Some z => Returned (mkMatch (sheet p) z)
      | None => Raised ValueError
      end
  end.

(** [api_excel_search(word)] *)
Definition api_excel_search (env : ReqEnv) (word : pystr) (w : World)
    : World * Reply SearchBody :=
  match is_data_loaded (at_check env) w with
  | (w, Returned true) =>
      if negb (truthy word) then (w, HTTPException 400 MissingWord)
      else
        let norm := Utils.normalize_word (Some word) in
        with_pool (at_query env)
          (fun w =>
             match select_from_entries (at_query env) w with
             | Returned t =>
                 match List.filter (fun e => text_is norm (word_norm (fields e)))
                                   (table_rows t) with
                 | [] => Returned (Ok (mkSearchBody word norm 0 []))
                 | e :: _ =>
                     match match_of env (fields e) with
                     | Returned m => Returned (Ok (mkSearchBody word norm 1 [m]))
                     | Raised exc => Raised exc
                     | Hangs => Hangs
                     end
                 end
             | Raised e => Raised e
             | Hangs => Hangs
             end) w
  | (w, Returned false) => (w, HTTPException 400 NotReady)
  | (w, Raised e) => (w, Uncaught e)
  | (w, Hangs) => (w, Unanswered)
  end.

Record RowBody : Type := mkRowBody {
  row_sheet : pystr;
  row_row_index : Z;
  row_row : RowObj
}.

(** [api_excel_row(sheet, row_index)] *)
Definition api_excel_row (env : ReqEnv) (sheet_name : pystr) (row_idx : Z) (w : World)
    : World * Reply RowBody :=
  match is_data_loaded (at_check env) w with
  | (w, Returned true) =>
      if negb (truthy sheet_name) || (row_idx <? 0)%Z then
        (w, HTTPException 400 MissingSheetOrRow)
      else
        with_pool (at_query env)
          (fun w =>
             match select_from_entries (at_query env) w with
             | Returned t =>
                 match bind_int row_idx with
                 | Returned _ =>
                     match List.filter
                             (fun e => text_is sheet_name (sheet (fields e))
                                       && integer_is row_idx (row_index (fields e)))
                             (table_rows t) with
                     | [] => Returned (HTTPException 404 NotFound)
                     | e :: _ =>
                         Returned (Ok (mkRowBody sheet_name row_idx (row_obj (fields e))))
                     end
                 | Raised e => Raised e
                 | Hangs => Hangs
                 end
             | Raised e => Raised e
             | Hangs => Hangs
             end) w
  | (w, Returned false) => (w, HTTPException 400 NotReady)
  | (w, Raised e) => (w, Uncaught e)
  | (w, Hangs) => (w, Unanswered)
  end.

(** *** [routers/excel.py] *)

(** The dictionary [api_excel_status] returns: the snapshot of the progress
    store with the keys ["loaded"] and ["current_file"] added. *)
Record Status : Type := mkStatus {
  status_state : Loading.State;
  status_loaded : bool;
  status_current_file : option pystr
}.

(** [api_excel_status()] *)
Definition api_excel_status (env : ReqEnv) (w : World) : World * Reply Status :=
  match is_data_loaded (at_check env) w with
  | (w, Returned actual_ready) =>
      let state := Loading.snapshot (loading_state w) in
      (w, Ok (mkStatus state actual_ready (app_current_excel_file w)))
  | (w, Raised e) => (w, Uncaught e)
  | (w, Hangs) => (w, Unanswered)
  end.

(** The directory the service runs in: [BASE_DIR] and the names that
    [list_excel_files()] returns. *)
Record Files : Type := mkFiles {
  base_dir : pystr;
  excel_names : list pystr
}.

(** [s.startswith("/")] and [s.endswith("/")] *)
Definition starts_with_sep (s : pystr) : bool :=
  match s with c :: _ => (c =? 47)%N | [] => false end.
Definition ends_with_sep (s : pystr) : bool := starts_with_sep (List.rev s).

(** [os.path.join(a, b)] of [posixpath]. *)
Definition path_join (a b : pystr) : pystr :=
  if starts_with_sep b then b
  else if negb (truthy a) || ends_with_sep a then a ++ b
  else a ++ 47%N :: b.

(** [api_excel_load(file)] among other threads; the body is
    [{"started": success}].  [others] is what the other threads do between
    the handler's look at the progress store and the one of
    [start_loading]: a loader thread that was started earlier may begin
    there. *)
Definition api_excel_load_among (fs : Files) (others : World -> World) (file : pystr)
    (w : World) : World * Reply bool :=
  let file_name := strip file in
  if negb (truthy file_name) || negb (List.existsb (str_eqb file_name) (excel_names fs)) then
    (w, HTTPException 400 InvalidFile)
  else if Loading.running (Loading.snapshot (loading_state w)) then
    (w, HTTPException 409 LoadingInProgress)
  else
    let file_path := path_join (base_dir fs) file_name in
    let (w, success) := start_loading file_path (others w) in
    (w, Ok success).

(** [api_excel_load(file)] when no other thread acts in between. *)
Definition api_excel_load (fs : Files) (file : pystr) (w : World) : World * Reply bool :=
  api_excel_load_among fs (fun w => w) file w.

(** [api_excel_unload()]; the body is [{"ok": True}]. *)
Definition api_excel_unload (w : World) : World * Reply bool :=
  (unload_data w, Ok true).

(** *** Notions used to state the properties of the handlers *)

(** The service answers from the table [t]: the readiness flag is set, the
    file the pool has open holds [t], a table of fewer than 2^63 rows as
    every table of sqlite is, and the pool is within its capacity and has
    a connection to lend. *)
Definition serving (t : Table) (w : World) : Prop :=
  app_data_loaded w = true /\
  pooled_db w = Some t /\
  (Py.len (table_rows t) < 2 ^ 63)%Z /\
  exists p, app_db_pool w = Some p /\ pool_bounded p /\ DbPool.queue p <> [].

(** The statement of the request meets no fault of the engine. *)
Definition sound_query (env : ReqEnv) : Prop := select_fault (at_query env) = None.

(** The integers from [a] to [b], both included. *)
Definition ids_between (a b : Z) : list Z :=
  List.map (fun k => (a + Z.of_nat k)%Z) (List.seq 0 (Z.to_nat (b - a + 1))).

(** The requests a client sends to the handlers that read the state. *)
Inductive Request : Type :=
| GetLookup (word : pystr)
| GetSearch (word : pystr)
| GetRow (sheet_name : pystr) (row_idx : Z)
| GetBatches
| GetRange (start end_ : Z)
| GetStatus.

(** Whether the handler came back, with a body or with an exception. *)
Definition answered {A} (r : Reply A) : bool :=
  match r with Unanswered => false | _ => true end.

(** One request, and a sequence of requests served one after the other;
    the boolean tells whether every one of them was answered. *)
Definition serve (env : ReqEnv) (req : Request) (w : World) : World * bool :=
  match req with
  | GetLookup word => let (w, r) := api_lookup env word w in (w, answered r)
  | GetSearch word => let (w, r) := api_excel_search env word w in (w, answered r)
  | GetRow sheet_name row_idx =>
      let (w, r) := api_excel_row env sheet_name row_idx w in (w, answered r)
  | GetBatches => let (w, r) := api_wordbook_batches env w in (w, answered r)
  | GetRange start end_ =>
      let (w, r) := api_wordbook_range env start end_ w in (w, answered r)
  | GetStatus => let (w, r) := api_excel_status env w in (w, answered r)
  end.

Fixpoint serve_all (env : ReqEnv) (reqs : list Request) (w : World) : World * bool :=
  match reqs with
  | [] => (w, true)
  | req :: rest =>
      let (w, a) := serve env req w in
      let (w, b) := serve_all env rest w in
      (w, a && b)
  end.

(** The number of connections the pool of the service can lend. *)
Definition lendable (w : World) : nat :=
  match app_db_pool w with
  | Some p => List.length (DbPool.queue p)
  | None => 0%nat
  end.

(** The body delivered by a reply, if any. *)
Definition delivered {A} (r : Reply A) : option A :=
  match r with Ok body => Some body | _ => None end.

(** The items a reply of [api_wordbook_range] delivers. *)
Definition replied_items (r : Reply RangeBody) : list Item :=
  match r with Ok body => range_items body | _ => [] end.

(** The table holds the records of the workbook, in order. *)
Definition stores (wb : Workbook) (t : Table) : Prop :=
  List.map fields (table_rows t) = workbook_records wb.

(** The text of the cell of rank [i] of a row, empty when the row has no
    such cell or the cell is empty. *)
Definition cell_text (row : list Cell) (i : nat) : pystr :=
  match List.nth i row None with Some s => s | None => [] end.

(** The object the handlers build for a row of a sheet. *)
Definition sheet_row_obj (ws : Worksheet) (row : list Cell) : RowObj :=
  mkRowObj (SqlText (display_word_of (word_column ws) row))
           (SqlText (cell_text row 2)) (SqlText (cell_text row 3)).

(** The batch of rank [k] (from 0) among those of [total_count] rows. *)
Definition batch_at (total_count : Z) (k : nat) : Batch :=
  let start := (100 * Z.of_nat k + 1)%Z in
  let end_ := Z.min (100 * Z.of_nat k + 100) total_count in
  mkBatch (label_of start end_) start end_.

(** The rows of a list with rowids 1, 2, ... whose rowid is between [a]
    and [b]. *)
Definition segment {A} (a b : Z) (l : list A) : list A :=
  List.firstn (Z.to_nat (b - a + 1)) (List.skipn (Z.to_nat (a - 1)) l).

End Routers.


Import PyStr.

Example normalize_sample :
  Utils.normalize_word (Some (of_string " Don't-Stop! ")) = of_string "don't-stop".
Proof. reflexivity. Qed.

(** * Properties *)

(** ** Code points *)

Import Utils.

Ltac split_cmp :=
  repeat match goal with
         | |- context [N.leb ?a ?b] => destruct (N.leb_spec a b); try lia
         | |- context [N.eqb ?a ?b] => destruct (N.eqb_spec a b); try lia
         | H : context [N.leb ?a ?b] |- _ => destruct (N.leb_spec a b); try lia
         | H : context [N.eqb ?a ?b] |- _ => destruct (N.eqb_spec a b); try lia
         end.

Ltac chars :=
  unfold word_char, is_space, is_upper, is_lower, lower_char, in_range, SPACE in *;
  split_cmp; simpl in *; try congruence; try lia.

Lemma space_not_word c : is_space c = true -> word_char c = false.
Proof. intros H. chars. Qed.

Lemma lower_char_cases c :
  (is_upper c = true /\ lower_char c = (c + 32)%N) \/
  (is_upper c = false /\ lower_char c = c).
Proof. unfold lower_char. destruct (is_upper c); auto. Qed.

Lemma word_char_lower c : word_char (lower_char c) = word_char c.
Proof.
  destruct (lower_char_cases c) as [[U ->] | [_ ->]]; [|reflexivity]. chars.
Qed.

Lemma is_space_lower c : is_space (lower_char c) = is_space c.
Proof.
  destruct (lower_char_cases c) as [[U ->] | [_ ->]]; [|reflexivity]. chars.
Qed.

Lemma lower_char_idem c : lower_char (lower_char c) = lower_char c.
Proof.
  destruct (lower_char_cases c) as [[U E] | [_ E]]; rewrite E; [|exact E].
  unfold lower_char. replace (is_upper (c + 32)%N) with false; [reflexivity|].
  symmetry. chars.
Qed.

Lemma is_space_SPACE : is_space SPACE = true.
Proof. reflexivity. Qed.

Lemma word_char_SPACE : word_char SPACE = false.
Proof. reflexivity. Qed.

Lemma lower_char_SPACE : lower_char SPACE = SPACE.
Proof. reflexivity. Qed.

(** ** [strip] and [lower] *)

Lemma lstrip_lower s : lstrip (lower s) = lower (lstrip s).
Proof.
  induction s as [|c r IH]; simpl; [reflexivity|].
  rewrite is_space_lower. destruct (is_space c); [exact IH | reflexivity].
Qed.

Lemma rstrip_lower s : rstrip (lower s) = lower (rstrip s).
Proof.
  induction s as [|c r IH]; simpl; [reflexivity|].
  rewrite IH, is_space_lower.
  destruct (rstrip r); simpl; [destruct (is_space c)|]; reflexivity.
Qed.

Lemma strip_lower s : strip (lower s) = lower (strip s).
Proof. unfold strip. now rewrite lstrip_lower, rstrip_lower. Qed.

Lemma lower_idem s : lower (lower s) = lower s.
Proof.
  unfold lower. rewrite map_map. apply map_ext. intros; apply lower_char_idem.
Qed.

Lemma lstrip_rstrip s : lstrip (rstrip s) = rstrip (lstrip s).
Proof.
  induction s as [|c r IH]; simpl; [reflexivity|].
  destruct (is_space c) eqn:Hc.
  - rewrite <- IH. destruct (rstrip r) eqn:E; simpl; [reflexivity|].
    now rewrite Hc.
  - simpl. destruct (rstrip r); simpl; now rewrite Hc.
Qed.

Lemma rstrip_snoc_space s c : is_space c = true -> rstrip (s ++ [c]) = rstrip s.
Proof.
  intros Hc. induction s as [|d r IH]; simpl.
  - now rewrite Hc.
  - now rewrite IH.
Qed.

Lemma rstrip_snoc_other s c : is_space c = false -> rstrip (s ++ [c]) = s ++ [c].
Proof.
  intros Hc. induction s as [|d r IH]; simpl.
  - now rewrite Hc.
  - rewrite IH. destruct r; reflexivity.
Qed.

Lemma strip_cons_space s c : is_space c = true -> strip (c :: s) = strip s.
Proof. intros Hc. unfold strip. simpl. now rewrite Hc. Qed.

Lemma strip_snoc_space s c : is_space c = true -> strip (s ++ [c]) = strip s.
Proof.
  intros Hc. unfold strip. rewrite <- !lstrip_rstrip.
  now rewrite rstrip_snoc_space.
Qed.

(** ** [re.sub] *)

Lemma sub_runs_lower b s : sub_runs b (lower s) = lower (sub_runs b s).
Proof.
  revert b. induction s as [|c r IH]; intros b; simpl; [reflexivity|].
  rewrite word_char_lower. destruct (word_char c); simpl.
  - now rewrite IH.
  - destruct b; simpl; now rewrite IH.
Qed.

(** Inside a match the output goes on with a letter, hyphen or apostrophe. *)
Lemma sub_runs_true_head s :
  match sub_runs true s with
  | [] => True
  | c :: _ => word_char c = true
  end.
Proof.
  induction s as [|c r IH]; simpl; [exact I|].
  destruct (word_char c) eqn:E; [exact E | exact IH].
Qed.

Lemma sub_runs_false_true s :
  sub_runs false s = sub_runs true s \/ sub_runs false s = SPACE :: sub_runs true s.
Proof.
  destruct s as [|c r]; simpl; [now left|].
  destruct (word_char c); [now left | now right].
Qed.

Lemma strip_sub_runs_flag s : strip (sub_runs false s) = strip (sub_runs true s).
Proof.
  destruct (sub_runs_false_true s) as [-> | ->]; [reflexivity|].
  now apply strip_cons_space.
Qed.

(** A trailing white space adds at most one space to the output. *)
Lemma sub_runs_snoc_space b s c :
  is_space c = true ->
  sub_runs b (s ++ [c]) = sub_runs b s \/ sub_runs b (s ++ [c]) = sub_runs b s ++ [SPACE].
Proof.
  intros Hc. pose proof (space_not_word c Hc) as Hw.
  revert b. induction s as [|d r IH]; intros b; simpl.
  - rewrite Hw. destruct b; [now left | now right].
  - destruct (word_char d).
    + destruct (IH false) as [-> | ->]; [now left | now right].
    + destruct b.
      * exact (IH true).
      * destruct (IH true) as [-> | ->]; [now left | now right].
Qed.

Lemma strip_sub_lstrip s : strip (sub_runs false (lstrip s)) = strip (sub_runs false s).
Proof.
  induction s as [|c r IH]; simpl; [reflexivity|].
  destruct (is_space c) eqn:Hc; [|reflexivity].
  rewrite (space_not_word c Hc), IH.
  rewrite strip_cons_space by reflexivity. apply strip_sub_runs_flag.
Qed.

Lemma strip_sub_rstrip s : strip (sub_runs false (rstrip s)) = strip (sub_runs false s).
Proof.
  induction s as [|c r IH] using rev_ind; [reflexivity|].
  destruct (is_space c) eqn:Hc.
  - rewrite rstrip_snoc_space by exact Hc. rewrite IH.
    destruct (sub_runs_snoc_space false r c Hc) as [-> | ->]; [reflexivity|].
    symmetry. now apply strip_snoc_space.
  - now rewrite rstrip_snoc_other.
Qed.

(** Stripping before the substitution does not change the stripped result. *)
Lemma strip_sub_strip s : strip (sub_runs false (strip s)) = strip (sub_runs false s).
Proof. unfold strip at 2. now rewrite strip_sub_rstrip, strip_sub_lstrip. Qed.

Lemma sub_runs_idem s :
  (forall b, sub_runs false (sub_runs b s) = sub_runs b s) /\
  sub_runs true (sub_runs true s) = sub_runs true s.
Proof.
  induction s as [|c r [IHf IHt]]; simpl; [now split|].
  destruct (word_char c) eqn:Hc; split; try intros b; simpl; rewrite ?Hc.
  - now rewrite IHf.
  - now rewrite IHf.
  - destruct b; [apply IHf|]. simpl. now rewrite IHt.
  - exact IHt.
Qed.

(** The output of the substitution is made of letters, hyphens, apostrophes
    and spaces. *)
Lemma re_sub_alphabet b s :
  Forall (fun c => word_char c = true \/ c = SPACE) (sub_runs b s).
Proof.
  revert b. induction s as [|c r IH]; intros b; simpl; [constructor|].
  destruct (word_char c) eqn:Hc.
  - constructor; [now left | apply IH].
  - destruct b; [apply IH|]. constructor; [now right | apply IH].
Qed.

(** The scan of the code computes the replacement of the maximal runs. *)
Lemma maximal_runs_head c r :
  exists run rs, maximal_runs (c :: r) = (word_char c, c :: run) :: rs.
Proof.
  revert c. induction r as [|d r IH]; intros c; simpl.
  - now exists [], [].
  - destruct (IH d) as (run & rs & E). simpl in E. rewrite E.
    destruct (Bool.eqb (word_char d) (word_char c)) eqn:Hb.
    + apply Bool.eqb_prop in Hb. rewrite Hb. now exists (d :: run), rs.
    + now exists [], ((word_char d, d :: run) :: rs).
Qed.

Lemma collapse_runs_cons c r :
  collapse_runs (c :: r) =
  if word_char c then c :: collapse_runs r
  else match r with
       | d :: _ => if word_char d then SPACE :: collapse_runs r else collapse_runs r
       | [] => [SPACE]
       end.
Proof.
  unfold collapse_runs. destruct r as [|d r]; simpl.
  - unfold replace_run. simpl. now destruct (word_char c).
  - destruct (maximal_runs_head d r) as (run & rs & E). simpl in E. rewrite E.
    destruct (word_char c) eqn:Hc, (word_char d) eqn:Hd; simpl;
      unfold replace_run; simpl; rewrite ?Hc, ?Hd; reflexivity.
Qed.

Lemma collapse_runs_sub s : collapse_runs s = sub_runs false s.
Proof.
  induction s as [|c r IH]; [reflexivity|].
  rewrite collapse_runs_cons. simpl.
  destruct (word_char c); [now rewrite IH|].
  destruct r as [|d r']; [reflexivity|].
  rewrite IH. simpl. destruct (word_char d); reflexivity.
Qed.

(** ** [normalize_word] *)

Lemma normalize_word_unfold w :
  normalize_word (Some w) = lower (strip (sub_runs false w)).
Proof. unfold normalize_word, re_sub_nonword. now rewrite strip_sub_strip. Qed.

(** C5.  [normalize_word] computes the word-normalization rule: on every
    string its result is the one obtained by replacing each maximal run of
    characters other than ASCII letters, hyphen and apostrophe by one space,
    trimming and lowercasing.  The cell " Don't-Stop! " is normalized to
    "don't-stop".  The [word_norm] bound to the [INSERT] for a row is the
    normalized display word of that row and is never [NULL], also when the
    word is empty and [word] itself is stored as [NULL]; the [NOT NULL]
    constraint of the table accepts it. *)
Theorem normalize_word_rule :
  (forall w, normalize_word (Some w) = normalization_rule w) /\
  normalize_word (Some (of_string " Don't-Stop! ")) = of_string "don't-stop" /\
  (forall sheet_title col idx row,
      let p := Database.record_of sheet_title col idx row in
      Database.word_norm p
        = Database.SqlText (normalize_word (Some (Database.display_word_of col row))) /\
      Database.word_norm p <> Database.SqlNull /\
      (forall t, Database.insert_row t p <> None) /\
      (Database.display_word_of col row = [] ->
         Database.word p = Database.SqlNull /\
         Database.word_norm p = Database.SqlText [])).
Proof.
  split; [|split].
  - intros w. rewrite normalize_word_unfold. unfold normalization_rule.
    now rewrite collapse_runs_sub.
  - reflexivity.
  - intros sheet_title col idx row p. subst p. unfold Database.record_of. simpl.
    repeat split; try discriminate.
    + now rewrite H.
    + now rewrite H.
Qed.

(** C6.  Normalization is idempotent: normalizing the result of
    [normalize_word] gives that result again, for every input, [None]
    included. *)
Theorem normalize_word_idempotent :
  forall word, normalize_word (Some (normalize_word word)) = normalize_word word.
Proof.
  intros [w|]; [|reflexivity].
  rewrite !normalize_word_unfold.
  rewrite sub_runs_lower, strip_lower, lower_idem. f_equal.
  rewrite strip_sub_strip. now rewrite (proj1 (sub_runs_idem w) false).
Qed.

(** ** The progress store *)

Section ProgressStore.
Import Loading.

Lemma percent_expr_defined processed total : percent_expr processed total <> None.
Proof.
  unfold percent_expr, Py.truediv.
  destruct (total >? 0)%Z eqn:Ht; [|discriminate].
  destruct (total =? 0)%Z eqn:Hz; [|discriminate]. lia.
Qed.

Lemma percent_expr_value processed total :
  percent_expr processed total =
  Some (if (total >? 0)%Z then inject_Z processed / inject_Z total * 100 else 0)%Q.
Proof.
  unfold percent_expr, Py.truediv.
  destruct (total >? 0)%Z eqn:Ht; [|reflexivity].
  destruct (total =? 0)%Z eqn:Hz; [lia | reflexivity].
Qed.

(** What a call leaves in the fields it does not sample into. *)
Lemma increment_processed_fields now increment sample_word sample_step latest_limit s :
  let s' := fst (increment_processed now increment sample_word sample_step latest_limit s) in
  processed_words s' = (processed_words s + increment)%Z /\
  total_words s' = total_words s /\
  percent s' = (if (total_words s >? 0)%Z
                then inject_Z (processed_words s + increment) / inject_Z (total_words s) * 100
                else 0)%Q.
Proof.
  unfold increment_processed. simpl. rewrite percent_expr_value.
  destruct (sample_ok sample_word); simpl.
  - destruct (Py.modulo _ sample_step); simpl; [|auto].
    destruct (z =? 0)%Z; simpl; auto.
  - auto.
Qed.

Lemma increment_processed_returns now increment sample_word sample_step latest_limit s :
  sample_step <> 0%Z ->
  snd (increment_processed now increment sample_word sample_step latest_limit s)
  = Returned (processed_words s + increment)%Z.
Proof.
  intros Hstep. unfold increment_processed. simpl. rewrite percent_expr_value.
  destruct (sample_ok sample_word); simpl; [|reflexivity].
  unfold Py.modulo. destruct (sample_step =? 0)%Z eqn:E; [lia | reflexivity].
Qed.

Lemma run_calls_snoc limit calls c s :
  run_calls limit (calls ++ [c]) s = do_call limit (run_calls limit calls s) c.
Proof. unfold run_calls. now rewrite fold_left_app. Qed.

Lemma run_calls_total limit calls s :
  total_words (run_calls limit calls s) = total_words s.
Proof.
  induction calls as [|c calls IH] using rev_ind; [reflexivity|].
  rewrite run_calls_snoc. unfold do_call.
  now rewrite (proj1 (proj2 (increment_processed_fields _ _ _ _ _ _))).
Qed.

(** C7, as stated, fails: [clear_error] writes the timestamp. *)
Lemma clear_error_touches_timestamp :
  ~ (forall now s, timestamp (clear_error now s) = timestamp s).
Proof. intros H. discriminate (H [] DEFAULT_STATE). Qed.

(** C7, amended.  [clear_error] sets [error] to [None] and [timestamp] to
    the current time, and leaves [running], [file], [current_sheet],
    [processed_words], [total_words], [percent] and [latest_words]
    unchanged. *)
Theorem clear_error_frame :
  forall now s,
    let s' := clear_error now s in
    error s' = None /\ timestamp s' = Some now /\
    running s' = running s /\ file s' = file s /\
    current_sheet s' = current_sheet s /\
    processed_words s' = processed_words s /\
    total_words s' = total_words s /\
    percent s' = percent s /\
    latest_words s' = latest_words s.
Proof. intros now s. simpl. repeat split. Qed.

(** *** The sample list *)

Lemma slice_from_suffix {A} start (l : list A) :
  exists dropped, l = dropped ++ Py.slice_from start l.
Proof.
  unfold Py.slice_from. eexists. symmetry. apply firstn_skipn.
Qed.

Lemma trim_latest_suffix limit l : exists dropped, l = dropped ++ trim_latest limit l.
Proof.
  unfold trim_latest. destruct (Py.len l >? limit)%Z.
  - apply slice_from_suffix.
  - now exists [].
Qed.

Lemma trim_latest_length limit l :
  (0 < limit)%Z -> (Py.len (trim_latest limit l) <= limit)%Z.
Proof.
  intros Hpos. unfold trim_latest.
  destruct (Py.len l >? limit)%Z eqn:E; [|lia].
  unfold Py.slice_from, Py.len in *.
  destruct (- limit <? 0)%Z eqn:F; [|lia].
  rewrite length_skipn. lia.
Qed.

Lemma increment_processed_latest now increment sample_word sample_step latest_limit s :
  let s' := fst (increment_processed now increment sample_word sample_step latest_limit s) in
  latest_words s' = latest_words s \/
  exists w, sample_word = Some w /\
            latest_words s' = trim_latest latest_limit (latest_words s ++ [w]).
Proof.
  unfold increment_processed. simpl. rewrite percent_expr_value.
  destruct (sample_ok sample_word) eqn:Hs; simpl; [|now left].
  destruct (Py.modulo _ sample_step); simpl; [|now left].
  destruct (z =? 0)%Z; simpl; [|now left].
  destruct sample_word as [w|]; [|discriminate]. right. now exists w.
Qed.













End ProgressStore.

(** ** The percentage as the code computes it *)

Section ProgressPercent.
Import LoadingFloat.





(** The two embeddings of the store agree: on stores with the same
    content, a call whose quotient fits in a double has the same outcome
    in both and leaves the same content. *)
Lemma increment_processed_agrees now increment sample_word sample_step latest_limit s q :
  same_counts s q ->
  percent_expr (processed_words s + increment) (total_words s)
  <> Raised TOO_LARGE_FOR_FLOAT ->
  let r := increment_processed now increment sample_word sample_step latest_limit s in
  let r' := Loading.increment_processed now increment sample_word sample_step
                                        latest_limit q in
  snd r = snd r' /\ same_counts (fst r) (fst r').
Proof.
  intros (H1 & H2 & H3 & H4 & H5 & H6 & H7 & H8) Hq.
  unfold increment_processed, Loading.increment_processed.
  cbn [total_words set_processed_words Loading.total_words Loading.set_processed_words].
  rewrite percent_expr_value. rewrite <- H4.
  revert Hq. unfold percent_expr, truediv.
  destruct (total_words s >? 0)%Z eqn:Ht.
  - destruct (total_words s =? 0)%Z eqn:Hz; [lia|].
    destruct (SFdiv _ _ _ _); intros Hq; try congruence;
      (destruct (Loading.sample_ok sample_word); cbn;
       [destruct (Py.modulo _ sample_step); cbn;
        [destruct (z =? 0)%Z; cbn; rewrite <- ?H7; unfold same_counts; cbn; auto 10
        |unfold same_counts; cbn; auto 10]
       |unfold same_counts; cbn; auto 10]).
  - intros _.
    destruct (Loading.sample_ok sample_word); cbn;
      [destruct (Py.modulo _ sample_step); cbn;
       [destruct (z =? 0)%Z; cbn; rewrite <- ?H7; unfold same_counts; cbn; auto 10
       |unfold same_counts; cbn; auto 10]
      |unfold same_counts; cbn; auto 10].
Qed.

(** A call with [sample_step = 0] and a sample word that is not blank
    raises [ZeroDivisionError] from [processed % sample_step], an
    expression other than the percentage; the callers pass no step, or
    10. *)
Lemma increment_processed_zero_step :
  snd (increment_processed [] 1 (Some (of_string "apple")) 0 40
         (reset_for_file [] (of_string "words.xlsx") 0 DEFAULT_STATE))
  = Raised ZeroDivisionError.
Proof. reflexivity. Qed.

(** One row out of three: [1 / 3 * 100.0] is the double
    33.33333333333333, that is 4691249611844266 * 2^-47.  A count of
    10^400 on a total of 3 makes the division raise [OverflowError], after
    the count was stored. *)
Example increment_processed_one_third :
  let s := reset_for_file [] (of_string "words.xlsx") 3 DEFAULT_STATE in
  percent (fst (increment_processed [] 1 None 10 40 s))
  = S754_finite false 4691249611844266 (-47) /\
  snd (increment_processed [] (10 ^ 400) None 10 40 s) = Raised TOO_LARGE_FOR_FLOAT /\
  processed_words (fst (increment_processed [] (10 ^ 400) None 10 40 s)) = (10 ^ 400)%Z.
Proof. vm_compute. repeat split. Qed.



End ProgressPercent.

(** ** The connection pool *)

Section ConnectionPool.
Import DbPool.



Lemma queue_put_empty maxsize c : queue_put maxsize c [] = Some [c].
Proof.
  unfold queue_put, queue_full, Py.len. simpl.
  destruct (0 <? maxsize)%Z eqn:E1, (maxsize <=? 0)%Z eqn:E2; simpl; try reflexivity.
  lia.
Qed.







End ConnectionPool.

(** ** The orchestrator *)

Section Orchestrator.
Import Database.

(** C1.  When the progress store reports [running = true],
    [start_loading] returns [False] and changes neither
    [app_state.data_loaded], nor [app_state.current_excel_file], nor the
    progress store, nor the loader thread reference; it starts no thread
    (and leaves the pool and the database file alone). *)
Theorem start_loading_single_flight :
  forall file_path w,
    Loading.running (Loading.snapshot (loading_state w)) = true ->
    let r := start_loading file_path w in
    snd r = false /\
    app_data_loaded (fst r) = app_data_loaded w /\
    app_current_excel_file (fst r) = app_current_excel_file w /\
    loading_state (fst r) = loading_state w /\
    loading_thread (fst r) = loading_thread w /\
    started_threads (fst r) = started_threads w /\
    app_db_pool (fst r) = app_db_pool w /\
    db_file (fst r) = db_file w.
Proof.
  intros file_path w Hrun r. subst r. unfold start_loading.
  rewrite Hrun. simpl. repeat split.
Qed.

Lemma start_loading_single_flight_witness :
  let busy := Loading.reset_for_file [] (of_string "a.xlsx") 6 Loading.DEFAULT_STATE in
  let t := mkThread (of_string "/data/a.xlsx") in
  let w := mkWorld true (Some (of_string "/data/a.xlsx")) None busy (Some t) [t]
                   None [] Attached in
  let r := start_loading (of_string "/data/b.xlsx") w in
  snd r = false /\ started_threads (fst r) = [t] /\ app_data_loaded (fst r) = true.
Proof.
  intros busy t w r.
  destruct (@start_loading_single_flight (of_string "/data/b.xlsx") w eq_refl)
    as (H1 & H2 & _ & _ & _ & H6 & _).
  repeat split; assumption.
Defined.

(** *** [is_data_loaded] *)

Lemma get_db_select cenv pool w :
  pool_bounded pool ->
  exists pool',
    DbPool.get_db (arrival cenv) (fun _ w0 => select_entries cenv (pooled_db w0) w0) pool w
    = (pool', w,
       if connection_available (arrival cenv) pool
       then match select_fault cenv with
            | Some e => Raised e
            | None => Returned (has_entries (Some (pooled_db w)))
            end
       else Raised PoolError).
Proof.
  intros Hb. unfold DbPool.get_db, DbPool.get_connection, DbPool.queue_get,
    connection_available.
  change (Qle_bool 0 DbPool.DEFAULT_TIMEOUT) with true. cbv iota.
  destruct (DbPool.queue pool) as [|c q] eqn:Hq.
  - destruct (arrival cenv) as [[delay c]|]; [|eexists; reflexivity].
    destruct (Qle_bool DbPool.DEFAULT_TIMEOUT delay); simpl; [eexists; reflexivity|].
    unfold select_entries, DbPool.return_connection. simpl.
    rewrite queue_put_empty.
    destruct (select_fault cenv); eexists; reflexivity.
  - unfold select_entries, DbPool.return_connection, DbPool.queue_put. simpl.
    assert (Hfull : DbPool.queue_full (DbPool.pool_size pool) q = false).
    { unfold DbPool.queue_full. unfold pool_bounded in Hb. rewrite Hq in Hb.
      unfold Py.len in *. simpl List.length in Hb.
      destruct (0 <? DbPool.pool_size pool)%Z eqn:E1; [|reflexivity].
      destruct (DbPool.pool_size pool <=? Z.of_nat (List.length q))%Z eqn:E2;
        [|reflexivity].
      lia. }
    rewrite Hfull.
    destruct (select_fault cenv); eexists; reflexivity.
Qed.

Lemma get_db_select_world cenv p w :
  snd (fst (DbPool.get_db (arrival cenv)
                          (fun _ w0 => select_entries cenv (pooled_db w0) w0) p w)) = w.
Proof.
  unfold DbPool.get_db.
  destruct (DbPool.get_connection DbPool.DEFAULT_TIMEOUT (arrival cenv) p)
    as [[p1 [[c|]| |]] q]; try reflexivity.
  unfold select_entries.
  destruct (select_fault cenv);
    destruct (DbPool.return_connection (Some c) p1) as [p2 [[]| |]]; reflexivity.
Qed.

(** [is_data_loaded] writes [data_loaded] and hands the pool back; it
    touches nothing else. *)
Lemma is_data_loaded_frame cenv w :
  loading_state (fst (is_data_loaded cenv w)) = loading_state w /\
  app_current_excel_file (fst (is_data_loaded cenv w)) = app_current_excel_file w /\
  db_file (fst (is_data_loaded cenv w)) = db_file w /\
  pool_file (fst (is_data_loaded cenv w)) = pool_file w.
Proof.
  unfold is_data_loaded.
  destruct (negb (app_data_loaded w)); [|repeat split].
  destruct (db_file w) eqn:Hf; [|repeat split; exact Hf].
  destruct (app_db_pool w) as [p|].
  - pose proof (get_db_select_world cenv p w) as H.
    destruct (DbPool.get_db _ _ p w) as [[p1 w1] [b| |]]; cbn [fst snd] in H; subst w1.
    + destruct b; repeat split; exact Hf.
    + repeat split; exact Hf.
    + repeat split; exact Hf.
  - unfold select_entries. destruct (select_fault cenv); [repeat split; exact Hf|].
    destruct (has_entries _); repeat split; exact Hf.
Qed.

(** What [is_data_loaded] answers when [data_loaded] is false: [True],
    setting the flag, exactly when the file at the path exists, the
    database the check reads holds a table named [entries] and the check
    runs without an exception.  The file at the path is left as it is. *)
Lemma is_data_loaded_value cenv w :
  app_data_loaded w = false ->
  (forall p, app_db_pool w = Some p -> pool_bounded p) ->
  let found :=
    file_exists w && has_entries (Some (checked_db w)) && check_completes cenv w in
  snd (is_data_loaded cenv w) = Returned found /\
  app_data_loaded (fst (is_data_loaded cenv w)) = found /\
  db_file (fst (is_data_loaded cenv w)) = db_file w /\
  pool_file (fst (is_data_loaded cenv w)) = pool_file w.
Proof.
  intros Hflag Hpool found. subst found.
  unfold is_data_loaded, check_completes, file_exists, checked_db. rewrite Hflag. simpl.
  destruct (db_file w) as [db|] eqn:Hf; [|simpl; now rewrite Hflag, Hf].
  destruct (app_db_pool w) as [pool|] eqn:Hp.
  - destruct (get_db_select cenv w (Hpool pool eq_refl)) as [pool' E].
    rewrite E. clear E. cbn [andb].
    destruct (connection_available (arrival cenv) pool).
    + destruct (select_fault cenv); simpl.
      * rewrite andb_false_r, Hf. now repeat split.
      * rewrite andb_true_r. destruct (pooled_db w); simpl; rewrite ?Hflag, ?Hf;
          now repeat split.
    + simpl. destruct (select_fault cenv); rewrite andb_false_r, Hf; now repeat split.
  - unfold select_entries. cbn [andb]. destruct (select_fault cenv); simpl.
    + rewrite andb_false_r, Hf. now repeat split.
    + rewrite andb_true_r. destruct (path_db w); simpl; rewrite ?Hflag, ?Hf;
        now repeat split.
Qed.

(** While [data_loaded] is false, [is_data_loaded] answers [True] and sets
    the flag exactly when the file at the path exists, the database the
    check reads holds a table named [entries] and the check runs to its
    end; otherwise it answers [False] and the flag stays false.  With a
    pool the check reads the file the pool has open: the file at the path,
    or the one [unload_data] removed since the pool was made.  Without a
    pool it reads the file at the path.  Neither file is touched. *)
Theorem is_data_loaded_answer :
  forall cenv w,
    app_data_loaded w = false ->
    (forall p, app_db_pool w = Some p -> pool_bounded p) ->
    let r := is_data_loaded cenv w in
    let found :=
      file_exists w && has_entries (Some (checked_db w)) && check_completes cenv w in
    snd r = Returned found /\
    app_data_loaded (fst r) = found /\
    db_file (fst r) = db_file w /\
    pool_file (fst r) = pool_file w /\
    checked_db w = match app_db_pool w, pool_file w with
                   | Some _, Detached db => db
                   | _, _ => path_db w
                   end.
Proof.
  intros cenv w Hflag Hpool r found.
  destruct (is_data_loaded_value cenv w Hflag Hpool) as (H1 & H2 & H3 & H4).
  split; [exact H1|]. split; [exact H2|]. split; [exact H3|]. split; [exact H4|].
  unfold checked_db, pooled_db.
  destruct (app_db_pool w); [|reflexivity]. now destruct (pool_file w).
Qed.

Lemma is_data_loaded_answer_witness :
  let pool := fst (DbPool.initialize (DbPool.new_pool (of_string "paraphrase.sqlite") 2)) in
  let old := mkTable [mkEntry 1 (mkParams (SqlText (of_string "apple")) SqlNull SqlNull
                                          SqlNull (SqlText (of_string "A")) (SqlInteger 0))]
                     [] in
  let started := mkWorld true (Some (of_string "a.xlsx")) (Some pool) Loading.DEFAULT_STATE
                         None [] (Some (Some old)) [] Attached in
  let env := mkEnv (fun _ => of_string "2024-01-01T00:00:00") (fun _ => false) in
  let wb := [mkWorksheet (of_string "B") (Some 1%Z) (Some 2%Z)
               [[Some (of_string "1"); Some (of_string "pear")]]] in
  let loaded := loader_worker env (of_string "b.xlsx") wb
                  (fst (start_loading (of_string "b.xlsx") (unload_data started))) in
  let w := fst (start_loading (of_string "c.xlsx") loaded) in
  pool_file w = Detached (Some old) /\
  snd (is_data_loaded (mkCheckEnv None None) w) = Returned true.
Proof.
  intros pool old started env wb loaded w. split; [reflexivity|].
  assert (Hpool : forall p, app_db_pool w = Some p -> pool_bounded p).
  { intros p E. vm_compute in E. injection E as <-. unfold pool_bounded. cbn. discriminate. }
  exact (proj1 (@is_data_loaded_answer (mkCheckEnv None None) w eq_refl Hpool)).
Defined.

(** C10.  The claim holds while the pool's connections have the file at
    the path open, and fails once [unload_data] has removed that file
    under them.  A service that started without a workbook has its pool on
    a database without table.  After an unload and a load run to its end,
    the file at the path holds the table [entries] with the records of the
    workbook.  A new [start_loading] clears [data_loaded]; the file still
    exists and still holds the table, yet [is_data_loaded] asks a pooled
    connection, which reads the removed file, answers [False] and leaves
    [data_loaded] false. *)
Theorem is_data_loaded_stale_pool :
  let pool := fst (DbPool.initialize (DbPool.new_pool (of_string "paraphrase.sqlite") 2)) in
  let started := mkWorld true None (Some pool) Loading.DEFAULT_STATE None []
                         (Some None) [] Attached in
  let env := mkEnv (fun _ => of_string "2024-01-01T00:00:00") (fun _ => false) in
  let wb := [mkWorksheet (of_string "A") (Some 1%Z) (Some 2%Z)
               [[Some (of_string "1"); Some (of_string "apple")]]] in
  let unloaded := unload_data started in
  let loaded := loader_worker env (of_string "a.xlsx") wb
                  (fst (start_loading (of_string "a.xlsx") unloaded)) in
  let w := fst (start_loading (of_string "b.xlsx") loaded) in
  let r := is_data_loaded (mkCheckEnv None None) w in
  app_data_loaded loaded = true /\
  app_data_loaded w = false /\
  file_exists w = true /\
  has_entries (db_file w) = true /\
  check_completes (mkCheckEnv None None) w = true /\
  snd r = Returned false /\
  app_data_loaded (fst r) = false.
Proof. vm_compute. repeat split. Qed.

End Orchestrator.

(** ** The ingestion engine *)

Section Engine.
Import Database.

Lemma record_of_not_null sheet_title col idx row :
  not_null (record_of sheet_title col idx row).
Proof. unfold not_null, record_of. simpl. discriminate. Qed.

Lemma records_from_not_null sheet_title col rows :
  forall idx, Forall not_null (records_from sheet_title col idx rows).
Proof.
  induction rows as [|row rest IH]; intros idx; simpl; constructor.
  - apply record_of_not_null.
  - apply IH.
Qed.

Lemma insert_rows_ok batch :
  forall t, Forall not_null batch ->
  exists t', insert_rows t batch = (t', Returned tt) /\
             List.map fields (table_rows t') = List.map fields (table_rows t) ++ batch /\
             table_indexes t' = table_indexes t.
Proof.
  induction batch as [|p rest IH]; intros t Hnn; simpl.
  - exists t. now rewrite app_nil_r.
  - inversion Hnn as [|? ? Hp Hrest]; subst.
    unfold insert_row. unfold not_null in Hp.
    destruct (word_norm p) eqn:E; [congruence | |];
      (destruct (IH (mkTable (table_rows t ++ [mkEntry (next_id (table_rows t)) p])
                             (table_indexes t)) Hrest) as (t' & E1 & E2 & E3);
       exists t'; rewrite E1; split; [reflexivity|]; split; [|exact E3];
       rewrite E2; simpl; rewrite map_app, <- app_assoc; reflexivity).
Qed.

Lemma executemany_loading base recs batch s :
  loading base recs s -> Forall not_null batch ->
  exists s', on_con (executemany batch) s = (s', Returned tt) /\
             loading base (recs ++ batch) s' /\ polls s' = polls s.
Proof.
  intros (Hc & Ht & t & Hw & Hr & Hi) Hnn.
  unfold on_con, executemany. rewrite Hw.
  destruct (insert_rows_ok t Hnn) as (t' & E1 & E2 & E3). rewrite E1.
  eexists. split; [reflexivity|]. split; [|reflexivity].
  unfold loading. simpl. repeat split; try assumption.
  exists t'. repeat split; congruence.
Qed.

Lemma increment_processed_step env sample_word s :
  exists st z,
    increment_processed env 1 sample_word SAMPLE_STEP LATEST_LIMIT s
    = (mkRun (con s) st (data_loaded s) (current_excel_file s) (polls s) (S (ticks s)),
       Returned z).
Proof.
  unfold increment_processed.
  pose proof (@increment_processed_returns (clock env (ticks s)) 1 sample_word
                SAMPLE_STEP LATEST_LIMIT (progress s)) as H.
  destruct (Loading.increment_processed _ _ _ _ _ _) as [st r]. simpl in H.
  rewrite H by discriminate. now eexists _, _.
Qed.

Lemma cancel_observed_S env n m :
  cancel_observed env n (S m) = cancel_seen env n || cancel_observed env (S n) m.
Proof. reflexivity. Qed.

Lemma cancel_observed_add env n a b :
  cancel_observed env n (a + b)
  = cancel_observed env n a || cancel_observed env (n + a) b.
Proof. unfold cancel_observed. now rewrite seq_app, existsb_app. Qed.


Lemma loading_con base recs s s' :
  con s' = con s -> loading base recs s -> loading base recs s'.
Proof. unfold loading. intros ->. auto. Qed.

Lemma load_rows_spec env sheet_title col base rows :
  forall idx batch recs s,
    loading base recs s -> Forall not_null batch ->
    match load_rows env sheet_title col idx rows batch s with
    | (s', Returned batch') =>
        cancel_observed env (polls s) (List.length rows) = false /\
        polls s' = (polls s + List.length rows)%nat /\
        Forall not_null batch' /\
        exists recs', loading base recs' s' /\
                      recs' ++ batch' = recs ++ batch ++ records_from sheet_title col idx rows
    | (s', Raised e) =>
        e = cancelled_error /\
        cancel_observed env (polls s) (List.length rows) = true /\
        rolled_back base s'
    | (_, Hangs) => False
    end.
Proof.
  induction rows as [|row rest IH]; intros idx batch recs s Hl Hnn.
  - simpl. unfold ret. repeat split; [lia | exact Hnn |].
    exists recs. split; [exact Hl|]. now rewrite app_nil_r.
  - cbn [load_rows List.length]. rewrite cancel_observed_S.
    unfold bind at 1. unfold read_cancelled at 1.
    destruct (cancel_seen env (polls s)) eqn:Hc.
    + cbn. destruct Hl as (Hb & _). unfold rolled_back. cbn. auto.
    + set (s1 := mkRun (con s) (progress s) (data_loaded s) (current_excel_file s)
                       (S (polls s)) (ticks s)).
      unfold bind at 1.
      destruct (increment_processed_step env
                  (Some (display_word_of col row)) s1) as (st & z & E).
      rewrite E. clear E.
      set (s2 := mkRun (con s1) st (data_loaded s1) (current_excel_file s1)
                       (polls s1) (S (ticks s1))).
      set (batch1 := batch ++ [record_of sheet_title col idx row]).
      assert (Hnn1 : Forall not_null batch1).
      { apply Forall_app. split; [exact Hnn|].
        constructor; [apply record_of_not_null | constructor]. }
      assert (Hl2 : loading base recs s2) by (now apply (loading_con (s := s))).
      unfold bind at 1.
      destruct (Py.len batch1 >=? BATCH_SIZE)%Z.
      * unfold bind at 1.
        destruct (executemany_loading Hl2 Hnn1) as (s3 & E3 & Hl3 & Hp3).
        rewrite E3. unfold ret at 1.
        specialize (IH (idx + 1)%Z [] (recs ++ batch1) s3 Hl3 (Forall_nil _)).
        destruct (load_rows env sheet_title col (idx + 1) rest [] s3) as [s' [b'|e|]];
          [| |exact IH].
        -- destruct IH as (I1 & I2 & I3 & recs' & I4 & I5).
           rewrite Hp3 in I1, I2. cbn in I1, I2 |- *.
           repeat split; [exact I1 | lia | exact I3 |].
           exists recs'. split; [exact I4|]. rewrite I5. subst batch1.
           cbn. now rewrite <- !app_assoc.
        -- destruct IH as (I1 & I2 & I3). rewrite Hp3 in I2. cbn in I2 |- *. auto.
      * unfold ret at 1.
        specialize (IH (idx + 1)%Z batch1 recs s2 Hl2 Hnn1).
        destruct (load_rows env sheet_title col (idx + 1) rest batch1 s2) as [s' [b'|e|]];
          [| |exact IH].
        -- destruct IH as (I1 & I2 & I3 & recs' & I4 & I5).
           cbn in I1, I2 |- *.
           repeat split; [exact I1 | lia | exact I3 |].
           exists recs'. split; [exact I4|]. rewrite I5. subst batch1.
           cbn. now rewrite <- !app_assoc.
        -- destruct IH as (I1 & I2 & I3). cbn in I2 |- *. auto.
Qed.

Lemma load_sheet_spec env base ws :
  forall recs s,
    loading base recs s ->
    match load_sheet env ws s with
    | (s', Returned _) =>
        cancel_observed env (polls s) (sheet_polls ws) = false /\
        polls s' = (polls s + sheet_polls ws)%nat /\
        loading base (recs ++ sheet_records ws) s'
    | (s', Raised e) =>
        e = cancelled_error /\
        cancel_observed env (polls s) (sheet_polls ws) = true /\
        rolled_back base s'
    | (_, Hangs) => False
    end.
Proof.
  intros recs s Hl. unfold load_sheet, sheet_polls.
  rewrite cancel_observed_S.
  unfold bind at 1. unfold read_cancelled at 1.
  destruct (cancel_seen env (polls s)) eqn:Hc.
  - cbn. destruct Hl as (Hb & _). unfold rolled_back. cbn. auto.
  - unfold bind at 1. unfold on_progress at 1.
    match goal with
    | |- context [load_rows env (title ws) ?c 0 (iter_rows ws) []] =>
        replace c with (word_column ws)
    end.
    2:{ unfold word_column. destruct (max_column ws) as [c|]; [|reflexivity].
        destruct (c =? 0)%Z eqn:E; [|reflexivity].
        apply Z.eqb_eq in E. now subst c. }
    unfold bind at 1.
    match goal with
    | |- context [load_rows _ _ _ _ _ _ ?s1] => set (s2 := s1)
    end.
    assert (Hl2 : loading base recs s2) by (now apply (loading_con (s := s))).
    pose proof (@load_rows_spec env (title ws) (word_column ws) base (iter_rows ws)
                  0%Z [] recs s2 Hl2 (Forall_nil _)) as H.
    destruct (load_rows env (title ws) (word_column ws) 0 (iter_rows ws) [] s2)
      as [s3 [batch|e|]]; [| |exact H].
    + destruct H as (H1 & H2 & H3 & recs' & H4 & H5).
      cbn in H1, H2. cbn [orb]. unfold sheet_records.
      destruct batch as [|p batch'].
      * unfold ret. split; [exact H1|]. split; [lia|].
        rewrite app_nil_r in H5. cbn in H5. now rewrite <- H5.
      * destruct (executemany_loading H4 H3) as (s4 & E4 & Hl4 & Hp4).
        rewrite E4. split; [exact H1|]. split; [lia|].
        rewrite H5 in Hl4. exact Hl4.
    + destruct H as (H1 & H2 & H3). cbn in H2. cbn [orb]. auto.
Qed.

Lemma load_sheets_spec env base wb :
  forall recs s,
    loading base recs s ->
    match load_sheets env wb s with
    | (s', Returned _) =>
        cancel_observed env (polls s) (workbook_polls wb) = false /\
        loading base (recs ++ workbook_records wb) s'
    | (s', Raised e) =>
        e = cancelled_error /\
        cancel_observed env (polls s) (workbook_polls wb) = true /\
        rolled_back base s'
    | (_, Hangs) => False
    end.
Proof.
  induction wb as [|ws rest IH]; intros recs s Hl.
  - cbn. split; [reflexivity|]. now rewrite app_nil_r.
  - cbn [load_sheets workbook_polls fold_right].
    fold (workbook_polls rest). rewrite cancel_observed_add.
    unfold bind at 1.
    pose proof (@load_sheet_spec env base ws recs s Hl) as H.
    destruct (load_sheet env ws s) as [s1 [u|e|]]; [| |exact H].
    + destruct H as (H1 & H2 & H3). rewrite H1. cbn [orb].
      specialize (IH _ _ H3). rewrite H2 in IH.
      destruct (load_sheets env rest s1) as [s2 [u2|e2|]]; [| |exact IH].
      * destruct IH as (I1 & I2). split; [exact I1|].
        unfold workbook_records in *. cbn [List.map List.concat].
        now rewrite app_assoc.
      * exact IH.
    + destruct H as (H1 & H2 & H3). rewrite H2. cbn [orb]. auto.
Qed.

Lemma rebuild_outcome env file_path wb f s :
  con s = connect f ->
  match _rebuild_sqlite_from_excel env file_path wb s with
  | (s', Returned _) =>
      cancel_observed env (polls s) (workbook_polls wb) = false /\
      committed_records (con s') = Some (workbook_records wb) /\
      data_loaded s' = true /\ current_excel_file s' = Some file_path /\
      in_transaction (con s') = false
  | (s', Raised e) =>
      e = cancelled_error /\
      cancel_observed env (polls s) (workbook_polls wb) = true /\
      committed_records (con s') = Some [] /\
      in_transaction (con s') = false
  | (_, Hangs) => False
  end.
Proof.
  intros Hcon.
  destruct s as [c pr dl cf po ti]. cbn in Hcon. subst c.
  unfold _rebuild_sqlite_from_excel, finally, rebuild_body.
  do 7 (unfold bind at 1; cbn -[load_sheets bind]).
  unfold bind at 1.
  match goal with
  | |- context [load_sheets env wb ?s0] => set (s1 := s0)
  end.
  assert (Hl : loading (Some (mkTable [] [])) [] s1).
  { unfold loading. cbn. repeat split. now exists (mkTable [] []). }
  pose proof (@load_sheets_spec env (Some (mkTable [] [])) wb [] s1 Hl) as H.
  change (polls s1) with po in H.
  destruct (load_sheets env wb s1) as [s2 [u|e|]]; [| |contradiction].
  - destruct H as (H1 & Hl2).
    destruct Hl2 as (Hb & Ht & t & Hw & Hr & Hi).
    destruct s2 as [c2 pr2 dl2 cf2 po2 ti2]. destruct c2 as [cm wk tx op].
    cbn in Hb, Ht, Hw. subst cm tx wk.
    destruct t as [rows idxs]. cbn in Hr, Hi. subst idxs.
    cbn. unfold committed_records. cbn. rewrite Hr. auto.
  - destruct H as (He & H1 & Hb & Hw & Ht). subst e.
    destruct s2 as [c2 pr2 dl2 cf2 po2 ti2]. destruct c2 as [cm wk tx op].
    cbn in Hb, Ht, Hw. subst cm tx wk.
    cbn. unfold committed_records. cbn. auto.
Qed.

(** C2.  A run of [_rebuild_sqlite_from_excel] on a fresh connection
    polls the cancellation flag at the entry of every sheet and of every
    row.  If one of these polls sees the flag set, the transaction is
    rolled back, the run raises [RuntimeError("loading cancelled")], and
    the table [entries] that other connections read holds no row; if none
    does, the run returns and the table holds the record of every row of
    every sheet.  So after the run the table holds either no row or the
    full set, never a part of it. *)
Theorem rebuild_cancellation_atomic :
  forall env file_path wb db_file s,
    con s = connect db_file ->
    let observed := cancel_observed env (polls s) (workbook_polls wb) in
    let r := _rebuild_sqlite_from_excel env file_path wb s in
    (observed = true ->
     snd r = Raised (RuntimeError "loading cancelled") /\
     committed_records (con (fst r)) = Some []) /\
    (observed = false ->
     snd r = Returned tt /\
     committed_records (con (fst r)) = Some (workbook_records wb) /\
     data_loaded (fst r) = true) /\
    in_transaction (con (fst r)) = false /\
    (committed_records (con (fst r)) = Some [] \/
     committed_records (con (fst r)) = Some (workbook_records wb)).
Proof.
  intros env file_path wb f s Hcon observed r. subst observed r.
  pose proof (@rebuild_outcome env file_path wb f s Hcon) as H.
  destruct (_rebuild_sqlite_from_excel env file_path wb s) as [s' [[]|e|]];
    [| |contradiction]; cbn [fst snd].
  - destruct H as (H1 & H2 & H3 & H4 & H5). rewrite H1.
    repeat split; try discriminate; auto.
  - destruct H as (H1 & H2 & H3 & H4). rewrite H2. subst e.
    repeat split; try discriminate; auto.
Qed.


Lemma rebuild_cancellation_atomic_witness :
  let env := mkEnv (fun _ => of_string "2024-01-01T00:00:00")
                   (fun k => Nat.eqb k 5) in
  let row w := [Some (of_string "1"); Some w] in
  let wb := [mkWorksheet (of_string "A") (Some 3%Z) (Some 2%Z)
               [row (of_string "apple"); row (of_string "pear"); row (of_string "plum")];
             mkWorksheet (of_string "B") (Some 3%Z) (Some 2%Z)
               [row (of_string "fig"); row (of_string "lime"); row (of_string "kiwi")]] in
  let s := mkRun (connect None) Loading.DEFAULT_STATE false None 0 0 in
  let r := _rebuild_sqlite_from_excel env (of_string "words.xlsx") wb s in
  snd r = Raised (RuntimeError "loading cancelled") /\
  committed_records (con (fst r)) = Some [].
Proof.
  intros env row wb s r.
  destruct (@rebuild_cancellation_atomic env (of_string "words.xlsx") wb None s
              eq_refl) as (H & _).
  exact (H eq_refl).
Defined.

(** The loader thread records the cancellation in the progress store. *)
Lemma loader_worker_cancelled env file_path wb w :
  cancel_observed env 0 (workbook_polls wb) = true ->
  let w' := loader_worker env file_path wb w in
  Loading.error (loading_state w') = Some (of_string "loading cancelled") /\
  Loading.running (loading_state w') = false /\
  app_data_loaded w' = false /\
  (exists t, db_file w' = Some (Some t) /\ table_rows t = []) /\
  loading_thread w' = None.
Proof.
  intros Hobs w'. subst w'. unfold loader_worker.
  match goal with
  | |- context [_rebuild_sqlite_from_excel env file_path wb ?s0] => set (s := s0)
  end.
  pose proof (@rebuild_outcome env file_path wb _ s eq_refl) as H.
  change (polls s) with 0%nat in H.
  destruct (_rebuild_sqlite_from_excel env file_path wb s) as [s' [[]|e|]];
    [| |contradiction].
  - destruct H as (H1 & _). congruence.
  - destruct H as (He & _ & Hc & _). subst e. cbn.
    unfold committed_records in Hc.
    destruct (committed (con s')) as [[rows idx]|]; [|discriminate].
    cbn in Hc. injection Hc as Hc. apply map_eq_nil in Hc. subst rows.
    repeat split. now eexists.
Qed.

End Engine.

(** ** Further properties of the connection pool *)

Section PoolLifecycle.
Import DbPool.

Lemma fill_spec n :
  forall p,
    (pool_size p <= 0 \/ Py.len (queue p) + Z.of_nat n <= pool_size p)%Z ->
    fill n p = (mkPool (db_path p) (pool_size p) (queue p ++ List.seq (opened p) n)
                       (initialized p) (opened p + n) (closed p),
                Returned tt).
Proof.
  induction n as [|n IH]; intros p Hcap.
  - simpl. rewrite app_nil_r, Nat.add_0_r. now destruct p.
  - cbn [fill]. unfold queue_put. cbn [pool_size queue].
    assert (Hfull : queue_full (pool_size p) (queue p) = false).
    { unfold queue_full. unfold Py.len in *.
      destruct (0 <? pool_size p)%Z eqn:E1; [|reflexivity].
      destruct (pool_size p <=? Z.of_nat (List.length (queue p)))%Z eqn:E2;
        [|reflexivity].
      lia. }
    rewrite Hfull. unfold set_queue. cbn [db_path pool_size initialized opened closed queue].
    rewrite IH.
    + cbn [db_path pool_size initialized opened closed queue].
      rewrite <- app_assoc. cbn [app List.seq]. f_equal. f_equal. lia.
    + cbn [pool_size queue]. unfold Py.len in *. rewrite length_app. cbn [List.length].
      lia.
Qed.

(** Putting a connection back into a queue that lost one never blocks. *)
Lemma queue_put_after_get maxsize c q c' :
  ((0 < maxsize)%Z -> (Py.len (c :: q) <= maxsize)%Z) ->
  queue_put maxsize c' q = Some (q ++ [c']).
Proof.
  intros Hb. unfold queue_put, queue_full. unfold Py.len in *. cbn [List.length] in Hb.
  destruct (0 <? maxsize)%Z eqn:E1; [|reflexivity].
  destruct (maxsize <=? Z.of_nat (List.length q))%Z eqn:E2; [|reflexivity].
  lia.
Qed.

Lemma initialize_new_pool path size :
  initialize (new_pool path size)
  = (mkPool path size (List.seq 0 (Z.to_nat size)) true (Z.to_nat size) [],
     Returned tt).
Proof.
  unfold initialize. cbn [initialized new_pool].
  rewrite fill_spec by (cbn; lia). reflexivity.
Qed.

(** [initialize] on a new pool opens exactly [pool_size] connections (none
    when [pool_size] is not positive), all different, queues them in the
    order they were opened and sets [_initialized]; a second call changes
    nothing. *)
Theorem initialize_fills_once :
  forall path size,
    let r := initialize (new_pool path size) in
    snd r = Returned tt /\
    queue (fst r) = List.seq 0 (Z.to_nat size) /\
    NoDup (queue (fst r)) /\
    Py.len (queue (fst r)) = Z.max 0 size /\
    initialized (fst r) = true /\
    closed (fst r) = [] /\
    initialize (fst r) = (fst r, Returned tt).
Proof.
  intros path size r. subst r. rewrite initialize_new_pool. cbn [fst snd queue
    initialized closed].
  repeat split.
  - apply seq_NoDup.
  - unfold Py.len. rewrite length_seq. lia.
Qed.

(** The scoped acquire gives the connection back on every way out of its
    body: whether the body returns or raises, the result goes through
    unchanged and the borrowed connection is at the back of the queue. *)
Theorem get_db_releases :
  forall (W A : Type) arr (body : Connection -> W -> W * outcome A) p w c q,
    queue p = c :: q ->
    ((0 < pool_size p)%Z -> (Py.len (queue p) <= pool_size p)%Z) ->
    snd (body c w) <> Hangs ->
    get_db arr body p w = (set_queue (q ++ [c]) p, fst (body c w), snd (body c w)).
Proof.
  intros W A arr body p w c q Hq Hb Hr.
  unfold get_db, get_connection, queue_get.
  change (Qle_bool 0 DEFAULT_TIMEOUT) with true. cbv iota. rewrite Hq.
  destruct (body c w) as [w' r] eqn:Eb. cbn [fst snd] in *.
  unfold return_connection. cbn [set_queue pool_size queue].
  rewrite Hq in Hb. rewrite (queue_put_after_get c (Hb)).
  unfold set_queue. cbn. destruct r; [reflexivity | reflexivity | congruence].
Qed.

Lemma get_db_releases_witness :
  let p := fst (initialize (new_pool (of_string "paraphrase.sqlite") 2)) in
  get_db None (fun (_ : Connection) (w : nat) => (S w, Raised (OperationalError "locked")))
         p 0%nat
  = (set_queue [1%nat; 0%nat] p, 1%nat,
     (Raised (OperationalError "locked") : outcome unit)).
Proof.
  intros p.
  assert (Hb : (0 < pool_size p)%Z -> (Py.len (queue p) <= pool_size p)%Z)
    by (intros _; cbn; discriminate).
  assert (Hr : snd ((fun (_ : Connection) (w : nat) =>
                       (S w, (Raised (OperationalError "locked") : outcome unit)))
                      0%nat 0%nat) <> Hangs) by discriminate.
  exact (@get_db_releases nat unit None _ p 0%nat 0%nat [1%nat] eq_refl Hb Hr).
Defined.

Lemma step_bounded p op :
  ((0 < pool_size p)%Z -> (Py.len (queue p) <= pool_size p)%Z) ->
  pool_size (fst (step p op)) = pool_size p /\
  ((0 < pool_size p)%Z -> (Py.len (queue (fst (step p op))) <= pool_size p)%Z).
Proof.
  intros Hb. destruct op as [|timeout|c|]; cbn [step].
  - unfold initialize. destruct (initialized p); [now split|].
    assert (Hfill : forall n p0,
               ((0 < pool_size p0)%Z -> (Py.len (queue p0) <= pool_size p0)%Z) ->
               pool_size (fst (fill n p0)) = pool_size p0 /\
               ((0 < pool_size p0)%Z ->
                (Py.len (queue (fst (fill n p0))) <= pool_size p0)%Z)).
    { induction n as [|n IH]; intros p0 H0; cbn [fill]; [now split|].
      unfold queue_put. cbn [pool_size queue].
      destruct (queue_full (pool_size p0) (queue p0)) eqn:Hf; [now split|].
      match goal with
      | |- context [fill n ?p1] => destruct (IH p1) as [I1 I2]
      end.
      - cbn. intros Hpos. unfold queue_full in Hf. unfold Py.len in *.
        rewrite length_app. cbn [List.length].
        destruct (0 <? pool_size p0)%Z eqn:E1; [|lia].
        destruct (pool_size p0 <=? Z.of_nat (List.length (queue p0)))%Z eqn:E2;
          [discriminate | lia].
      - cbn in I1, I2. now split. }
    destruct (Hfill (Z.to_nat (pool_size p)) p Hb) as [F1 F2].
    destruct (fill (Z.to_nat (pool_size p)) p) as [p' [[]|e|]]; cbn in *; now split.
  - unfold get_connection, queue_get.
    destruct (Qle_bool 0 timeout); [|cbn; now split].
    destruct (queue p) as [|c q] eqn:Hq; cbn.
    + split; [reflexivity|]. intros H. lia.
    + split; [reflexivity|]. intros H. specialize (Hb H). rewrite ?Hq in Hb.
      unfold Py.len in *. cbn [List.length] in Hb. lia.
  - unfold return_connection, queue_put.
    destruct (queue_full (pool_size p) (queue p)) eqn:Hf; cbn; [now split|].
    split; [reflexivity|]. intros Hpos. unfold queue_full in Hf. unfold Py.len in *.
    rewrite length_app. cbn [List.length].
    destruct (0 <? pool_size p)%Z eqn:E1; [|lia].
    destruct (pool_size p <=? Z.of_nat (List.length (queue p)))%Z eqn:E2;
      [discriminate | lia].
  - cbn. split; [reflexivity|]. intros H. lia.
Qed.

(** Whatever calls are made on a pool, in whatever order, its queue never
    holds more connections than [pool_size] (for a positive [pool_size]),
    from the creation of the pool on. *)
Theorem queue_never_exceeds_pool_size :
  forall path size ops,
    let p := fst (run ops (new_pool path size)) in
    pool_size p = size /\
    ((0 < size)%Z -> (Py.len (queue p) <= size)%Z).
Proof.
  intros path size ops.
  assert (H : forall ops p0,
             ((0 < pool_size p0)%Z -> (Py.len (queue p0) <= pool_size p0)%Z) ->
             pool_size (fst (run ops p0)) = pool_size p0 /\
             ((0 < pool_size p0)%Z ->
              (Py.len (queue (fst (run ops p0))) <= pool_size p0)%Z)).
  { clear. induction ops as [|op rest IH]; intros p0 H0; cbn [run]; [now split|].
    destruct (@step_bounded p0 op H0) as [S1 S2].
    destruct (step p0 op) as [p1 r1]. cbn [fst] in S1, S2.
    rewrite <- S1 in S2. destruct (IH p1 S2) as [I1 I2].
    destruct (run rest p1) as [p2 rs]. cbn [fst] in *. split; [congruence|].
    intros Hpos. rewrite <- S1. apply I2. now rewrite S1. }
  apply (H ops (new_pool path size)). cbn. intros; lia.
Qed.

(** Returning a connection to a pool whose queue is full never comes back:
    [Queue.put] blocks.  After [initialize] on a new pool of positive size
    this is the fate of any [return_connection] that is not matched by an
    earlier [get_connection]. *)
Theorem return_connection_full_pool_blocks :
  forall path size c,
    (0 < size)%Z ->
    let p := fst (initialize (new_pool path size)) in
    return_connection (Some c) p = (p, Hangs).
Proof.
  intros path size c Hpos p. subst p. rewrite initialize_new_pool. cbn [fst].
  unfold return_connection, queue_put, queue_full. cbn [pool_size queue].
  unfold Py.len. rewrite length_seq.
  destruct (0 <? size)%Z eqn:E1; [|lia].
  destruct (size <=? Z.of_nat (Z.to_nat size))%Z eqn:E2; [reflexivity|].
  apply Z.leb_gt in E2. lia.
Qed.

Lemma return_connection_full_pool_blocks_witness :
  let p := fst (initialize (new_pool (of_string "paraphrase.sqlite") 2)) in
  return_connection (Some 0%nat) p = (p, Hangs).
Proof.
  exact (@return_connection_full_pool_blocks (of_string "paraphrase.sqlite") 2 0%nat
           eq_refl).
Defined.

End PoolLifecycle.

(** ** Further properties of the orchestrator *)

Section Readiness.
Import Database.

(** [start_loading] does not mark the progress store as running; only the
    worker does, when it begins.  So a second [start_loading] issued before
    the first worker has begun is accepted as well: both calls return
    [True], two threads are started, and [loading_thread] refers to the
    second. *)
Theorem start_loading_twice_before_worker :
  forall path1 path2 w,
    Loading.running (loading_state w) = false ->
    let r1 := start_loading path1 w in
    let r2 := start_loading path2 (fst r1) in
    snd r1 = true /\ snd r2 = true /\
    started_threads (fst r2) = started_threads w ++ [mkThread path1; mkThread path2] /\
    loading_thread (fst r2) = Some (mkThread path2) /\
    loading_state (fst r2) = loading_state w.
Proof.
  intros path1 path2 w Hrun r1 r2. subst r1 r2.
  unfold start_loading, Loading.snapshot. rewrite Hrun. cbn.
  rewrite Hrun. cbn. rewrite <- app_assoc. repeat split.
Qed.

Lemma start_loading_twice_before_worker_witness :
  let w := mkWorld true None None Loading.DEFAULT_STATE None [] None [] Attached in
  let r2 := start_loading (of_string "b.xlsx")
              (fst (start_loading (of_string "a.xlsx") w)) in
  snd r2 = true /\
  started_threads (fst r2) = [mkThread (of_string "a.xlsx"); mkThread (of_string "b.xlsx")].
Proof.
  intros w r2.
  destruct (@start_loading_twice_before_worker (of_string "a.xlsx") (of_string "b.xlsx")
              w eq_refl) as (_ & H2 & H3 & _).
  split; [exact H2 | exact H3].
Defined.

(** After [unload_data] has removed the database file, [is_data_loaded]
    answers [False] and changes nothing, whatever the pool and the store
    would answer: the missing file ends the check. *)
Theorem unload_data_then_not_loaded :
  forall cenv w,
    let w1 := unload_data w in
    app_data_loaded w1 = false /\ app_current_excel_file w1 = None /\
    db_file w1 = None /\
    is_data_loaded cenv w1 = (w1, Returned false).
Proof.
  intros cenv w w1. subst w1. unfold unload_data.
  change (db_file (set_current_excel_file None (set_data_loaded false w)))
    with (db_file w).
  destruct (db_file w) eqn:Hf.
  - unfold detach.
    destruct (pool_file (set_current_excel_file None (set_data_loaded false w)));
      cbn; repeat split.
  - repeat split; [exact Hf|].
    unfold is_data_loaded, set_current_excel_file, set_data_loaded.
    cbn [app_data_loaded db_file negb]. now rewrite Hf.
Qed.

(** [start_loading] clears [data_loaded] but leaves the database file and
    the connections of the pool as they are.  While the file at the path
    exists and the database the readiness check reads (the file the pool
    has open, or the file at the path when there is no pool) still holds a
    table [entries], the next [is_data_loaded] whose check completes sets
    [data_loaded] back to [True] and answers [True], before any row of the
    new load is written; [current_excel_file] stays [None]. *)
Theorem start_loading_then_is_data_loaded :
  forall path cenv w,
    Loading.running (loading_state w) = false ->
    file_exists w = true ->
    has_entries (Some (checked_db w)) = true ->
    check_completes cenv w = true ->
    (forall p, app_db_pool w = Some p -> pool_bounded p) ->
    let w1 := fst (start_loading path w) in
    let r := is_data_loaded cenv w1 in
    app_data_loaded w1 = false /\
    snd r = Returned true /\
    app_data_loaded (fst r) = true /\
    app_current_excel_file (fst r) = None.
Proof.
  intros path cenv w Hrun Hex Hent Hchk Hpool w1 r. subst w1 r.
  unfold start_loading, Loading.snapshot. rewrite Hrun. cbn [fst].
  match goal with |- context [is_data_loaded cenv ?w0] => set (w1 := w0) end.
  assert (H1 : app_data_loaded w1 = false) by reflexivity.
  assert (H2 : forall p, app_db_pool w1 = Some p -> pool_bounded p) by exact Hpool.
  destruct (is_data_loaded_value cenv w1 H1 H2) as (R1 & R2 & _).
  change (file_exists w1) with (file_exists w) in R1, R2.
  change (checked_db w1) with (checked_db w) in R1, R2.
  change (check_completes cenv w1) with (check_completes cenv w) in R1, R2.
  rewrite Hex, Hent, Hchk in R1, R2.
  split; [reflexivity|]. split; [exact R1|]. split; [exact R2|].
  now rewrite (proj1 (proj2 (is_data_loaded_frame cenv w1))).
Qed.

Lemma start_loading_then_is_data_loaded_witness :
  let pool := fst (DbPool.initialize (DbPool.new_pool (of_string "paraphrase.sqlite") 2)) in
  let w := mkWorld true (Some (of_string "a.xlsx")) (Some pool) Loading.DEFAULT_STATE
                   None [] (Some (Some (mkTable [] []))) [] Attached in
  let w1 := fst (start_loading (of_string "b.xlsx") w) in
  app_data_loaded w1 = false /\
  snd (is_data_loaded (mkCheckEnv None None) w1) = Returned true.
Proof.
  intros pool w w1.
  assert (Hpool : forall p, app_db_pool w = Some p -> pool_bounded p).
  { intros p E. injection E as <-. unfold pool_bounded. cbn. discriminate. }
  destruct (@start_loading_then_is_data_loaded (of_string "b.xlsx")
              (mkCheckEnv None None) w eq_refl eq_refl eq_refl eq_refl Hpool)
    as (H1 & H2 & _).
  split; [exact H1 | exact H2].
Defined.

End Readiness.

(** ** Further properties of the progress store *)

Section ProgressOrder.
Import Loading.





End ProgressOrder.

(** ** What the loader keeps *)

Section EngineInvariants.
Import Database Invariants.

Lemma preserves_bind {A B} (P : Run -> Prop) (m : M A) (k : A -> M B) :
  preserves P m -> (forall a, preserves P (k a)) -> preserves P (bind m k).
Proof.
  intros Hm Hk s Hs. unfold bind. specialize (Hm s Hs).
  destruct (m s) as [s1 [a|e|]]; cbn [fst] in *; auto. now apply Hk.
Qed.

Lemma preserves_ret {A} (P : Run -> Prop) (a : A) : preserves P (ret a).
Proof. intros s Hs. exact Hs. Qed.

Lemma preserves_raise {A} (P : Run -> Prop) e : preserves P (@raise A e).
Proof. intros s Hs. exact Hs. Qed.

Section Generic.
Variable P : Run -> Prop.
Hypothesis P_poll : forall env, preserves P (read_cancelled env).
Hypothesis P_rollback : preserves P (on_con rollback).
Hypothesis P_insert : forall batch, preserves P (on_con (executemany batch)).
Hypothesis P_increment :
  forall env sw, preserves P (increment_processed env 1 sw SAMPLE_STEP LATEST_LIMIT).
Hypothesis P_sheet :
  forall env t,
    preserves P (on_progress (fun now => Loading.set_current_sheet now (Some t)) env).

Lemma load_rows_preserves env sheet_title col rows :
  forall idx batch, preserves P (load_rows env sheet_title col idx rows batch).
Proof.
  induction rows as [|row rest IH]; intros idx batch; cbn [load_rows].
  - apply preserves_ret.
  - apply preserves_bind; [apply P_poll|]. intros [|].
    + apply preserves_bind; [apply P_rollback|]. intros _. apply preserves_raise.
    + apply preserves_bind; [apply P_increment|]. intros _.
      apply preserves_bind.
      * destruct (Py.len _ >=? BATCH_SIZE)%Z; [|apply preserves_ret].
        apply preserves_bind; [apply P_insert|]. intros _. apply preserves_ret.
      * intros b. apply IH.
Qed.

Lemma load_sheet_preserves env ws : preserves P (load_sheet env ws).
Proof.
  unfold load_sheet. apply preserves_bind; [apply P_poll|]. intros [|].
  - apply preserves_bind; [apply P_rollback|]. intros _. apply preserves_raise.
  - apply preserves_bind; [apply P_sheet|]. intros _.
    apply preserves_bind; [apply load_rows_preserves|].
    intros [|p b]; [apply preserves_ret | apply P_insert].
Qed.

Lemma load_sheets_preserves env wb : preserves P (load_sheets env wb).
Proof.
  induction wb as [|ws rest IH]; cbn [load_sheets]; [apply preserves_ret|].
  apply preserves_bind; [apply load_sheet_preserves|]. intros _. exact IH.
Qed.

End Generic.

(** *** Rowids *)

Lemma max_id_seq n :
  forall a, List.fold_right Z.max 0%Z (List.map Z.of_nat (List.seq a n))
            = match n with O => 0%Z | S _ => Z.of_nat (a + n - 1) end.
Proof.
  induction n as [|n IH]; intros a; [reflexivity|].
  cbn [List.seq List.map List.fold_right]. rewrite IH. destruct n; lia.
Qed.

Lemma insert_row_numbered t p t' :
  numbered t -> insert_row t p = Some t' -> numbered t'.
Proof.
  unfold numbered, insert_row, next_id. intros Hn H.
  assert (E : t' = mkTable (table_rows t ++
                              [mkEntry (1 + List.fold_right Z.max 0%Z
                                              (List.map id (table_rows t)))%Z p])
                           (table_indexes t)).
  { destruct (word_norm p); [discriminate | |]; now injection H as <-. }
  subst t'. cbn [table_rows]. rewrite map_app, length_app, Hn, max_id_seq.
  cbn [List.length List.map id]. rewrite Nat.add_1_r, seq_S, map_app.
  cbn [List.map]. f_equal. f_equal. destruct (List.length (table_rows t)); lia.
Qed.

Lemma insert_rows_numbered batch :
  forall t, numbered t -> numbered (fst (insert_rows t batch)).
Proof.
  induction batch as [|p rest IH]; intros t Hn; cbn [insert_rows]; [exact Hn|].
  destruct (insert_row t p) as [t'|] eqn:E; [|exact Hn].
  apply IH. exact (@insert_row_numbered t p t' Hn E).
Qed.

Lemma load_sheets_numbered env wb : preserves stores_numbered (load_sheets env wb).
Proof.
  apply load_sheets_preserves.
  - intros env0 s Hs. exact Hs.
  - intros s [Hc Hw]. split; exact Hc.
  - intros batch s [Hc Hw]. unfold on_con, executemany.
    destruct (working (con s)) as [t|] eqn:E; [|split; cbn; [exact Hc | now rewrite E]].
    pose proof (@insert_rows_numbered batch t Hw) as Hn.
    destruct (insert_rows t batch) as [t' r]. split; cbn; [exact Hc | exact Hn].
  - intros env0 sw s Hs. unfold increment_processed.
    destruct (Loading.increment_processed _ _ _ _ _ _). exact Hs.
  - intros env0 t s Hs. exact Hs.
Qed.

(** *** The progress store and the flags *)

Lemma increment_processed_frame now increment sample_word sample_step latest_limit st :
  same_job st (fst (Loading.increment_processed now increment sample_word sample_step
                                                latest_limit st)).
Proof.
  unfold same_job, Loading.increment_processed. cbn.
  destruct (Loading.percent_expr _ _); [|cbn; auto].
  destruct (Loading.sample_ok sample_word); [|cbn; auto].
  destruct (Py.modulo _ sample_step); [|cbn; auto].
  destruct (z =? 0)%Z; cbn; auto.
Qed.

Lemma same_job_trans st1 st2 st3 : same_job st1 st2 -> same_job st2 st3 -> same_job st1 st3.
Proof. unfold same_job. intuition congruence. Qed.

Lemma load_sheets_job st env wb : preserves (job_kept st) (load_sheets env wb).
Proof.
  apply load_sheets_preserves.
  - intros env0 s Hs. exact Hs.
  - intros s Hs. exact Hs.
  - intros batch s Hs. unfold on_con. destruct (executemany batch (con s)). exact Hs.
  - intros env0 sw s [Hj Hl]. unfold increment_processed.
    pose proof (increment_processed_frame (clock env0 (ticks s)) 1 sw SAMPLE_STEP
                  LATEST_LIMIT (progress s)) as Hf.
    pose proof (increment_processed_latest (clock env0 (ticks s)) 1 sw SAMPLE_STEP
                  LATEST_LIMIT (progress s)) as Hs.
    destruct (Loading.increment_processed _ _ _ _ _ _) as [st' r].
    cbn [fst] in *. split; cbn [progress].
    + exact (same_job_trans Hj Hf).
    + intros H0. specialize (Hl H0). unfold sampled_within in *.
      destruct Hs as [-> | (w & _ & ->)]; [exact Hl|].
      now apply trim_latest_length.
  - intros env0 t s [Hj Hl]. split; cbn; [|exact Hl].
    unfold same_job in *. cbn. exact Hj.
Qed.

Lemma load_sheets_flags loaded file env wb :
  preserves (flags_kept loaded file) (load_sheets env wb).
Proof.
  apply load_sheets_preserves.
  - intros env0 s Hs. exact Hs.
  - intros s Hs. exact Hs.
  - intros batch s Hs. unfold on_con. destruct (executemany batch (con s)). exact Hs.
  - intros env0 sw s Hs. unfold increment_processed.
    destruct (Loading.increment_processed _ _ _ _ _ _). exact Hs.
  - intros env0 t s Hs. exact Hs.
Qed.

(** *** The count of processed rows *)

Lemma on_con_progress {A} (f : Con -> Con * outcome A) s :
  progress (fst (on_con f s)) = progress s.
Proof. unfold on_con. now destruct (f (con s)). Qed.

Lemma increment_processed_run env sw s :
  increment_processed env 1 sw SAMPLE_STEP LATEST_LIMIT s
  = (mkRun (con s)
           (fst (Loading.increment_processed (clock env (ticks s)) 1 sw SAMPLE_STEP
                                             LATEST_LIMIT (progress s)))
           (data_loaded s) (current_excel_file s) (polls s) (S (ticks s)),
     Returned (Loading.processed_words (progress s) + 1)%Z).
Proof.
  unfold increment_processed.
  pose proof (@increment_processed_returns (clock env (ticks s)) 1 sw
                SAMPLE_STEP LATEST_LIMIT (progress s)) as H.
  destruct (Loading.increment_processed _ _ _ _ _ _) as [st r]. cbn [fst snd] in *.
  now rewrite H by discriminate.
Qed.

Lemma load_rows_count env sheet_title col rows :
  forall idx batch s,
    match load_rows env sheet_title col idx rows batch s with
    | (s', o) =>
        (Loading.processed_words (progress s)
         <= Loading.processed_words (progress s')
         <= Loading.processed_words (progress s) + Z.of_nat (List.length rows))%Z /\
        (forall b, o = Returned b ->
                   Loading.processed_words (progress s')
                   = (Loading.processed_words (progress s)
                      + Z.of_nat (List.length rows))%Z)
    end.
Proof.
  induction rows as [|row rest IH]; intros idx batch s.
  - cbn. split; [lia|]. intros _ _. lia.
  - cbn [load_rows]. unfold bind at 1. unfold read_cancelled at 1.
    destruct (cancel_seen env (polls s)).
    + cbn -[Z.of_nat]. split; [lia|]. intros b H. discriminate H.
    + unfold bind at 1. rewrite increment_processed_run.
      cbn [con progress data_loaded current_excel_file polls ticks].
      match goal with
      | |- context [bind _ _ ?s0] => set (s2 := s0)
      end.
      assert (Hp : Loading.processed_words (progress s2)
                   = (Loading.processed_words (progress s) + 1)%Z).
      { subst s2. cbn [progress].
        apply (increment_processed_fields (clock env (ticks s)) 1
                 (Some (display_word_of col row)) SAMPLE_STEP
                 LATEST_LIMIT (progress s)). }
      unfold bind at 1.
      destruct (Py.len _ >=? BATCH_SIZE)%Z.
      * unfold bind at 1.
        pose proof (on_con_progress (executemany (batch ++
                      [record_of sheet_title col idx row])) s2) as Hc.
        destruct (on_con _ s2) as [s3 [u|e|]]; cbn [fst] in Hc.
        -- unfold ret at 1. specialize (IH (idx + 1)%Z [] s3).
           destruct (load_rows env sheet_title col (idx + 1) rest [] s3) as [s' o].
           rewrite Hc, Hp in IH. destruct IH as [I1 I2].
           split; [cbn [List.length]; lia|]. intros b H.
           rewrite (I2 b H). cbn [List.length]. lia.
        -- rewrite <- Hc in Hp. split; [cbn [List.length]; lia|].
           intros b H. discriminate H.
        -- rewrite <- Hc in Hp. split; [cbn [List.length]; lia|].
           intros b H. discriminate H.
      * unfold ret at 1.
        specialize (IH (idx + 1)%Z (batch ++ [record_of sheet_title col idx row]) s2).
        destruct (load_rows env sheet_title col (idx + 1) rest _ s2) as [s' o].
        rewrite Hp in IH. destruct IH as [I1 I2].
        split; [cbn [List.length]; lia|]. intros b H.
        rewrite (I2 b H). cbn [List.length]. lia.
Qed.

Lemma load_sheet_count env ws s :
  match load_sheet env ws s with
  | (s', o) =>
      (Loading.processed_words (progress s)
       <= Loading.processed_words (progress s')
       <= Loading.processed_words (progress s) + Py.len (iter_rows ws))%Z /\
      (forall u, o = Returned u ->
                 Loading.processed_words (progress s')
                 = (Loading.processed_words (progress s) + Py.len (iter_rows ws))%Z)
  end.
Proof.
  unfold load_sheet, Py.len.
  unfold bind at 1. unfold read_cancelled at 1.
  destruct (cancel_seen env (polls s)).
  - cbn -[Z.of_nat]. split; [lia|]. intros u H. discriminate H.
  - unfold bind at 1. unfold on_progress at 1.
    unfold bind at 1.
    match goal with
    | |- context [load_rows env (title ws) ?c 0 (iter_rows ws) [] ?s0] =>
        pose proof (@load_rows_count env (title ws) c (iter_rows ws) 0%Z [] s0) as H;
        destruct (load_rows env (title ws) c 0 (iter_rows ws) [] s0) as [s3 [b|e|]]
    end; cbn -[Z.of_nat] in H; destruct H as [H1 H2].
    + specialize (H2 b eq_refl).
      destruct b as [|p b'].
      * unfold ret. split; [lia|]. intros _ _. exact H2.
      * pose proof (on_con_progress (executemany (p :: b')) s3) as Hc.
        destruct (on_con _ s3) as [s4 r4]. cbn [fst] in Hc. rewrite Hc.
        split; [lia|]. intros _ _. exact H2.
    + split; [exact H1|]. intros u H. discriminate H.
    + split; [exact H1|]. intros u H. discriminate H.
Qed.

Lemma workbook_rows_nonneg wb : (0 <= workbook_rows wb)%Z.
Proof.
  unfold workbook_rows. induction wb as [|ws rest IH]; cbn [fold_right]; [lia|].
  unfold Py.len in *. lia.
Qed.

Lemma load_sheets_count env wb :
  forall s,
    match load_sheets env wb s with
    | (s', o) =>
        (Loading.processed_words (progress s)
         <= Loading.processed_words (progress s')
         <= Loading.processed_words (progress s) + workbook_rows wb)%Z /\
        (forall u, o = Returned u ->
                   Loading.processed_words (progress s')
                   = (Loading.processed_words (progress s) + workbook_rows wb)%Z)
    end.
Proof.
  induction wb as [|ws rest IH]; intros s.
  - cbn. split; [lia|]. intros _ _. lia.
  - cbn [load_sheets workbook_rows fold_right]. fold (workbook_rows rest).
    pose proof (workbook_rows_nonneg rest) as Hnn.
    unfold bind at 1.
    pose proof (load_sheet_count env ws s) as H.
    destruct (load_sheet env ws s) as [s1 [u|e|]]; destruct H as [H1 H2].
    + specialize (H2 u eq_refl). specialize (IH s1).
      destruct (load_sheets env rest s1) as [s2 o]. destruct IH as [I1 I2].
      rewrite H2 in I1. unfold Py.len in *. split; [lia|].
      intros u2 H. rewrite (I2 u2 H), H2. lia.
    + unfold Py.len in *. split; [lia|]. intros u H. discriminate H.
    + unfold Py.len in *. split; [lia|]. intros u H. discriminate H.
Qed.

(** *** The whole run *)

Lemma same_job_refl st : same_job st st.
Proof. unfold same_job. auto. Qed.

Lemma rebuild_full_outcome env file_path wb f s :
  con s = connect f ->
  let st0 := Loading.clear_error (clock env (ticks s)) (progress s) in
  match _rebuild_sqlite_from_excel env file_path wb s with
  | (s', Returned _) =>
      cancel_observed env (polls s) (workbook_polls wb) = false /\
      (exists rows,
          committed (con s')
          = Some (mkTable rows ["idx_entries_word_norm"; "idx_entries_sheet_row"]%string) /\
          List.map fields rows = workbook_records wb /\
          List.map id rows = List.map Z.of_nat (List.seq 1 (List.length rows))) /\
      data_loaded s' = true /\ current_excel_file s' = Some file_path /\
      job_kept st0 s' /\
      Loading.processed_words (progress s')
      = (Loading.processed_words (progress s) + workbook_rows wb)%Z
  | (s', Raised e) =>
      e = cancelled_error /\
      cancel_observed env (polls s) (workbook_polls wb) = true /\
      committed (con s') = Some (mkTable [] []) /\
      data_loaded s' = data_loaded s /\
      current_excel_file s' = current_excel_file s /\
      job_kept st0 s' /\
      (Loading.processed_words (progress s)
       <= Loading.processed_words (progress s')
       <= Loading.processed_words (progress s) + workbook_rows wb)%Z
  | (_, Hangs) => False
  end.
Proof.
  intros Hcon st0.
  destruct s as [c pr dl cf po ti]. cbn in Hcon. subst c.
  cbn [ticks progress polls data_loaded current_excel_file] in *.
  unfold _rebuild_sqlite_from_excel, finally, rebuild_body.
  do 7 (unfold bind at 1; cbn -[load_sheets bind]).
  unfold bind at 1.
  match goal with
  | |- context [load_sheets env wb ?s0] => set (s1 := s0)
  end.
  assert (Hl : loading (Some (mkTable [] [])) [] s1).
  { unfold loading. cbn. repeat split. now exists (mkTable [] []). }
  pose proof (@load_sheets_spec env (Some (mkTable [] [])) wb [] s1 Hl) as Hspec.
  assert (Hn1 : stores_numbered s1) by (split; reflexivity).
  pose proof (@load_sheets_numbered env wb s1 Hn1) as Hnum.
  assert (Hj1 : job_kept st0 s1) by (split; [apply same_job_refl | auto]).
  pose proof (@load_sheets_job st0 env wb s1 Hj1) as Hjob.
  assert (Hf1 : flags_kept dl cf s1) by (split; reflexivity).
  pose proof (@load_sheets_flags dl cf env wb s1 Hf1) as Hflag.
  pose proof (load_sheets_count env wb s1) as Hcnt.
  change (polls s1) with po in Hspec.
  change (Loading.processed_words (progress s1))
    with (Loading.processed_words pr) in Hcnt.
  destruct (load_sheets env wb s1) as [s2 [u|e|]]; [| |contradiction];
    cbn [fst] in Hnum, Hjob, Hflag; destruct Hcnt as [Hc1 Hc2];
    destruct Hflag as [Hfd Hff].
  - destruct Hspec as (H1 & Hl2). specialize (Hc2 u eq_refl).
    destruct Hl2 as (Hb & Ht & t & Hw & Hr & Hi).
    destruct Hnum as [_ Hnw].
    destruct s2 as [c2 pr2 dl2 cf2 po2 ti2]. destruct c2 as [cm wk tx op].
    cbn in Hb, Ht, Hw, Hnw, Hc2, Hfd, Hff. subst cm tx wk.
    destruct t as [rows idxs]. cbn in Hr, Hi, Hnw. subst idxs.
    cbn. split; [exact H1|]. split; [|repeat split; try assumption; apply Hjob].
    exists rows. repeat split; assumption.
  - destruct Hspec as (He & H1 & Hb & Hw & Ht). subst e.
    destruct s2 as [c2 pr2 dl2 cf2 po2 ti2]. destruct c2 as [cm wk tx op].
    cbn in Hb, Ht, Hw, Hfd, Hff, Hc1. subst cm tx wk.
    cbn. repeat split; try assumption; try apply Hjob; lia.
Qed.

Lemma records_from_length sheet_title col rows :
  forall idx, List.length (records_from sheet_title col idx rows) = List.length rows.
Proof.
  induction rows as [|row rest IH]; intros idx; cbn; [reflexivity|]. now rewrite IH.
Qed.

Lemma workbook_records_length wb :
  Py.len (workbook_records wb) = workbook_rows wb.
Proof.
  unfold workbook_records, workbook_rows, Py.len.
  induction wb as [|ws rest IH]; cbn [List.map List.concat fold_right]; [reflexivity|].
  rewrite length_app, Nat2Z.inj_add, IH. unfold sheet_records.
  now rewrite records_from_length.
Qed.

(** A load that is not cancelled rebuilds the table whatever the database
    file held before: the table holds one record per row of the workbook,
    in the order of the sheets and rows, with the rowids 1, 2, ... in that
    order, and exactly the two indexes the loader creates. *)
Theorem rebuild_numbers_and_indexes :
  forall env file_path wb db_file s,
    con s = connect db_file ->
    cancel_observed env (polls s) (workbook_polls wb) = false ->
    let r := _rebuild_sqlite_from_excel env file_path wb s in
    snd r = Returned tt /\
    exists rows,
      committed (con (fst r))
      = Some (mkTable rows ["idx_entries_word_norm"; "idx_entries_sheet_row"]%string) /\
      List.map fields rows = workbook_records wb /\
      List.map id rows = List.map Z.of_nat (List.seq 1 (List.length rows)) /\
      Py.len rows = workbook_rows wb.
Proof.
  intros env file_path wb f s Hcon Hobs r. subst r.
  pose proof (@rebuild_full_outcome env file_path wb f s Hcon) as H. cbn zeta in H.
  destruct (_rebuild_sqlite_from_excel env file_path wb s) as [s' [[]|e|]];
    [| |contradiction]; cbn [fst snd].
  - destruct H as (_ & (rows & Hc & Hr & Hi) & _). split; [reflexivity|].
    exists rows. repeat split; try assumption.
    rewrite <- workbook_records_length, <- Hr. unfold Py.len. now rewrite length_map.
  - destruct H as (_ & H & _). congruence.
Qed.

Lemma rebuild_numbers_and_indexes_witness :
  let env := mkEnv (fun _ => of_string "2024-01-01T00:00:00") (fun _ => false) in
  let row w := [Some (of_string "1"); Some w] in
  let wb := [mkWorksheet (of_string "A") (Some 2%Z) (Some 2%Z)
               [row (of_string "apple"); row (of_string "pear")];
             mkWorksheet (of_string "B") (Some 1%Z) (Some 2%Z)
               [row (of_string "fig")]] in
  let old := Some (Some (mkTable [mkEntry 7 (record_of (of_string "Z") 1 0
                                                  (row (of_string "old")))] [])) in
  let s := mkRun (connect old) Loading.DEFAULT_STATE false None 0 0 in
  let r := _rebuild_sqlite_from_excel env (of_string "words.xlsx") wb s in
  snd r = Returned tt /\
  option_map (fun t => List.map id (table_rows t)) (committed (con (fst r)))
  = Some [1%Z; 2%Z; 3%Z].
Proof.
  intros env row wb old s r.
  destruct (@rebuild_numbers_and_indexes env (of_string "words.xlsx") wb old s
              eq_refl eq_refl) as (H1 & rows & H2 & _).
  split; [exact H1 | vm_compute; reflexivity].
Defined.

(** Through a run of the loader the progress store keeps describing the
    same job ([running], [file] and [total_words] are not touched), its
    error is cleared and stays cleared, the sample list stays within 40
    entries if it was, and [processed_words] grows by one per row read: by
    the number of rows of the workbook when the run completes, by no more
    when it is cancelled. *)
Theorem rebuild_reports_progress :
  forall env file_path wb db_file s,
    con s = connect db_file ->
    let r := _rebuild_sqlite_from_excel env file_path wb s in
    let st := progress s in
    let st' := progress (fst r) in
    Loading.running st' = Loading.running st /\
    Loading.file st' = Loading.file st /\
    Loading.total_words st' = Loading.total_words st /\
    Loading.error st' = None /\
    (sampled_within st -> sampled_within st') /\
    (Loading.processed_words st <= Loading.processed_words st'
     <= Loading.processed_words st + workbook_rows wb)%Z /\
    (snd r = Returned tt ->
     Loading.processed_words st' = (Loading.processed_words st + workbook_rows wb)%Z).
Proof.
  intros env file_path wb f s Hcon r st st'. subst r st st'.
  pose proof (@rebuild_full_outcome env file_path wb f s Hcon) as H. cbn zeta in H.
  pose proof (workbook_rows_nonneg wb) as Hnn.
  destruct (_rebuild_sqlite_from_excel env file_path wb s) as [s' [[]|e|]];
    [| |contradiction]; cbn [fst snd].
  - destruct H as (_ & _ & _ & _ & ((J1 & J2 & J3 & J4) & Js) & Hp).
    cbn in J1, J2, J3, J4. repeat split; try assumption; try lia.
  - destruct H as (_ & _ & _ & _ & _ & ((J1 & J2 & J3 & J4) & Js) & Hp).
    cbn in J1, J2, J3, J4. repeat split; try assumption; try lia.
    intros H. discriminate H.
Qed.

Lemma rebuild_reports_progress_witness :
  let env := mkEnv (fun _ => of_string "2024-01-01T00:00:00") (fun k => Nat.eqb k 2) in
  let wb := [mkWorksheet (of_string "A") (Some 2%Z) (Some 1%Z)
               [[Some (of_string "apple")]; [Some (of_string "pear")]]] in
  let s := mkRun (connect None)
                 (Loading.reset_for_file [] (of_string "words.xlsx") 2 Loading.DEFAULT_STATE)
                 false None 0 0 in
  let r := _rebuild_sqlite_from_excel env (of_string "words.xlsx") wb s in
  Loading.error (progress (fst r)) = None /\
  Loading.processed_words (progress (fst r)) = 1%Z.
Proof.
  intros env wb s r.
  destruct (@rebuild_reports_progress env (of_string "words.xlsx") wb None s eq_refl)
    as (_ & _ & _ & H & _).
  split; [exact H | vm_compute; reflexivity].
Defined.

End EngineInvariants.


(** ** The loader thread, from its start to its end *)

Section Worker.
Import Database Invariants.

Lemma preserves_finally {A} (P : Run -> Prop) (m : M A) (f : M unit) :
  preserves P m -> preserves P f -> preserves P (finally m f).
Proof.
  intros Hm Hf s Hs. unfold finally. specialize (Hm s Hs).
  destruct (m s) as [s1 [a|e|]]; cbn [fst] in *; auto;
    specialize (Hf s1 Hm); destruct (f s1) as [s2 [[]|e'|]]; exact Hf.
Qed.

Section ProgressPredicate.
Variable Q : Loading.State -> Prop.
Hypothesis Q_clear : forall now st, Q st -> Q (Loading.clear_error now st).
Hypothesis Q_sheet : forall now t st, Q st -> Q (Loading.set_current_sheet now t st).
Hypothesis Q_increment :
  forall now sw st,
    Q st -> Q (fst (Loading.increment_processed now 1 sw SAMPLE_STEP LATEST_LIMIT st)).

Lemma on_con_keeps {A} (f : Con -> Con * outcome A) :
  preserves (fun s => Q (progress s)) (on_con f).
Proof. intros s Hs. now rewrite on_con_progress. Qed.

Lemma rebuild_progress_predicate env file_path wb :
  preserves (fun s => Q (progress s)) (_rebuild_sqlite_from_excel env file_path wb).
Proof.
  unfold _rebuild_sqlite_from_excel, rebuild_body.
  apply preserves_finally; [|apply on_con_keeps].
  do 6 (apply preserves_bind; [apply on_con_keeps | intros _]).
  apply preserves_bind; [intros s Hs; cbn; now apply Q_clear | intros _].
  apply preserves_bind.
  - apply load_sheets_preserves.
    + intros env0 s Hs. exact Hs.
    + apply on_con_keeps.
    + intros batch. apply on_con_keeps.
    + intros env0 sw s Hs. unfold increment_processed.
      pose proof (Q_increment (clock env0 (ticks s)) sw Hs) as H.
      destruct (Loading.increment_processed _ _ _ _ _ _). exact H.
    + intros env0 t s Hs. cbn. now apply Q_sheet.
  - intros _. do 7 (apply preserves_bind; [apply on_con_keeps | intros _]).
    intros s Hs. exact Hs.
Qed.

End ProgressPredicate.

Lemma rebuild_percent_tracks env file_path wb :
  preserves (fun s => percent_tracks (progress s))
            (_rebuild_sqlite_from_excel env file_path wb).
Proof.
  apply rebuild_progress_predicate.
  - intros now st H. exact H.
  - intros now t st H. exact H.
  - intros now sw st _. unfold percent_tracks.
    destruct (increment_processed_fields now 1 sw SAMPLE_STEP LATEST_LIMIT st)
      as (P1 & T1 & C1).
    rewrite C1, T1, P1. apply Qeq_refl.
Qed.

Lemma compute_total_rows_exact wb :
  dimensions_exact wb -> compute_total_rows wb = workbook_rows wb.
Proof.
  unfold compute_total_rows, workbook_rows.
  assert (H : forall a, dimensions_exact wb ->
            List.fold_left
              (fun total ws => (total + match max_row ws with Some n => n | None => 0 end)%Z)
              wb a
            = (a + List.fold_right (fun ws n => (Py.len (iter_rows ws) + n)%Z) 0%Z wb)%Z).
  { induction wb as [|ws rest IH]; intros a Hd; cbn [List.fold_left List.fold_right];
      [lia|].
    inversion Hd as [|x l Hx Hl]; subst. rewrite IH by exact Hl. rewrite Hx. lia. }
  intros Hd. now rewrite H.
Qed.

Lemma loader_worker_cases env file_path wb w :
  forall w', w' = loader_worker env file_path wb w ->
  Loading.running (loading_state w') = false /\
  loading_thread w' = None /\
  Loading.file (loading_state w') = Some (basename file_path) /\
  Loading.total_words (loading_state w') = compute_total_rows wb /\
  sampled_within (loading_state w') /\
  percent_tracks (loading_state w') /\
  app_db_pool w' = app_db_pool w /\
  started_threads w' = started_threads w /\
  ((cancel_observed env 0 (workbook_polls wb) = false /\
    Loading.error (loading_state w') = None /\
    app_data_loaded w' = true /\
    app_current_excel_file w' = Some file_path /\
    Loading.processed_words (loading_state w') = workbook_rows wb /\
    exists rows,
      db_file w'
      = Some (Some (mkTable rows ["idx_entries_word_norm"; "idx_entries_sheet_row"]%string)) /\
      List.map fields rows = workbook_records wb /\
      List.map id rows = List.map Z.of_nat (List.seq 1 (List.length rows)))
   \/
   (cancel_observed env 0 (workbook_polls wb) = true /\
    Loading.error (loading_state w') = Some (of_string "loading cancelled") /\
    app_data_loaded w' = false /\
    app_current_excel_file w' = app_current_excel_file w /\
    (0 <= Loading.processed_words (loading_state w') <= workbook_rows wb)%Z /\
    db_file w' = Some (Some (mkTable [] [])))).
Proof.
  intros w' E. unfold loader_worker in E.
  match type of E with
  | context [_rebuild_sqlite_from_excel env file_path wb ?s0] => set (s := s0) in E
  end.
  pose proof (@rebuild_full_outcome env file_path wb _ s eq_refl) as H.
  cbn zeta in H. change (polls s) with 0%nat in H.
  assert (Hp0 : percent_tracks (progress s)).
  { unfold percent_tracks. cbn. destruct (compute_total_rows wb >? 0)%Z; [|apply Qeq_refl].
    unfold Qeq, Qdiv, Qmult, inject_Z. cbn. reflexivity. }
  pose proof (@rebuild_percent_tracks env file_path wb s Hp0) as Hpt.
  destruct (_rebuild_sqlite_from_excel env file_path wb s) as [s' [[]|e|]];
    [| |contradiction]; subst w'; cbn [fst] in Hpt.
  - destruct H as (Hobs & (rows & Hc & Hr & Hi) & Hl & Hf &
                   ((J1 & J2 & J3 & J4) & Js) & Hp).
    cbn in J1, J2, J3, J4, Hp. cbn.
    repeat split; try assumption.
    + apply Js. cbn. discriminate.
    + left. rewrite Hc. repeat split; try assumption. now exists rows.
  - destruct H as (He & Hobs & Hc & Hl & Hf & ((J1 & J2 & J3 & J4) & Js) & Hp).
    subst e. cbn in J1, J2, J3, J4, Hp. cbn.
    repeat split; try assumption.
    + apply Js. cbn. discriminate.
    + right. rewrite Hc. repeat split; try assumption; lia.
Qed.

Lemma loader_worker_pool_file env file_path wb w :
  pool_file (loader_worker env file_path wb w) = pool_file w.
Proof.
  unfold loader_worker.
  destruct (_rebuild_sqlite_from_excel _ _ _ _) as [s [u|e|]]; reflexivity.
Qed.

Lemma start_loading_pool file_path w :
  app_db_pool (fst (start_loading file_path w)) = app_db_pool w /\
  pool_file (fst (start_loading file_path w)) = pool_file w.
Proof.
  unfold start_loading. destruct (Loading.running _); split; reflexivity.
Qed.




(** The percentage a finished load reports is computed from the count of
    rows read and from the total taken from the sheets' [max_row]: it is
    100 when every [max_row] is the number of rows of its sheet and there
    is a row, and it is 0, with every row counted, when the total is not
    positive (sheets without dimensions). *)
Theorem loader_worker_final_percent :
  forall env file_path wb w,
    cancel_observed env 0 (workbook_polls wb) = false ->
    let st := loading_state (loader_worker env file_path wb w) in
    Loading.processed_words st = workbook_rows wb /\
    Loading.total_words st = compute_total_rows wb /\
    (dimensions_exact wb -> (0 < workbook_rows wb)%Z -> (Loading.percent st == 100)%Q) /\
    ((compute_total_rows wb <= 0)%Z -> (Loading.percent st == 0)%Q).
Proof.
  intros env file_path wb w Hobs st. subst st.
  destruct (@loader_worker_cases env file_path wb w _ eq_refl)
    as (_ & _ & _ & Ht & _ & Hpt & _ & _ & Hc).
  destruct Hc as [(_ & _ & _ & _ & Hp & _) | (Hobs' & _)]; [|congruence].
  unfold percent_tracks in Hpt. rewrite Ht, Hp in Hpt.
  repeat split; try assumption.
  - intros Hd Hpos. rewrite (compute_total_rows_exact Hd) in Hpt.
    destruct (workbook_rows wb >? 0)%Z eqn:E; [|lia].
    rewrite Hpt. destruct (workbook_rows wb) as [|n|n]; try lia.
    unfold Qeq, Qdiv, Qmult, Qinv, inject_Z. simpl. lia.
  - intros Hle. destruct (compute_total_rows wb >? 0)%Z eqn:E; [lia | exact Hpt].
Qed.

Lemma loader_worker_final_percent_witness :
  let env := mkEnv (fun _ => of_string "2024-01-01T00:00:00") (fun _ => false) in
  let wb := [mkWorksheet (of_string "A") None (Some 1%Z)
               [[Some (of_string "apple")]; [Some (of_string "pear")]]] in
  let w := mkWorld false None None Loading.DEFAULT_STATE None [] None [] Attached in
  let st := loading_state (loader_worker env (of_string "words.xlsx") wb w) in
  Loading.processed_words st = 2%Z /\ (Loading.percent st == 0)%Q.
Proof.
  intros env wb w st.
  destruct (@loader_worker_final_percent env (of_string "words.xlsx") wb w eq_refl)
    as (H1 & _ & _ & H2).
  split; [exact H1 | apply H2; discriminate].
Defined.

End Worker.

(** ** The handlers of the word book *)

Section Wordbook.
Import Database Invariants Routers.

Lemma get_db_lends {W A : Type} arr (body : DbPool.Connection -> W -> W * outcome A) p w :
  pool_bounded p ->
  DbPool.queue p <> [] ->
  snd (body (List.hd 0%nat (DbPool.queue p)) w) <> Hangs ->
  exists p',
    DbPool.get_db arr body p w
    = (p', fst (body (List.hd 0%nat (DbPool.queue p)) w),
       snd (body (List.hd 0%nat (DbPool.queue p)) w)) /\
    pool_bounded p' /\ DbPool.queue p' <> [] /\
    List.length (DbPool.queue p') = List.length (DbPool.queue p).
Proof.
  intros Hb Hq Hr. destruct (DbPool.queue p) as [|c q] eqn:E; [congruence|].
  cbn [List.hd] in *.
  exists (DbPool.set_queue (q ++ [c]) p).
  unfold DbPool.get_db, DbPool.get_connection, DbPool.queue_get.
  change (Qle_bool 0 DbPool.DEFAULT_TIMEOUT) with true. cbv iota. rewrite E.
  destruct (body c w) as [w' r]. cbn [fst snd] in *.
  unfold DbPool.return_connection. cbn [DbPool.set_queue DbPool.pool_size DbPool.queue].
  assert (Hput : DbPool.queue_put (DbPool.pool_size p) c q = Some (q ++ [c])).
  { unfold pool_bounded in Hb. rewrite E in Hb.
    unfold DbPool.queue_put, DbPool.queue_full. unfold Py.len in *.
    cbn [List.length] in Hb.
    destruct (0 <? DbPool.pool_size p)%Z eqn:E1; [|reflexivity].
    destruct (DbPool.pool_size p <=? Z.of_nat (List.length q))%Z eqn:E2; [|reflexivity].
    lia. }
  rewrite Hput. split; [|split; [|split]].
  - destruct r; [reflexivity | reflexivity | congruence].
  - unfold pool_bounded in *. cbn. rewrite E in Hb. unfold Py.len in *.
    rewrite length_app. cbn [List.length] in *. intros H. specialize (Hb H). lia.
  - cbn. destruct q; discriminate.
  - cbn. rewrite length_app. cbn. lia.
Qed.

(** A request served from the pool: the body runs on the table, its
    exceptions become a 500, and the service goes on serving. *)
Lemma with_pool_serving {A} cenv (body : World -> outcome (Reply A)) t w :
  serving t w ->
  body w <> Hangs ->
  exists w',
    with_pool cenv body w
    = (w', match body w with
           | Returned r => r
           | Raised e => HTTPException 500 (DbError (Exn e))
           | Hangs => Unanswered
           end) /\
    serving t w' /\
    loading_state w' = loading_state w /\
    started_threads w' = started_threads w /\
    app_current_excel_file w' = app_current_excel_file w /\
    lendable w' = lendable w.
Proof.
  intros (Hl & Hf & Hsz & p & Hp & Hb & Hq) Hbody. unfold with_pool. rewrite Hp.
  destruct (@get_db_lends World (Reply A) (arrival cenv) (fun _ w0 => (w0, body w0))
              p w Hb Hq Hbody) as (p' & E & Hb' & Hq' & Hlen).
  cbn [fst snd] in E. rewrite E.
  exists (set_db_pool (Some p') w).
  split; [destruct (body w); [reflexivity | reflexivity | congruence]|].
  split; [|repeat split].
  - split; [exact Hl|]. split; [exact Hf|]. split; [exact Hsz|].
    exists p'. repeat split; assumption.
  - unfold lendable. cbn. now rewrite Hp.
Qed.

Lemma is_data_loaded_serving cenv t w :
  serving t w -> is_data_loaded cenv w = (w, Returned true).
Proof.
  intros (Hl & _). unfold is_data_loaded. now rewrite Hl.
Qed.

Lemma select_serving env t w :
  serving t w -> sound_query env -> select_from_entries (at_query env) w = Returned t.
Proof.
  intros (_ & Hf & _) Hs. unfold select_from_entries. now rewrite Hs, Hf.
Qed.

Lemma bind_int_cases z :
  (- 2 ^ 63 <= z)%Z ->
  bind_int z = if (z <? 2 ^ 63)%Z then Returned z else Raised TOO_LARGE_FOR_SQLITE.
Proof.
  intros H. unfold bind_int.
  replace (- 2 ^ 63 <=? z)%Z with true by (symmetry; apply Z.leb_le; exact H).
  reflexivity.
Qed.

(** *** The batches *)

Lemma batch_loop_done fuel start total_count bs acc :
  (total_count < start)%Z ->
  batch_loop fuel start total_count bs acc = Some acc.
Proof.
  intros H. destruct fuel; cbn [batch_loop];
    destruct (start <=? total_count)%Z eqn:E; try reflexivity;
    apply Z.leb_le in E; lia.
Qed.

Lemma batch_count_bounds n :
  (0 <= n)%Z ->
  (100 * ((n + 99) / 100) - 99 <= n <= 100 * ((n + 99) / 100))%Z.
Proof.
  intros Hn. pose proof (Z.div_mod (n + 99) 100 ltac:(lia)) as H.
  pose proof (Z.mod_pos_bound (n + 99) 100 ltac:(lia)) as Hm. lia.
Qed.

Lemma batch_loop_closed total_count :
  (0 <= total_count)%Z ->
  forall fuel k acc,
    (k <= Z.to_nat ((total_count + 99) / 100))%nat ->
    (Z.to_nat ((total_count + 99) / 100) - k <= fuel)%nat ->
    batch_loop fuel (100 * Z.of_nat k + 1) total_count 100 acc
    = Some (acc ++ List.map (batch_at total_count)
                            (List.seq k (Z.to_nat ((total_count + 99) / 100) - k))).
Proof.
  intros Hn. pose proof (batch_count_bounds Hn) as Hb.
  set (nb := Z.to_nat ((total_count + 99) / 100)).
  assert (Hnb : Z.of_nat nb = ((total_count + 99) / 100)%Z).
  { subst nb. rewrite Z2Nat.id; [reflexivity|]. apply Z.div_pos; lia. }
  rewrite <- Hnb in Hb.
  induction fuel as [|fuel IH]; intros k acc Hk Hf.
  - assert (k = nb) by lia. subst k. rewrite Nat.sub_diag. cbn [List.seq List.map].
    rewrite app_nil_r. apply batch_loop_done. lia.
  - destruct (Nat.eq_dec k nb) as [->|Hne].
    + rewrite Nat.sub_diag. cbn [List.seq List.map].
      rewrite app_nil_r. apply batch_loop_done. lia.
    + cbn [batch_loop].
      destruct (100 * Z.of_nat k + 1 <=? total_count)%Z eqn:E;
        [|apply Z.leb_gt in E; lia].
      replace (nb - k)%nat with (S (nb - S k)) by lia.
      cbn [List.seq List.map].
      replace (100 * Z.of_nat k + 1 + 100 - 1)%Z with (100 * Z.of_nat k + 100)%Z by lia.
      change (mkBatch (label_of (100 * Z.of_nat k + 1)
                                (Z.min (100 * Z.of_nat k + 100) total_count))
                      (100 * Z.of_nat k + 1)
                      (Z.min (100 * Z.of_nat k + 100) total_count))
        with (batch_at total_count k).
      destruct (Z_le_gt_dec (100 * Z.of_nat k + 100) total_count) as [Hle|Hgt].
      * rewrite Z.min_l by exact Hle.
        replace (100 * Z.of_nat k + 100 + 1)%Z with (100 * Z.of_nat (S k) + 1)%Z by lia.
        rewrite IH by lia. now rewrite <- app_assoc.
      * rewrite Z.min_r by lia.
        assert (S k = nb) by lia. subst nb.
        replace (Z.to_nat ((total_count + 99) / 100) - S k)%nat with 0%nat by lia.
        cbn [List.seq List.map]. apply batch_loop_done. lia.
Qed.

Lemma map_seq_offset (a : Z) d m :
  forall o,
    List.map (fun k => (a + Z.of_nat k)%Z) (List.seq (o + d) m)
    = List.map (fun k => (a + Z.of_nat d + Z.of_nat k)%Z) (List.seq o m).
Proof.
  induction m as [|m IH]; intros o; cbn [List.seq List.map]; [reflexivity|].
  f_equal; [lia | apply (IH (S o))].
Qed.

Lemma ids_between_app a b c :
  (a <= b + 1)%Z -> (b <= c)%Z ->
  (ids_between a b ++ ids_between (b + 1) c = ids_between a c)%list.
Proof.
  intros H1 H2. unfold ids_between.
  replace (Z.to_nat (c - a + 1)) with (Z.to_nat (b - a + 1) + Z.to_nat (c - (b + 1) + 1))%nat
    by lia.
  rewrite seq_app, map_app. f_equal.
  rewrite (map_seq_offset a (Z.to_nat (b - a + 1)) _ 0).
  apply map_ext. intros k. lia.
Qed.

Lemma batches_cover n :
  (0 <= n)%Z ->
  forall m,
    (m <= Z.to_nat ((n + 99) / 100))%nat ->
    List.concat (List.map (fun b => ids_between (batch_start b) (batch_end b))
                          (List.map (batch_at n) (List.seq 0 m)))
    = ids_between 1 (Z.min (100 * Z.of_nat m) n).
Proof.
  intros Hn. pose proof (batch_count_bounds Hn) as Hb.
  assert (Hnb : Z.of_nat (Z.to_nat ((n + 99) / 100)) = ((n + 99) / 100)%Z).
  { rewrite Z2Nat.id; [reflexivity|]. apply Z.div_pos; lia. }
  induction m as [|m IH]; intros Hm.
  { cbn [List.seq List.map List.concat Z.of_nat]. now rewrite Z.min_l by lia. }
  rewrite seq_S, !map_app, concat_app, IH by lia. cbn [List.map List.concat Nat.add].
  rewrite app_nil_r. unfold batch_at at 1 2. cbn [batch_start batch_end].
  rewrite (Z.min_l (100 * Z.of_nat m) n) by lia.
  replace (100 * Z.of_nat (S m))%Z with (100 * Z.of_nat m + 100)%Z by lia.
  apply ids_between_app; lia.
Qed.

Lemma batch_at_bounds n k :
  (0 <= n)%Z -> (k < Z.to_nat ((n + 99) / 100))%nat ->
  (1 <= batch_start (batch_at n k) <= batch_end (batch_at n k))%Z /\
  (batch_end (batch_at n k) - batch_start (batch_at n k) <= 99)%Z /\
  (batch_end (batch_at n k) <= n)%Z.
Proof.
  intros Hn Hk. pose proof (batch_count_bounds Hn) as Hb.
  assert (Hnb : Z.of_nat (Z.to_nat ((n + 99) / 100)) = ((n + 99) / 100)%Z).
  { rewrite Z2Nat.id; [reflexivity|]. apply Z.div_pos; lia. }
  unfold batch_at. cbn [batch_start batch_end]. lia.
Qed.

Lemma batch_list_of n :
  (0 <= n)%Z ->
  (if (n >? 0)%Z
   then match batch_loop (Z.to_nat n) 1 n 100 [] with
        | Some bs => Returned (Ok (mkBatchList n 100 bs))
        | None => Hangs
        end
   else Returned (Ok (mkBatchList n 100 [])))
  = Returned (Ok (mkBatchList n 100
                    (List.map (batch_at n) (List.seq 0 (Z.to_nat ((n + 99) / 100)))))).
Proof.
  intros Hn. pose proof (batch_count_bounds Hn) as Hb.
  assert (Hnb : Z.of_nat (Z.to_nat ((n + 99) / 100)) = ((n + 99) / 100)%Z).
  { rewrite Z2Nat.id; [reflexivity|]. apply Z.div_pos; lia. }
  destruct (n >? 0)%Z eqn:E.
  - pose proof (@batch_loop_closed n Hn (Z.to_nat n) 0 []) as H.
    rewrite Nat.sub_0_r in H. cbn [Z.of_nat app] in H.
    change (100 * 0 + 1)%Z with 1%Z in H. rewrite H by lia. reflexivity.
  - assert (n = 0%Z) by lia. subst n. reflexivity.
Qed.

Lemma api_wordbook_batches_serving env t w :
  serving t w ->
  sound_query env ->
  let n := Py.len (table_rows t) in
  snd (api_wordbook_batches env w)
  = Ok (mkBatchList n 100 (List.map (batch_at n) (List.seq 0 (Z.to_nat ((n + 99) / 100))))) /\
  serving t (fst (api_wordbook_batches env w)).
Proof.
  intros Hs Hq n.
  assert (Hn : (0 <= n)%Z) by (subst n; unfold Py.len; lia).
  unfold api_wordbook_batches. rewrite (is_data_loaded_serving _ Hs).
  match goal with
  | |- context [with_pool ?c ?b w] =>
      destruct (@with_pool_serving BatchList c b t w Hs) as (w' & E & Hs' & _)
  end.
  { rewrite (select_serving Hs Hq). cbv zeta. fold n. rewrite (batch_list_of Hn).
    discriminate. }
  rewrite E. rewrite (select_serving Hs Hq). cbv zeta. fold n.
  rewrite (batch_list_of Hn). cbn [fst snd]. split; [reflexivity | exact Hs'].
Qed.

(** Served from a table of [n] rows, [api_wordbook_batches] answers with
    the total [n], the batch size 100 and ceil(n/100) batches: the batch of
    rank k runs from 100k+1 to min(100k+100, n) and is labelled with these
    two numbers.  The batches are not empty, hold at most 100 rowids each
    and together list the rowids 1..n once, in order.  The service goes on
    serving. *)
Theorem wordbook_batches_partition :
  forall env t w,
    serving t w ->
    sound_query env ->
    let n := Py.len (table_rows t) in
    let r := api_wordbook_batches env w in
    exists bs,
      snd r = Ok (mkBatchList n 100 bs) /\
      bs = List.map (batch_at n) (List.seq 0 (Z.to_nat ((n + 99) / 100))) /\
      List.concat (List.map (fun b => ids_between (batch_start b) (batch_end b)) bs)
      = ids_between 1 n /\
      List.Forall (fun b => (1 <= batch_start b <= batch_end b)%Z /\
                            (batch_end b - batch_start b <= 99)%Z /\
                            batch_label b = label_of (batch_start b) (batch_end b)) bs /\
      serving t (fst r).
Proof.
  intros env t w Hs Hq n r. subst r.
  assert (Hn : (0 <= n)%Z) by (subst n; unfold Py.len; lia).
  pose proof (batch_count_bounds Hn) as Hb.
  assert (Hnb : Z.of_nat (Z.to_nat ((n + 99) / 100)) = ((n + 99) / 100)%Z).
  { rewrite Z2Nat.id; [reflexivity|]. apply Z.div_pos; lia. }
  destruct (@api_wordbook_batches_serving env t w Hs Hq) as (E & Hs'). fold n in E.
  eexists. split; [exact E|]. split; [reflexivity|]. split; [|split].
  - rewrite batches_cover by lia. f_equal. lia.
  - apply Forall_forall. intros b Hin. apply in_map_iff in Hin.
    destruct Hin as (k & <- & Hk). apply in_seq in Hk.
    destruct (@batch_at_bounds n k Hn) as (B1 & B2 & _); [lia|].
    repeat split; lia.
  - exact Hs'.
Qed.

Lemma wordbook_batches_partition_witness :
  let row k := mkEntry k (mkParams (SqlText (of_string "w")) SqlNull SqlNull SqlNull
                                   (SqlText (of_string "A")) (SqlInteger (k - 1))) in
  let t := mkTable (List.map (fun k => row (Z.of_nat k)) (List.seq 1 250)) [] in
  let p := fst (DbPool.initialize (DbPool.new_pool (of_string "paraphrase.sqlite") 2)) in
  let w := mkWorld true None (Some p) Loading.DEFAULT_STATE None [] (Some (Some t)) []
                   Attached in
  let env := mkReqEnv (mkCheckEnv None None) (mkCheckEnv None None) (fun _ => None) true in
  option_map (fun b => List.map (fun x => (batch_start x, batch_end x)) (batches b))
             (delivered (snd (api_wordbook_batches env w)))
  = Some [(1, 100); (101, 200); (201, 250)]%Z.
Proof.
  intros row t p w env.
  assert (Hs : serving t w).
  { split; [reflexivity|]. split; [reflexivity|]. split; [reflexivity|]. exists p.
    split; [reflexivity|]. split; [intros _; vm_compute; discriminate | discriminate]. }
  destruct (@wordbook_batches_partition env t w Hs eq_refl) as (bs & E & Hbs & _).
  rewrite E. cbn [delivered option_map batches]. rewrite Hbs. vm_compute. reflexivity.
Defined.

(** *** Ranges of rowids *)

Lemma ids_from_head a (x : Entry) r :
  List.map id (x :: r) = List.map Z.of_nat (List.seq a (List.length (x :: r))) ->
  id x = Z.of_nat a /\
  List.map id r = List.map Z.of_nat (List.seq (S a) (List.length r)).
Proof. cbn. intros H. now injection H. Qed.

Lemma filter_numbered_from s e rows :
  forall a,
    List.map id rows = List.map Z.of_nat (List.seq a (List.length rows)) ->
    List.filter (fun x => (s <=? id x)%Z && (id x <=? e)%Z) rows
    = List.firstn (Z.to_nat (e - Z.max s (Z.of_nat a) + 1))
                  (List.skipn (Z.to_nat (s - Z.of_nat a)) rows).
Proof.
  induction rows as [|x r IH]; intros a H.
  - now rewrite skipn_nil, firstn_nil.
  - apply ids_from_head in H. destruct H as [Hx Hr]. specialize (IH (S a) Hr).
    cbn [List.filter]. rewrite IH, Hx.
    destruct (s <=? Z.of_nat a)%Z eqn:E1; cbn [andb].
    + apply Z.leb_le in E1. replace (Z.to_nat (s - Z.of_nat a)) with 0%nat by lia.
      replace (Z.to_nat (s - Z.of_nat (S a))) with 0%nat by lia. cbn [List.skipn].
      destruct (Z.of_nat a <=? e)%Z eqn:E2.
      * apply Z.leb_le in E2.
        replace (Z.to_nat (e - Z.max s (Z.of_nat a) + 1))
          with (S (Z.to_nat (e - Z.max s (Z.of_nat (S a)) + 1))) by lia.
        reflexivity.
      * apply Z.leb_gt in E2.
        replace (Z.to_nat (e - Z.max s (Z.of_nat a) + 1)) with 0%nat by lia.
        replace (Z.to_nat (e - Z.max s (Z.of_nat (S a)) + 1)) with 0%nat by lia.
        reflexivity.
    + apply Z.leb_gt in E1.
      replace (Z.to_nat (s - Z.of_nat a)) with (S (Z.to_nat (s - Z.of_nat (S a)))) by lia.
      cbn [List.skipn].
      replace (Z.max s (Z.of_nat (S a))) with (Z.max s (Z.of_nat a)) by lia.
      reflexivity.
Qed.

Lemma filter_numbered s e t :
  numbered t -> (1 <= s)%Z ->
  List.filter (fun x => (s <=? id x)%Z && (id x <=? e)%Z) (table_rows t)
  = segment s e (table_rows t).
Proof.
  intros Hn Hs. rewrite (@filter_numbered_from s e (table_rows t) 1 Hn).
  unfold segment. rewrite Z.max_l by lia. reflexivity.
Qed.

Lemma insert_by_id_head x l :
  match l with [] => True | y :: _ => (id x <= id y)%Z end ->
  insert_by_id x l = x :: l.
Proof.
  destruct l as [|y r]; [reflexivity|]. intros H. cbn [insert_by_id].
  destruct (id x <=? id y)%Z eqn:E; [reflexivity|]. apply Z.leb_gt in E. lia.
Qed.

Lemma ordered_from rows :
  forall a,
    List.map id rows = List.map Z.of_nat (List.seq a (List.length rows)) ->
    order_by_id rows = rows.
Proof.
  induction rows as [|x r IH]; intros a H; [reflexivity|].
  apply ids_from_head in H. destruct H as [Hx Hr].
  unfold order_by_id in *. cbn [List.fold_right]. rewrite (IH (S a) Hr).
  apply insert_by_id_head. destruct r as [|y r']; [exact I|].
  apply ids_from_head in Hr. lia.
Qed.

Lemma numbered_skipn_from rows :
  forall k a,
    List.map id rows = List.map Z.of_nat (List.seq a (List.length rows)) ->
    List.map id (List.skipn k rows)
    = List.map Z.of_nat (List.seq (a + Nat.min k (List.length rows))
                                  (List.length (List.skipn k rows))).
Proof.
  induction rows as [|x r IH]; intros k a H.
  - now rewrite skipn_nil.
  - destruct k as [|k].
    + cbn [List.skipn Nat.min]. now rewrite Nat.add_0_r.
    + apply ids_from_head in H. destruct H as [_ Hr]. cbn [List.skipn List.length Nat.min].
      rewrite (IH k (S a) Hr). f_equal. f_equal. lia.
Qed.

Lemma numbered_firstn_from rows :
  forall k a,
    List.map id rows = List.map Z.of_nat (List.seq a (List.length rows)) ->
    List.map id (List.firstn k rows)
    = List.map Z.of_nat (List.seq a (List.length (List.firstn k rows))).
Proof.
  induction rows as [|x r IH]; intros k a H.
  - now rewrite firstn_nil.
  - destruct k as [|k]; [reflexivity|].
    apply ids_from_head in H. destruct H as [Hx Hr]. cbn [List.firstn List.length List.map
      List.seq]. rewrite (IH k (S a) Hr), Hx. reflexivity.
Qed.

Lemma segment_ordered s e t :
  numbered t -> order_by_id (segment s e (table_rows t)) = segment s e (table_rows t).
Proof.
  intros Hn. unfold segment.
  eapply ordered_from. apply numbered_firstn_from.
  apply (@numbered_skipn_from (table_rows t) (Z.to_nat (s - 1)) 1 Hn).
Qed.

Lemma segment_ids s e t :
  numbered t -> (1 <= s)%Z ->
  List.map id (segment s e (table_rows t))
  = ids_between s (Z.min e (Py.len (table_rows t))).
Proof.
  intros Hn Hs. unfold segment.
  rewrite (@numbered_firstn_from _ (Z.to_nat (e - s + 1)) _
             (@numbered_skipn_from (table_rows t) (Z.to_nat (s - 1)) 1 Hn)).
  rewrite length_firstn, length_skipn. unfold ids_between, Py.len.
  set (n := List.length (table_rows t)).
  replace (Nat.min (Z.to_nat (e - s + 1)) (n - Z.to_nat (s - 1)))
    with (Z.to_nat (Z.min e (Z.of_nat n) - s + 1)) by lia.
  destruct (Z_le_gt_dec s (Z.of_nat n)) as [Hle|Hgt].
  - rewrite Nat.min_l by lia.
    rewrite <- (Nat.add_0_l (1 + Z.to_nat (s - 1))).
    rewrite (map_seq_offset 0 (1 + Z.to_nat (s - 1)) _ 0).
    apply map_ext. intros k. lia.
  - replace (Z.to_nat (Z.min e (Z.of_nat n) - s + 1)) with 0%nat by lia. reflexivity.
Qed.

Lemma api_wordbook_range_serving env t w start end_ :
  serving t w ->
  sound_query env ->
  numbered t ->
  (1 <= start <= end_)%Z ->
  (end_ - start <= 1000)%Z ->
  let rows := segment start end_ (table_rows t) in
  snd (api_wordbook_range env start end_ w)
  = (if (end_ <? 2 ^ 63)%Z
     then Ok (mkRangeBody start end_ (Py.len rows) (List.map item_of rows))
     else HTTPException 500 (DbError (Exn TOO_LARGE_FOR_SQLITE))) /\
  serving t (fst (api_wordbook_range env start end_ w)).
Proof.
  intros Hs Hq Hn Hr Hw rows. subst rows.
  unfold api_wordbook_range. rewrite (is_data_loaded_serving _ Hs).
  destruct (start <=? 0)%Z eqn:E1; [apply Z.leb_le in E1; lia|].
  destruct (end_ <? start)%Z eqn:E2; [apply Z.ltb_lt in E2; lia|].
  destruct (end_ - start >? 1000)%Z eqn:E3; [lia|]. cbn [orb].
  rewrite (@bind_int_cases start), (@bind_int_cases end_) by lia.
  assert (Hst : (start <? 2 ^ 63)%Z = false -> (end_ <? 2 ^ 63)%Z = false).
  { intros H. apply Z.ltb_ge in H. apply Z.ltb_ge. lia. }
  match goal with
  | |- context [with_pool ?c ?b w] =>
      destruct (@with_pool_serving RangeBody c b t w Hs) as (w' & E & Hs' & _)
  end.
  { rewrite (select_serving Hs Hq).
    destruct (start <? 2 ^ 63)%Z; [|discriminate].
    destruct (end_ <? 2 ^ 63)%Z; discriminate. }
  rewrite E, (select_serving Hs Hq). cbn [fst snd]. split; [|exact Hs'].
  destruct (start <? 2 ^ 63)%Z.
  - destruct (end_ <? 2 ^ 63)%Z; [|reflexivity].
    rewrite (@filter_numbered start end_ t Hn) by lia.
    rewrite (segment_ordered start end_ Hn).
    unfold Py.len. now rewrite length_map.
  - now rewrite (Hst eq_refl).
Qed.

(** Served from a table whose rowids are 1, 2, ..., [api_wordbook_range]
    answers a valid range (1 <= start <= end <= start + 1000) whose
    bounds fit in 64 bits with the rows whose rowid is in the range, in
    rowid order, each with its id and its three texts ([NULL] read as the
    empty text), and with their count.  A range that reaches beyond the
    last row is cut there.  A valid range with a bound of 2^63 or more is
    answered 500: sqlite3 refuses to bind the integer.  Either way the
    service goes on serving. *)
Theorem wordbook_range_rows :
  forall env t w start end_,
    serving t w ->
    sound_query env ->
    numbered t ->
    (1 <= start <= end_)%Z ->
    (end_ - start <= 1000)%Z ->
    let r := api_wordbook_range env start end_ w in
    let rows := segment start end_ (table_rows t) in
    snd r = (if (end_ <? 2 ^ 63)%Z
             then Ok (mkRangeBody start end_ (Py.len rows) (List.map item_of rows))
             else HTTPException 500 (DbError (Exn TOO_LARGE_FOR_SQLITE))) /\
    List.map id rows = ids_between start (Z.min end_ (Py.len (table_rows t))) /\
    serving t (fst r).
Proof.
  intros env t w start end_ Hs Hq Hn Hr Hw r rows. subst r rows.
  destruct (@api_wordbook_range_serving env t w start end_ Hs Hq Hn Hr Hw) as (E & Hs').
  split; [exact E|]. split; [apply segment_ids; [exact Hn | lia] | exact Hs'].
Qed.

Lemma wordbook_range_rows_witness :
  let row k := mkEntry k (mkParams (SqlText (of_string "w")) SqlNull SqlNull SqlNull
                                   (SqlText (of_string "A")) (SqlInteger (k - 1))) in
  let t := mkTable (List.map (fun k => row (Z.of_nat k)) (List.seq 1 5)) [] in
  let p := fst (DbPool.initialize (DbPool.new_pool (of_string "paraphrase.sqlite") 2)) in
  let w := mkWorld true None (Some p) Loading.DEFAULT_STATE None [] (Some (Some t)) []
                   Attached in
  let env := mkReqEnv (mkCheckEnv None None) (mkCheckEnv None None) (fun _ => None) true in
  option_map (fun b => (range_count b, List.map item_id (range_items b)))
             (delivered (snd (api_wordbook_range env 4 9 w)))
  = Some (2, [4; 5])%Z.
Proof.
  intros row t p w env.
  assert (Hs : serving t w).
  { split; [reflexivity|]. split; [reflexivity|]. split; [reflexivity|]. exists p.
    split; [reflexivity|]. split; [intros _; vm_compute; discriminate | discriminate]. }
  assert (Hr : (1 <= 4 <= 9)%Z) by lia.
  assert (Hw : (9 - 4 <= 1000)%Z) by lia.
  destruct (@wordbook_range_rows env t w 4%Z 9%Z Hs eq_refl eq_refl Hr Hw) as (E & _).
  rewrite E. vm_compute. reflexivity.
Defined.

(** *** Reading the word book batch by batch *)

Lemma firstn_add {A} (l : list A) :
  forall a b, (List.firstn a l ++ List.firstn b (List.skipn a l) = List.firstn (a + b) l)%list.
Proof.
  induction l as [|x r IH]; intros a b.
  - now rewrite skipn_nil, !firstn_nil.
  - destruct a as [|a]; [reflexivity|]. cbn. now rewrite IH.
Qed.

Lemma segments_concat {A} (rows : list A) :
  let n := Py.len rows in
  forall m,
    (m <= Z.to_nat ((n + 99) / 100))%nat ->
    List.concat (List.map (fun b => segment (batch_start b) (batch_end b) rows)
                          (List.map (batch_at n) (List.seq 0 m)))
    = List.firstn (Z.to_nat (Z.min (100 * Z.of_nat m) n)) rows.
Proof.
  intros n.
  assert (Hn : (0 <= n)%Z) by (subst n; unfold Py.len; lia).
  pose proof (batch_count_bounds Hn) as Hb.
  assert (Hnb : Z.of_nat (Z.to_nat ((n + 99) / 100)) = ((n + 99) / 100)%Z).
  { rewrite Z2Nat.id; [reflexivity|]. apply Z.div_pos; lia. }
  induction m as [|m IH]; intros Hm.
  { cbn [List.seq List.map List.concat Z.of_nat]. now rewrite Z.min_l by lia. }
  rewrite seq_S, !map_app, concat_app, IH by lia. cbn [List.map List.concat Nat.add].
  rewrite app_nil_r. unfold batch_at, segment. cbn [batch_start batch_end].
  rewrite (Z.min_l (100 * Z.of_nat m) n) by lia.
  replace (Z.to_nat (100 * Z.of_nat m + 1 - 1)) with (Z.to_nat (100 * Z.of_nat m)) by lia.
  rewrite firstn_add. f_equal. lia.
Qed.

Lemma batch_segment_length {A} (rows : list A) k :
  let n := Py.len rows in
  (k < Z.to_nat ((n + 99) / 100))%nat ->
  Py.len (segment (batch_start (batch_at n k)) (batch_end (batch_at n k)) rows)
  = (batch_end (batch_at n k) - batch_start (batch_at n k) + 1)%Z.
Proof.
  intros n Hk.
  assert (Hn : (0 <= n)%Z) by (subst n; unfold Py.len; lia).
  destruct (@batch_at_bounds n k Hn Hk) as (B1 & B2 & B3).
  unfold segment, Py.len. rewrite length_firstn, length_skipn.
  unfold n, Py.len in *. lia.
Qed.

(** A client that asks [api_wordbook_batches] for the batches and then
    [api_wordbook_range] for each of them reads the whole table: every
    batch is a valid range and is answered with exactly its
    [end - start + 1] rows, and the answers put end to end are the rows of
    the table, each once, in rowid order. *)
Theorem wordbook_batches_read_table :
  forall env t w,
    serving t w ->
    sound_query env ->
    numbered t ->
    exists bs,
      option_map batches (delivered (snd (api_wordbook_batches env w))) = Some bs /\
      (forall b w1,
          List.In b bs -> serving t w1 ->
          let r := api_wordbook_range env (batch_start b) (batch_end b) w1 in
          option_map range_count (delivered (snd r))
          = Some (batch_end b - batch_start b + 1)%Z /\
          serving t (fst r)) /\
      (forall w1,
          serving t w1 ->
          List.concat
            (List.map (fun b => replied_items
                                  (snd (api_wordbook_range env (batch_start b) (batch_end b) w1)))
                      bs)
          = List.map item_of (table_rows t)).
Proof.
  intros env t w Hs Hq Hn.
  set (n := Py.len (table_rows t)).
  assert (Hn0 : (0 <= n)%Z) by (subst n; unfold Py.len; lia).
  destruct (@api_wordbook_batches_serving env t w Hs Hq) as (E & _). fold n in E.
  exists (List.map (batch_at n) (List.seq 0 (Z.to_nat ((n + 99) / 100)))).
  split; [now rewrite E|].
  assert (Hreply : forall k w1,
             (k < Z.to_nat ((n + 99) / 100))%nat -> serving t w1 ->
             let b := batch_at n k in
             snd (api_wordbook_range env (batch_start b) (batch_end b) w1)
             = Ok (mkRangeBody (batch_start b) (batch_end b)
                               (batch_end b - batch_start b + 1)
                               (List.map item_of
                                  (segment (batch_start b) (batch_end b) (table_rows t)))) /\
             serving t (fst (api_wordbook_range env (batch_start b) (batch_end b) w1))).
  { intros k w1 Hk Hs1 b.
    destruct (@batch_at_bounds n k Hn0 Hk) as (B1 & B2 & B3). fold b in B1, B2, B3.
    destruct (@api_wordbook_range_serving env t w1 (batch_start b) (batch_end b)
                Hs1 Hq Hn) as (E1 & Hs1'); [lia | lia |].
    assert (Hfit : (batch_end b <? 2 ^ 63)%Z = true).
    { apply Z.ltb_lt. destruct Hs as (_ & _ & Hsz & _). fold n in Hsz. lia. }
    split; [|exact Hs1']. rewrite E1, Hfit. f_equal. f_equal.
    apply (@batch_segment_length _ (table_rows t) k Hk). }
  split.
  - intros b w1 Hin Hs1. apply in_map_iff in Hin. destruct Hin as (k & <- & Hk).
    apply in_seq in Hk. destruct (Hreply k w1 ltac:(lia) Hs1) as (E1 & Hs1').
    cbv zeta. rewrite E1. split; [reflexivity | exact Hs1'].
  - intros w1 Hs1. rewrite map_map.
    rewrite (@map_ext_in _ _ _
               (fun k => List.map item_of
                           (segment (batch_start (batch_at n k)) (batch_end (batch_at n k))
                                    (table_rows t)))).
    2:{ intros k Hk. apply in_seq in Hk.
        destruct (Hreply k w1 ltac:(lia) Hs1) as (E1 & _). cbv zeta in E1. now rewrite E1. }
    rewrite <- (map_map (fun k => segment (batch_start (batch_at n k))
                                          (batch_end (batch_at n k)) (table_rows t))
                        (List.map item_of)).
    rewrite <- concat_map. f_equal.
    rewrite <- (map_map (batch_at n)
                        (fun b => segment (batch_start b) (batch_end b) (table_rows t))).
    unfold n. rewrite (@segments_concat _ (table_rows t) _ (Nat.le_refl _)). fold n.
    pose proof (batch_count_bounds Hn0) as Hb.
    rewrite Z2Nat.id by (apply Z.div_pos; lia). rewrite Z.min_r by lia.
    unfold n, Py.len. rewrite Nat2Z.id. apply firstn_all.
Qed.

Lemma wordbook_batches_read_table_witness :
  let row k := mkEntry k (mkParams (SqlText (of_string "w")) SqlNull SqlNull SqlNull
                                   (SqlText (of_string "A")) (SqlInteger (k - 1))) in
  let t := mkTable (List.map (fun k => row (Z.of_nat k)) (List.seq 1 120)) [] in
  let p := fst (DbPool.initialize (DbPool.new_pool (of_string "paraphrase.sqlite") 2)) in
  let w := mkWorld true None (Some p) Loading.DEFAULT_STATE None [] (Some (Some t)) []
                   Attached in
  let env := mkReqEnv (mkCheckEnv None None) (mkCheckEnv None None) (fun _ => None) true in
  List.concat
    (List.map (fun b => replied_items
                          (snd (api_wordbook_range env (batch_start b) (batch_end b) w)))
              [batch_at 120 0; batch_at 120 1])
  = List.map item_of (table_rows t).
Proof.
  intros row t p w env.
  assert (Hs : serving t w).
  { split; [reflexivity|]. split; [reflexivity|]. split; [reflexivity|]. exists p.
    split; [reflexivity|]. split; [intros _; vm_compute; discriminate | discriminate]. }
  assert (Hnum : numbered t) by (vm_compute; reflexivity).
  destruct (@wordbook_batches_read_table env t w Hs eq_refl Hnum) as (bs & E & _ & H).
  assert (Hbs : bs = [batch_at 120 0; batch_at 120 1]).
  { vm_compute in E. injection E as <-. vm_compute. reflexivity. }
  rewrite <- Hbs. exact (H w Hs).
Defined.

End Wordbook.

(** ** The handlers that look words up *)

Section Lookup.
Import Database Invariants Routers.

(** *** Matching rows *)

Lemma str_eqb_refl a : str_eqb a a = true.
Proof. induction a as [|x a IH]; [reflexivity|]. cbn. now rewrite N.eqb_refl. Qed.

Lemma str_eqb_eq a : forall b, str_eqb a b = true -> a = b.
Proof.
  induction a as [|x a IH]; intros [|y b] H; try discriminate; [reflexivity|].
  cbn in H. apply andb_true_iff in H. destruct H as [H1 H2].
  apply N.eqb_eq in H1. subst y. f_equal. now apply IH.
Qed.

Lemma str_eqb_neq a b : a <> b -> str_eqb a b = false.
Proof.
  intros H. destruct (str_eqb a b) eqn:E; [|reflexivity].
  apply str_eqb_eq in E. contradiction.
Qed.

(** The first row a condition on the columns selects is the first record
    that satisfies it. *)
Lemma first_match_fields {B} (c : Params -> bool) rows (none : B) (some : Params -> B) :
  match List.filter (fun e => c (fields e)) rows with
  | [] => none
  | e :: _ => some (fields e)
  end
  = match List.find c (List.map fields rows) with
    | Some p => some p
    | None => none
    end.
Proof.
  induction rows as [|x r IH]; [reflexivity|]. cbn [List.filter List.map List.find].
  destruct (c (fields x)); [reflexivity | exact IH].
Qed.

Lemma find_app {A} (f : A -> bool) l1 l2 :
  List.find f (l1 ++ l2)
  = match List.find f l1 with Some x => Some x | None => List.find f l2 end.
Proof.
  induction l1 as [|x l1 IH]; [reflexivity|]. cbn. destruct (f x); [reflexivity | exact IH].
Qed.

Lemma find_none_all {A} (f : A -> bool) l :
  (forall x, List.In x l -> f x = false) -> List.find f l = None.
Proof.
  induction l as [|x l IH]; intros H; [reflexivity|]. cbn.
  rewrite (H x (or_introl eq_refl)). apply IH. intros y Hy. apply H. now right.
Qed.

(** *** The records of a workbook *)

Lemma records_from_in sheet_title col rows :
  forall idx p,
    List.In p (records_from sheet_title col idx rows) ->
    exists k, (k < List.length rows)%nat /\
              p = record_of sheet_title col (idx + Z.of_nat k) (List.nth k rows []).
Proof.
  induction rows as [|row rest IH]; intros idx p H; [destruct H|].
  cbn [records_from] in H. destruct H as [<-|H].
  - exists 0%nat. cbn [List.length List.nth]. split; [lia|]. f_equal. lia.
  - destruct (IH _ _ H) as (k & Hk & ->). exists (S k). cbn [List.length List.nth].
    split; [lia|]. f_equal. lia.
Qed.

Lemma workbook_records_in wb p :
  List.In p (workbook_records wb) ->
  exists ws k,
    List.In ws wb /\ (k < List.length (iter_rows ws))%nat /\
    p = record_of (title ws) (word_column ws) (Z.of_nat k) (List.nth k (iter_rows ws) []).
Proof.
  unfold workbook_records. intros H. apply in_concat in H.
  destruct H as (l & Hl & Hp). apply in_map_iff in Hl. destruct Hl as (ws & <- & Hws).
  unfold sheet_records in Hp. apply records_from_in in Hp.
  destruct Hp as (k & Hk & ->). exists ws, k. repeat split; assumption.
Qed.

Lemma records_from_nth sheet_title col rows :
  forall idx k,
    (k < List.length rows)%nat ->
    List.In (record_of sheet_title col (idx + Z.of_nat k) (List.nth k rows []))
            (records_from sheet_title col idx rows).
Proof.
  induction rows as [|row rest IH]; intros idx k Hk; [cbn in Hk; lia|].
  destruct k as [|k]; cbn [records_from List.nth].
  - left. f_equal. lia.
  - right. replace (idx + Z.of_nat (S k))%Z with (idx + 1 + Z.of_nat k)%Z by lia.
    apply IH. cbn in Hk. lia.
Qed.

Lemma workbook_records_nth wb ws k :
  List.In ws wb -> (k < List.length (iter_rows ws))%nat ->
  List.In (record_of (title ws) (word_column ws) (Z.of_nat k) (List.nth k (iter_rows ws) []))
          (workbook_records wb).
Proof.
  intros Hws Hk. unfold workbook_records. apply in_concat.
  exists (sheet_records ws). split; [now apply in_map|].
  unfold sheet_records. apply (@records_from_nth (title ws) (word_column ws) _ 0 k Hk).
Qed.

(** The condition of [api_excel_row] on the columns of a record. *)
Lemma position_of_record s i sheet_title col idx row :
  text_is s (sheet (record_of sheet_title col idx row))
  && integer_is i (row_index (record_of sheet_title col idx row))
  = str_eqb sheet_title s && (idx =? i)%Z.
Proof. reflexivity. Qed.

Lemma find_position_records sheet_title col i rows :
  forall idx k,
    i = (idx + Z.of_nat k)%Z -> (k < List.length rows)%nat ->
    List.find (fun p => text_is sheet_title (sheet p) && integer_is i (row_index p))
              (records_from sheet_title col idx rows)
    = Some (record_of sheet_title col i (List.nth k rows [])).
Proof.
  induction rows as [|row rest IH]; intros idx k Hi Hk; [cbn in Hk; lia|].
  cbn [records_from List.find]. rewrite position_of_record, str_eqb_refl. cbn [andb].
  destruct k as [|k].
  - replace (idx =? i)%Z with true by (symmetry; apply Z.eqb_eq; lia).
    cbn [List.nth]. f_equal. f_equal. lia.
  - replace (idx =? i)%Z with false by (symmetry; apply Z.eqb_neq; lia).
    cbn [List.nth]. apply IH; [lia | cbn in Hk; lia].
Qed.

Lemma find_position_other s i ws :
  title ws <> s ->
  List.find (fun p => text_is s (sheet p) && integer_is i (row_index p)) (sheet_records ws)
  = None.
Proof.
  intros Hne. apply find_none_all. intros p Hp. unfold sheet_records in Hp.
  apply records_from_in in Hp. destruct Hp as (k & _ & ->).
  rewrite position_of_record. now rewrite (str_eqb_neq Hne).
Qed.

Lemma find_position_workbook wb :
  forall ws k,
    List.NoDup (List.map title wb) ->
    List.In ws wb -> (k < List.length (iter_rows ws))%nat ->
    List.find (fun p => text_is (title ws) (sheet p)
                        && integer_is (Z.of_nat k) (row_index p))
              (workbook_records wb)
    = Some (record_of (title ws) (word_column ws) (Z.of_nat k)
                      (List.nth k (iter_rows ws) [])).
Proof.
  unfold workbook_records.
  induction wb as [|ws0 rest IH]; intros ws k Hnd Hin Hk; [destruct Hin|].
  cbn [List.map List.concat]. rewrite find_app.
  cbn [List.map] in Hnd. inversion Hnd as [|x l Hnotin Hnd']; subst.
  destruct Hin as [->|Hin].
  - unfold sheet_records at 1.
    now rewrite (@find_position_records (title ws) (word_column ws) (Z.of_nat k)
                   (iter_rows ws) 0 k eq_refl Hk).
  - rewrite find_position_other.
    + now apply IH.
    + intros E. apply Hnotin. rewrite E. now apply in_map.
Qed.

Lemma text_or_null_or_empty c :
  or_empty (text_or_null c) = SqlText (match c with Some s => s | None => [] end).
Proof. destruct c as [[|x s]|]; reflexivity. Qed.

Lemma guarded_item row k :
  (if truthy_row row && (Py.len row >? Z.of_nat k)%Z then item row (Z.of_nat k) else None)
  = List.nth k row None.
Proof.
  unfold item. rewrite Nat2Z.id. unfold Py.len. rewrite Z.gtb_ltb.
  destruct (Z.of_nat k <? Z.of_nat (List.length row))%Z eqn:E.
  - apply Z.ltb_lt in E. destruct row; [cbn in E; lia | reflexivity].
  - apply Z.ltb_ge in E. rewrite andb_false_r. symmetry. apply nth_overflow. lia.
Qed.

Lemma row_obj_record ws idx row :
  row_obj (record_of (title ws) (word_column ws) idx row) = sheet_row_obj ws row.
Proof.
  unfold row_obj, record_of, sheet_row_obj, cell_text.
  cbn [word phonetic meaning]. rewrite !text_or_null_or_empty.
  change 2%Z with (Z.of_nat 2). change 3%Z with (Z.of_nat 3). rewrite !guarded_item.
  f_equal. destruct (display_word_of (word_column ws) row); reflexivity.
Qed.

(** *** The handlers on a table that serves *)

Lemma api_excel_row_serving env t w s i :
  serving t w -> sound_query env -> truthy s = true -> (0 <= i)%Z ->
  snd (api_excel_row env s i w)
  = (if (i <? 2 ^ 63)%Z
     then match List.find (fun p => text_is s (sheet p) && integer_is i (row_index p))
                          (List.map fields (table_rows t)) with
          | Some p => Ok (mkRowBody s i (row_obj p))
          | None => HTTPException 404 NotFound
          end
     else HTTPException 500 (DbError (Exn TOO_LARGE_FOR_SQLITE))) /\
  serving t (fst (api_excel_row env s i w)).
Proof.
  intros Hs Hq Ht Hi. unfold api_excel_row. rewrite (is_data_loaded_serving _ Hs), Ht.
  destruct (i <? 0)%Z eqn:E; [apply Z.ltb_lt in E; lia|]. cbn [negb orb].
  rewrite (@bind_int_cases i) by lia.
  match goal with
  | |- context [with_pool ?c ?b w] =>
      destruct (@with_pool_serving RowBody c b t w Hs) as (w' & E1 & Hs' & _)
  end.
  { rewrite (select_serving Hs Hq). destruct (i <? 2 ^ 63)%Z; [|discriminate].
    now destruct (List.filter _ _). }
  rewrite E1, (select_serving Hs Hq). cbn [fst snd]. split; [|exact Hs'].
  destruct (i <? 2 ^ 63)%Z; [|reflexivity].
  rewrite <- (first_match_fields
                (fun p => text_is s (sheet p) && integer_is i (row_index p))
                (table_rows t) (HTTPException 404 NotFound)
                (fun p => Ok (mkRowBody s i (row_obj p)))).
  now destruct (List.filter _ _).
Qed.

Lemma sheet_rows_within wb ws :
  List.In ws wb ->
  (List.length (iter_rows ws) <= List.length (workbook_records wb))%nat.
Proof.
  unfold workbook_records.
  induction wb as [|ws0 rest IH]; intros Hin; [destruct Hin|].
  cbn [List.map List.concat]. rewrite length_app. unfold sheet_records at 1.
  rewrite records_from_length. destruct Hin as [->|Hin]; [lia|].
  specialize (IH Hin). lia.
Qed.

(** The rank of a row of a workbook that a table in service stores fits
    in 64 bits. *)
Lemma stored_rank_fits wb t w ws k :
  serving t w -> stores wb t -> List.In ws wb ->
  (k < List.length (iter_rows ws))%nat ->
  (Z.of_nat k <? 2 ^ 63)%Z = true.
Proof.
  intros (_ & _ & Hsz & _) Hst Hin Hk. unfold stores in Hst.
  pose proof (@sheet_rows_within wb ws Hin) as Hle.
  rewrite <- Hst, length_map in Hle. unfold Py.len in Hsz.
  apply Z.ltb_lt. lia.
Qed.

Lemma api_lookup_serving env t w word :
  serving t w -> sound_query env -> track_returns env = true -> truthy word = true ->
  snd (api_lookup env word w)
  = match List.find (fun p => text_is (normalize_word (Some word)) (word_norm p))
                    (List.map fields (table_rows t)) with
    | Some p => Ok (mkLookupBody word (row_obj p))
    | None => HTTPException 404 NotFound
    end /\
  serving t (fst (api_lookup env word w)).
Proof.
  intros Hs Hq Htr Ht. unfold api_lookup. rewrite (is_data_loaded_serving _ Hs), Ht, Htr.
  cbn [negb]. cbv zeta.
  match goal with
  | |- context [with_pool ?c ?b w] =>
      destruct (@with_pool_serving LookupBody c b t w Hs) as (w' & E1 & Hs' & _)
  end.
  { rewrite (select_serving Hs Hq). now destruct (List.filter _ _). }
  rewrite E1, (select_serving Hs Hq). cbn [fst snd]. split; [|exact Hs'].
  rewrite <- (first_match_fields
                (fun p => text_is (normalize_word (Some word)) (word_norm p))
                (table_rows t) (HTTPException 404 NotFound)
                (fun p => Ok (mkLookupBody word (row_obj p)))).
  now destruct (List.filter _ _).
Qed.

Lemma api_excel_search_serving env t w word :
  serving t w -> sound_query env -> truthy word = true ->
  let norm := normalize_word (Some word) in
  snd (api_excel_search env word w)
  = match List.find (fun p => text_is norm (word_norm p))
                    (List.map fields (table_rows t)) with
    | Some p =>
        match match_of env p with
        | Returned m => Ok (mkSearchBody word norm 1 [m])
        | Raised exc => HTTPException 500 (DbError (Exn exc))
        | Hangs => Unanswered
        end
    | None => Ok (mkSearchBody word norm 0 [])
    end /\
  serving t (fst (api_excel_search env word w)).
Proof.
  intros Hs Hq Ht norm. unfold api_excel_search. rewrite (is_data_loaded_serving _ Hs), Ht.
  cbn [negb]. cbv zeta. fold norm.
  assert (Hm : forall p, match_of env p <> Hangs).
  { intros p. unfold match_of. destruct (row_index p); try discriminate.
    destruct (py_int env s); discriminate. }
  match goal with
  | |- context [with_pool ?c ?b w] =>
      destruct (@with_pool_serving SearchBody c b t w Hs) as (w' & E1 & Hs' & _)
  end.
  { rewrite (select_serving Hs Hq). destruct (List.filter _ _) as [|e l]; [discriminate|].
    specialize (Hm (fields e)). now destruct (match_of env (fields e)). }
  rewrite E1, (select_serving Hs Hq). cbn [fst snd]. split; [|exact Hs'].
  rewrite <- (first_match_fields
                (fun p => text_is norm (word_norm p))
                (table_rows t) (Ok (mkSearchBody word norm 0 []))
                (fun p => match match_of env p with
                          | Returned m => Ok (mkSearchBody word norm 1 [m])
                          | Raised exc => HTTPException 500 (DbError (Exn exc))
                          | Hangs => Unanswered
                          end)).
  destruct (List.filter _ _) as [|e l]; [reflexivity|].
  now destruct (match_of env (fields e)).
Qed.

(** *** What is loaded is what is served *)

(** Served from a table that holds the records of a workbook whose sheets
    have different titles, [api_excel_row] answers the title of a sheet
    and the rank of one of its rows with the word, the phonetic text and
    the meaning of that very row (the stripped word cell, the cells of
    rank 2 and 3, empty when missing).  For a rank beyond the rows of the
    sheet and for a title of no sheet it answers 404 when the rank fits in
    64 bits, and 500 when it is 2^63 or more: sqlite3 refuses to bind the
    integer. *)
Theorem excel_row_round_trip :
  forall env wb t w,
    serving t w ->
    sound_query env ->
    stores wb t ->
    List.NoDup (List.map title wb) ->
    (forall ws k,
        List.In ws wb -> truthy (title ws) = true ->
        (k < List.length (iter_rows ws))%nat ->
        snd (api_excel_row env (title ws) (Z.of_nat k) w)
        = Ok (mkRowBody (title ws) (Z.of_nat k)
                        (sheet_row_obj ws (List.nth k (iter_rows ws) [])))) /\
    (forall s i,
        truthy s = true -> (0 <= i)%Z ->
        (forall ws, List.In ws wb -> title ws = s -> (Py.len (iter_rows ws) <= i)%Z) ->
        snd (api_excel_row env s i w)
        = if (i <? 2 ^ 63)%Z then HTTPException 404 NotFound
          else HTTPException 500 (DbError (Exn TOO_LARGE_FOR_SQLITE))).
Proof.
  intros env wb t w Hs Hq Hst Hnd. split.
  - intros ws k Hin Ht Hk.
    destruct (@api_excel_row_serving env t w (title ws) (Z.of_nat k) Hs Hq Ht) as (E & _);
      [lia|].
    rewrite E, (@stored_rank_fits wb t w ws k Hs Hst Hin Hk). unfold stores in Hst.
    rewrite Hst, (@find_position_workbook wb ws k Hnd Hin Hk). now rewrite row_obj_record.
  - intros s i Ht Hi Hmiss. unfold stores in Hst.
    destruct (@api_excel_row_serving env t w s i Hs Hq Ht Hi) as (E & _).
    rewrite E, Hst. destruct (i <? 2 ^ 63)%Z; [|reflexivity].
    rewrite find_none_all; [reflexivity|].
    intros p Hp. apply workbook_records_in in Hp. destruct Hp as (ws & k & Hin & Hk & ->).
    rewrite position_of_record.
    destruct (str_eqb (title ws) s) eqn:E1; [|reflexivity]. apply str_eqb_eq in E1.
    specialize (Hmiss ws Hin E1). unfold Py.len in Hmiss. cbn [andb].
    apply Z.eqb_neq. lia.
Qed.

Lemma excel_row_round_trip_witness :
  let ws := mkWorksheet (of_string "Unit 1") (Some 2%Z) (Some 4%Z)
              [[Some (of_string "1"); Some (of_string " Apple "); None;
                Some (of_string "a fruit")];
               [Some (of_string "2"); Some (of_string "pear")]] in
  let wb := [ws] in
  let t := mkTable (List.map (fun p => mkEntry (Z.of_nat (fst p)) (snd p))
                             (List.combine (List.seq 1 2) (workbook_records wb))) [] in
  let p := fst (DbPool.initialize (DbPool.new_pool (of_string "paraphrase.sqlite") 2)) in
  let w := mkWorld true None (Some p) Loading.DEFAULT_STATE None [] (Some (Some t)) []
                   Attached in
  let env := mkReqEnv (mkCheckEnv None None) (mkCheckEnv None None) (fun _ => None) true in
  snd (api_excel_row env (of_string "Unit 1") 0 w)
  = Ok (mkRowBody (of_string "Unit 1") 0
                  (mkRowObj (SqlText (of_string "Apple")) (SqlText [])
                            (SqlText (of_string "a fruit")))) /\
  snd (api_excel_row env (of_string "Unit 1") 2 w) = HTTPException 404 NotFound.
Proof.
  intros ws wb t p w env.
  assert (Hs : serving t w).
  { split; [reflexivity|]. split; [reflexivity|]. split; [reflexivity|]. exists p.
    split; [reflexivity|]. split; [intros _; vm_compute; discriminate | discriminate]. }
  assert (Hnd : List.NoDup (List.map title wb)).
  { constructor; [intros H; exact H | constructor]. }
  destruct (@excel_row_round_trip env wb t w Hs eq_refl eq_refl Hnd) as (H1 & H2).
  split.
  - apply (H1 ws 0%nat); [left; reflexivity | reflexivity | cbn; lia].
  - apply (H2 (of_string "Unit 1") 2%Z); [reflexivity | lia |].
    intros ws0 [<-|[]] _. vm_compute. discriminate.
Defined.

Lemma norm_of_record norm sheet_title col idx row :
  text_is norm (word_norm (record_of sheet_title col idx row))
  = str_eqb (normalize_word (Some (display_word_of col row))) norm.
Proof. reflexivity. Qed.

(** Served from a table that holds the records of a workbook,
    [api_lookup] compares words after normalization: when some row of the
    workbook has a word that normalizes like the word asked for, the
    answer (once the access is recorded) is the word as asked and the row
    object of such a row: case, punctuation and surrounding blanks do not
    matter.  When no row does, the answer is 404. *)
Theorem lookup_finds_normalized :
  forall env wb t w word,
    serving t w ->
    sound_query env ->
    track_returns env = true ->
    stores wb t ->
    truthy word = true ->
    let norm := normalize_word (Some word) in
    let shown ws k :=
      display_word_of (word_column ws) (List.nth k (iter_rows ws) []) in
    ((exists ws k,
         List.In ws wb /\ (k < List.length (iter_rows ws))%nat /\
         normalize_word (Some (shown ws k)) = norm) ->
     exists ws k,
       List.In ws wb /\ (k < List.length (iter_rows ws))%nat /\
       normalize_word (Some (shown ws k)) = norm /\
       snd (api_lookup env word w)
       = Ok (mkLookupBody word (sheet_row_obj ws (List.nth k (iter_rows ws) [])))) /\
    ((forall ws k,
         List.In ws wb -> (k < List.length (iter_rows ws))%nat ->
         normalize_word (Some (shown ws k)) <> norm) ->
     snd (api_lookup env word w) = HTTPException 404 NotFound).
Proof.
  intros env wb t w word Hs Hq Htr Hst Ht norm shown. unfold stores in Hst.
  destruct (@api_lookup_serving env t w word Hs Hq Htr Ht) as (E & _). fold norm in E.
  rewrite Hst in E. rewrite E. clear E.
  destruct (List.find (fun p => text_is norm (word_norm p)) (workbook_records wb))
    as [p|] eqn:F.
  - apply find_some in F. destruct F as [Hin Hc].
    apply workbook_records_in in Hin. destruct Hin as (ws & k & Hin & Hk & ->).
    rewrite norm_of_record in Hc. apply str_eqb_eq in Hc. split.
    + intros _. exists ws, k. repeat split; try assumption. now rewrite row_obj_record.
    + intros Hno. exfalso. exact (Hno ws k Hin Hk Hc).
  - split; [|reflexivity]. intros (ws & k & Hin & Hk & Hn). exfalso.
    pose proof (find_none _ _ F _ (@workbook_records_nth wb ws k Hin Hk)) as Hc.
    cbv beta in Hc. rewrite norm_of_record in Hc. fold (shown ws k) in Hc.
    rewrite Hn, str_eqb_refl in Hc. discriminate.
Qed.

Lemma lookup_finds_normalized_witness :
  let ws := mkWorksheet (of_string "Unit 1") (Some 2%Z) (Some 4%Z)
              [[Some (of_string "1"); Some (of_string "Don't stop"); None;
                Some (of_string "go on")]] in
  let wb := [ws] in
  let t := mkTable (List.map (fun p => mkEntry (Z.of_nat (fst p)) (snd p))
                             (List.combine (List.seq 1 1) (workbook_records wb))) [] in
  let p := fst (DbPool.initialize (DbPool.new_pool (of_string "paraphrase.sqlite") 2)) in
  let w := mkWorld true None (Some p) Loading.DEFAULT_STATE None [] (Some (Some t)) []
                   Attached in
  let env := mkReqEnv (mkCheckEnv None None) (mkCheckEnv None None) (fun _ => None) true in
  snd (api_lookup env (of_string "cat") w) = HTTPException 404 NotFound.
Proof.
  intros ws wb t p w env.
  assert (Hs : serving t w).
  { split; [reflexivity|]. split; [reflexivity|]. split; [reflexivity|]. exists p.
    split; [reflexivity|]. split; [intros _; vm_compute; discriminate | discriminate]. }
  destruct (@lookup_finds_normalized env wb t w (of_string "cat") Hs eq_refl eq_refl
              eq_refl eq_refl) as (_ & H).
  apply H. intros ws0 k [<-|[]] Hk.
  destruct k as [|k]; [vm_compute; discriminate | cbn in Hk; lia].
Defined.

(** Three requests in a row on a table that holds the records of a
    workbook (sheets with different, non-empty titles): either
    [api_excel_search] finds no match and [api_lookup] answers 404, or the
    search gives exactly one match, a text and a rank, [api_lookup]
    answers a row object, and [api_excel_row] at the position the search
    gave answers the same row object. *)
Theorem search_locates_lookup :
  forall env wb t w word,
    serving t w ->
    sound_query env ->
    track_returns env = true ->
    stores wb t ->
    List.NoDup (List.map title wb) ->
    (forall ws, List.In ws wb -> truthy (title ws) = true) ->
    truthy word = true ->
    let norm := normalize_word (Some word) in
    let r1 := api_excel_search env word w in
    let r2 := api_lookup env word (fst r1) in
    (snd r1 = Ok (mkSearchBody word norm 0 []) /\
     snd r2 = HTTPException 404 NotFound) \/
    (exists s i o,
        snd r1 = Ok (mkSearchBody word norm 1 [mkMatch (SqlText s) i]) /\
        snd r2 = Ok (mkLookupBody word o) /\
        snd (api_excel_row env s i (fst r2)) = Ok (mkRowBody s i o)).
Proof.
  intros env wb t w word Hs Hq Htr Hst Hnd Htitles Ht norm r1 r2. subst r1 r2.
  unfold stores in Hst.
  destruct (@api_excel_search_serving env t w word Hs Hq Ht) as (E1 & Hs1).
  fold norm in E1.
  destruct (@api_lookup_serving env t (fst (api_excel_search env word w)) word Hs1 Hq Htr Ht)
    as (E2 & Hs2).
  fold norm in E2. rewrite Hst in E1, E2. rewrite E1, E2.
  destruct (List.find (fun p => text_is norm (word_norm p)) (workbook_records wb))
    as [p|] eqn:F; [right | left; split; reflexivity].
  apply find_some in F. destruct F as [Hin _].
  apply workbook_records_in in Hin. destruct Hin as (ws & k & Hin & Hk & ->).
  exists (title ws), (Z.of_nat k),
    (row_obj (record_of (title ws) (word_column ws) (Z.of_nat k)
                        (List.nth k (iter_rows ws) []))).
  split; [reflexivity|]. split; [reflexivity|].
  destruct (@api_excel_row_serving env t (fst (api_lookup env word
                                                 (fst (api_excel_search env word w))))
              (title ws) (Z.of_nat k) Hs2 Hq (Htitles ws Hin)) as (E3 & _); [lia|].
  rewrite E3, (@stored_rank_fits wb t _ ws k Hs2 Hst Hin Hk), Hst,
    (@find_position_workbook wb ws k Hnd Hin Hk). reflexivity.
Qed.

Lemma search_locates_lookup_witness :
  let ws := mkWorksheet (of_string "Unit 1") (Some 2%Z) (Some 4%Z)
              [[Some (of_string "1"); Some (of_string "Don't stop"); None;
                Some (of_string "go on")]] in
  let wb := [ws] in
  let t := mkTable (List.map (fun p => mkEntry (Z.of_nat (fst p)) (snd p))
                             (List.combine (List.seq 1 1) (workbook_records wb))) [] in
  let p := fst (DbPool.initialize (DbPool.new_pool (of_string "paraphrase.sqlite") 2)) in
  let w := mkWorld true None (Some p) Loading.DEFAULT_STATE None [] (Some (Some t)) []
                   Attached in
  let env := mkReqEnv (mkCheckEnv None None) (mkCheckEnv None None) (fun _ => None) true in
  let r1 := api_excel_search env (of_string "DON'T  STOP!") w in
  let r2 := api_lookup env (of_string "DON'T  STOP!") (fst r1) in
  (snd r1 = Ok (mkSearchBody (of_string "DON'T  STOP!") (of_string "don't stop") 0 []) /\
   snd r2 = HTTPException 404 NotFound) \/
  (exists s i o,
      snd r1 = Ok (mkSearchBody (of_string "DON'T  STOP!") (of_string "don't stop") 1
                                [mkMatch (SqlText s) i]) /\
      snd r2 = Ok (mkLookupBody (of_string "DON'T  STOP!") o) /\
      snd (api_excel_row env s i (fst r2)) = Ok (mkRowBody s i o)).
Proof.
  intros ws wb t p w env.
  assert (Hs : serving t w).
  { split; [reflexivity|]. split; [reflexivity|]. split; [reflexivity|]. exists p.
    split; [reflexivity|]. split; [intros _; vm_compute; discriminate | discriminate]. }
  assert (Hnd : List.NoDup (List.map title wb)).
  { constructor; [intros H; exact H | constructor]. }
  assert (Htitles : forall ws0, List.In ws0 wb -> truthy (title ws0) = true).
  { intros ws0 [<-|[]]. reflexivity. }
  exact (@search_locates_lookup env wb t w (of_string "DON'T  STOP!") Hs eq_refl eq_refl
           eq_refl Hnd Htitles eq_refl).
Defined.

End Lookup.

(** ** The service as a whole *)

Section Service.
Import Database Invariants Routers.

(** *** Requests the service cannot serve *)



Lemma with_pool_missing {A} cenv (body : World -> outcome (Reply A)) w :
  app_db_pool w = None ->
  with_pool cenv body w = (w, HTTPException 500 (DbError AttributeError)).
Proof. intros H. unfold with_pool. now rewrite H. Qed.

Lemma with_pool_exhausted {A} cenv (body : World -> outcome (Reply A)) w p :
  app_db_pool w = Some p ->
  DbPool.queue p = [] ->
  arrival cenv = None ->
  with_pool cenv body w = (w, HTTPException 500 (DbError (Exn PoolError))).
Proof.
  intros Hp Hq Ha. unfold with_pool. rewrite Hp.
  unfold DbPool.get_db, DbPool.get_connection, DbPool.queue_get.
  change (Qle_bool 0 DbPool.DEFAULT_TIMEOUT) with true. cbv iota. rewrite Hq, Ha.
  cbn. f_equal. destruct w as [a b c d e f g h]. cbn in Hp. subst c.
  unfold set_db_pool, DbPool.set_queue. cbn. rewrite <- Hq. now destruct p.
Qed.

(** With [data_loaded] set, a request that passes its validation is
    answered 500 "db error: ..." when the service has no pool yet
    ([app_state.db_pool] is [None], as between the end of the first load
    and the creation of the pool), and also when the pool has no
    connection to lend and none comes back within the timeout; the state
    is left as it was. *)
Theorem unavailable_pool_is_500 :
  forall env w word sheet_name row_idx start end_,
    app_data_loaded w = true ->
    truthy word = true ->
    truthy sheet_name = true -> (0 <= row_idx)%Z ->
    (1 <= start <= end_)%Z -> (end_ - start <= 1000)%Z ->
    forall exc,
      (app_db_pool w = None /\ exc = AttributeError) \/
      (exists p, app_db_pool w = Some p /\ DbPool.queue p = [] /\
                 arrival (at_query env) = None /\ exc = Exn PoolError) ->
      api_lookup env word w = (w, HTTPException 500 (DbError exc)) /\
      api_excel_search env word w = (w, HTTPException 500 (DbError exc)) /\
      api_excel_row env sheet_name row_idx w = (w, HTTPException 500 (DbError exc)) /\
      api_wordbook_batches env w = (w, HTTPException 500 (DbError exc)) /\
      api_wordbook_range env start end_ w = (w, HTTPException 500 (DbError exc)).
Proof.
  intros env w word sheet_name row_idx start end_ Hl Hw Hsn Hri Hr Hwd exc Hcase.
  assert (Hready : is_data_loaded (at_check env) w = (w, Returned true)).
  { unfold is_data_loaded. now rewrite Hl. }
  assert (Hpool : forall A (body : World -> outcome (Reply A)),
             with_pool (at_query env) body w = (w, HTTPException 500 (DbError exc))).
  { intros A body. destruct Hcase as [(Hp & ->) | (p & Hp & Hq & Ha & ->)].
    - now apply with_pool_missing.
    - now apply (@with_pool_exhausted A (at_query env) body w p). }
  unfold api_lookup, api_excel_search, api_excel_row, api_wordbook_batches,
    api_wordbook_range.
  rewrite Hready, Hw, Hsn. cbn [negb orb]. cbv zeta.
  destruct (row_idx <? 0)%Z eqn:E0; [apply Z.ltb_lt in E0; lia|].
  destruct (start <=? 0)%Z eqn:E1; [apply Z.leb_le in E1; lia|].
  destruct (end_ <? start)%Z eqn:E2; [apply Z.ltb_lt in E2; lia|].
  destruct (end_ - start >? 1000)%Z eqn:E3; [lia|]. cbn [orb].
  rewrite !Hpool. repeat split.
Qed.

Lemma unavailable_pool_is_500_witness :
  let w := mkWorld true None None Loading.DEFAULT_STATE None [] (Some (Some (mkTable [] [])))
                   [] Attached in
  let env := mkReqEnv (mkCheckEnv None None) (mkCheckEnv None None) (fun _ => None) true in
  api_wordbook_batches env w = (w, HTTPException 500 (DbError AttributeError)).
Proof.
  intros w env.
  assert (Hr : (1 <= 1 <= 100)%Z) by lia.
  assert (Hd : (100 - 1 <= 1000)%Z) by lia.
  assert (Hi : (0 <= 0)%Z) by lia.
  destruct (@unavailable_pool_is_500 env w (of_string "cat") (of_string "A") 0%Z 1%Z 100%Z
              eq_refl eq_refl eq_refl Hi Hr Hd AttributeError
              (or_introl (conj eq_refl eq_refl))) as (_ & _ & _ & H & _).
  exact H.
Defined.

(** *** Loading through the handlers *)

Lemma existsb_slash_app a b :
  List.existsb (N.eqb 47) (a ++ b) = List.existsb (N.eqb 47) a || List.existsb (N.eqb 47) b.
Proof. apply existsb_app. Qed.




(** [api_excel_load] looks at the progress store twice: in the handler,
    and again in [start_loading], after whatever the other threads did in
    between.  It answers 400 when the stripped name is empty or is not a
    listed file and 409 when the store is running at the first look, both
    without touching the state.  Otherwise the answer follows the second
    look.  When the store is still idle the answer is {"started": true}:
    the loader thread of the file [BASE_DIR/name] is started and recorded,
    [data_loaded] is cleared and so is [current_excel_file].  When a loader
    thread that was started earlier has begun in between, the store is
    running, nothing is started and the answer is {"started": false}.
    With no thread acting in between the answer is never false. *)
Theorem api_excel_load_outcome :
  (forall fs others file w,
      let name := strip file in
      let path := path_join (base_dir fs) name in
      let w0 := others w in
      let r := api_excel_load_among fs others file w in
      match snd r with
      | Ok started =>
          name <> [] /\ List.In name (excel_names fs) /\
          Loading.running (loading_state w) = false /\
          started = negb (Loading.running (loading_state w0)) /\
          if started then
            loading_thread (fst r) = Some (mkThread path) /\
            started_threads (fst r) = started_threads w0 ++ [mkThread path] /\
            app_data_loaded (fst r) = false /\
            app_current_excel_file (fst r) = None /\
            loading_state (fst r) = loading_state w0 /\
            db_file (fst r) = db_file w0
          else fst r = logger WarnAlreadyRunning w0
      | HTTPException code detail =>
          fst r = w /\
          ((code = 400%Z /\ detail = InvalidFile /\
            (name = [] \/ ~ List.In name (excel_names fs))) \/
           (code = 409%Z /\ detail = LoadingInProgress /\
            Loading.running (loading_state w) = true))
      | _ => False
      end) /\
  (forall fs file w, snd (api_excel_load fs file w) <> Ok false) /\
  (forall fs file w now file_name total_rows,
      strip file <> [] ->
      List.In (strip file) (excel_names fs) ->
      Loading.running (loading_state w) = false ->
      let begins w :=
        set_loading_state
          (Loading.reset_for_file now file_name total_rows (loading_state w)) w in
      snd (api_excel_load_among fs begins file w) = Ok false).
Proof.
  assert (Hall : forall fs others file w,
             let name := strip file in
             let path := path_join (base_dir fs) name in
             let w0 := others w in
             let r := api_excel_load_among fs others file w in
             match snd r with
             | Ok started =>
                 name <> [] /\ List.In name (excel_names fs) /\
                 Loading.running (loading_state w) = false /\
                 started = negb (Loading.running (loading_state w0)) /\
                 if started then
                   loading_thread (fst r) = Some (mkThread path) /\
                   started_threads (fst r) = started_threads w0 ++ [mkThread path] /\
                   app_data_loaded (fst r) = false /\
                   app_current_excel_file (fst r) = None /\
                   loading_state (fst r) = loading_state w0 /\
                   db_file (fst r) = db_file w0
                 else fst r = logger WarnAlreadyRunning w0
             | HTTPException code detail =>
                 fst r = w /\
                 ((code = 400%Z /\ detail = InvalidFile /\
                   (name = [] \/ ~ List.In name (excel_names fs))) \/
                  (code = 409%Z /\ detail = LoadingInProgress /\
                   Loading.running (loading_state w) = true))
             | _ => False
             end).
  { intros fs others file w name path w0 r. subst r path w0.
    unfold api_excel_load_among. fold name.
    destruct name as [|c nm] eqn:En.
    - cbn. split; [reflexivity|]. left. repeat split. now left.
    - cbn [truthy negb orb].
      destruct (List.existsb (str_eqb (c :: nm)) (excel_names fs)) eqn:Ex; cbn [negb].
      + apply existsb_exists in Ex. destruct Ex as (x & Hx & Heq).
        apply str_eqb_eq in Heq. subst x.
        unfold Loading.snapshot.
        destruct (Loading.running (loading_state w)) eqn:Hr.
        * cbn. split; [reflexivity|]. right. repeat split.
        * unfold start_loading, Loading.snapshot.
          destruct (Loading.running (loading_state (others w))) eqn:Hr2; cbn.
          -- repeat split; try assumption. discriminate.
          -- repeat split; try assumption. discriminate.
      + cbn. split; [reflexivity|]. left. repeat split. right. intros Hin.
        assert (List.existsb (str_eqb (c :: nm)) (excel_names fs) = true).
        { apply existsb_exists. exists (c :: nm). split; [exact Hin | apply str_eqb_refl]. }
        congruence. }
  split; [exact Hall|]. split.
  - intros fs file w E. pose proof (Hall fs (fun w0 => w0) file w) as H.
    cbv zeta in H. change (api_excel_load_among fs (fun w0 => w0) file w)
      with (api_excel_load fs file w) in H.
    rewrite E in H. destruct H as (_ & _ & Hr & Hs & _). rewrite Hr in Hs. discriminate.
  - intros fs file w now file_name total_rows Hne Hin Hrun begins.
    pose proof (Hall fs begins file w) as H. cbv zeta in H.
    destruct (snd (api_excel_load_among fs begins file w)) as [started|code detail|e|].
    + destruct H as (_ & _ & _ & Hs & _). rewrite Hs. reflexivity.
    + destruct H as (_ & [(_ & _ & [H|H]) | (_ & _ & H)]); congruence.
    + destruct H.
    + destruct H.
Qed.

Lemma api_excel_load_outcome_witness :
  let fs := mkFiles (of_string "/srv/app") [of_string "b.xlsx"] in
  let p := fst (DbPool.initialize (DbPool.new_pool (of_string "paraphrase.sqlite") 2)) in
  let w := fst (start_loading (of_string "/srv/app/a.xlsx")
                  (mkWorld true None (Some p) Loading.DEFAULT_STATE None [] (Some None) []
                           Attached)) in
  let begins w :=
    set_loading_state
      (Loading.reset_for_file (of_string "2024-01-01T00:00:00") (of_string "a.xlsx") 1
                              (loading_state w)) w in
  snd (api_excel_load fs (of_string "b.xlsx") w) = Ok true /\
  snd (api_excel_load_among fs begins (of_string "b.xlsx") w) = Ok false.
Proof.
  intros fs p w begins. split; [reflexivity|].
  assert (Hne : strip (of_string "b.xlsx") <> []) by (vm_compute; discriminate).
  assert (Hin : List.In (strip (of_string "b.xlsx")) (excel_names fs))
    by (left; vm_compute; reflexivity).
  exact (proj2 (proj2 api_excel_load_outcome) fs (of_string "b.xlsx") w
           (of_string "2024-01-01T00:00:00") (of_string "a.xlsx") 1%Z Hne Hin eq_refl).
Defined.



(** On a service whose pool has the file at the path open (no unload
    since the pool was made), a cancelled load leaves an empty table
    [entries] in that file and [data_loaded] cleared; the next readiness
    check that completes finds that table through the pool and sets
    [data_loaded] again.  So after a cancelled load [api_excel_status]
    reports [loaded] true together with the error "loading cancelled", and
    from then on the word book is served as an empty one: no batch,
    total 0. *)
Theorem cancelled_load_reported_loaded :
  forall env path wb w renv,
    cancel_observed env 0 (workbook_polls wb) = true ->
    (forall p, app_db_pool w = Some p -> pool_bounded p /\ DbPool.queue p <> []) ->
    app_db_pool w <> None ->
    pool_file w = Attached ->
    db_file w <> None ->
    select_fault (at_check renv) = None ->
    sound_query renv ->
    let w1 := loader_worker env path wb w in
    let r2 := api_excel_status renv w1 in
    let r3 := api_wordbook_batches renv (fst r2) in
    app_data_loaded w1 = false /\
    (exists st,
        snd r2 = Ok (mkStatus st true (app_current_excel_file w)) /\
        Loading.running st = false /\
        Loading.error st = Some (of_string "loading cancelled")) /\
    snd r3 = Ok (mkBatchList 0 100 []).
Proof.
  intros env path wb w renv Hobs Hpool Hsome Hatt _ Hfault Hq w1 r2 r3.
  destruct (@loader_worker_cases env path wb w w1 eq_refl)
    as (Hr & _ & _ & _ & _ & _ & Hp & _ & Hc).
  destruct Hc as [(Hobs' & _) | (_ & He & Hd & Hcf & _ & Hdb)]; [congruence|].
  split; [exact Hd|].
  destruct (app_db_pool w) as [p|] eqn:Epool; [|congruence].
  destruct (Hpool p eq_refl) as (Hb & Hne).
  assert (Hpf : pool_file w1 = Attached).
  { unfold w1. now rewrite loader_worker_pool_file. }
  assert (Hpdb : pooled_db w1 = Some (mkTable [] [])).
  { unfold pooled_db, path_db. now rewrite Hpf, Hdb. }
  assert (Hpools : forall p0, app_db_pool w1 = Some p0 -> pool_bounded p0).
  { intros p0 E0. rewrite Hp in E0. injection E0 as <-. exact Hb. }
  destruct (@is_data_loaded_value (at_check renv) w1 Hd Hpools) as (V1 & V2 & V3 & V4).
  assert (Hchk : check_completes (at_check renv) w1 = true).
  { unfold check_completes. rewrite Hfault, Hp. unfold connection_available.
    destruct (DbPool.queue p); [congruence | reflexivity]. }
  assert (Hfe : file_exists w1 = true) by (unfold file_exists; now rewrite Hdb).
  assert (Hcd : checked_db w1 = Some (mkTable [] [])).
  { unfold checked_db. now rewrite Hp. }
  rewrite Hfe, Hcd, Hchk in V1, V2. cbn in V1, V2.
  assert (Hserv : serving (mkTable [] []) (fst (is_data_loaded (at_check renv) w1))).
  { split; [exact V2|].
    split; [unfold pooled_db, path_db; now rewrite V4, Hpf, V3, Hdb|].
    split; [reflexivity|].
    unfold is_data_loaded. rewrite Hd. cbn [negb]. rewrite Hdb, Hp.
    pose proof (@get_db_lends World bool (arrival (at_check renv))
                  (fun _ w0 => select_entries (at_check renv) (pooled_db w0) w0)
                  p w1 Hb Hne) as L.
    destruct L as (p' & E' & Hb' & Hne' & _).
    { unfold select_entries. rewrite Hfault. discriminate. }
    rewrite E'. unfold select_entries. rewrite Hfault, Hpdb. cbn.
    exists p'. repeat split; assumption. }
  assert (E2 : r2 = (fst (is_data_loaded (at_check renv) w1),
                     Ok (mkStatus (loading_state w1) true (app_current_excel_file w)))).
  { subst r2. unfold api_excel_status.
    destruct (is_data_loaded (at_check renv) w1) as [w1' o] eqn:Ei.
    cbn [fst snd] in *. subst o. unfold Loading.snapshot. f_equal. f_equal.
    pose proof (is_data_loaded_frame (at_check renv) w1) as Hframe.
    rewrite Ei in Hframe. cbn [fst] in Hframe.
    destruct Hframe as (F1 & F2 & _). now rewrite F1, F2, Hcf. }
  split.
  - exists (loading_state w1). rewrite E2. cbn [snd]. repeat split; assumption.
  - subst r3. rewrite E2. cbn [fst].
    destruct (@api_wordbook_batches_serving renv (mkTable [] [])
                (fst (is_data_loaded (at_check renv) w1)) Hserv Hq) as (E3 & _).
    exact E3.
Qed.

Lemma cancelled_load_reported_loaded_witness :
  let env := mkEnv (fun _ => of_string "2024-01-01T00:00:00") (fun k => Nat.eqb k 1) in
  let wb := [mkWorksheet (of_string "A") (Some 2%Z) (Some 1%Z)
               [[Some (of_string "apple")]; [Some (of_string "pear")]]] in
  let p := fst (DbPool.initialize (DbPool.new_pool (of_string "paraphrase.sqlite") 2)) in
  let w := mkWorld false None (Some p) Loading.DEFAULT_STATE None [] (Some None) []
                   Attached in
  let renv := mkReqEnv (mkCheckEnv None None) (mkCheckEnv None None) (fun _ => None) true in
  let w1 := loader_worker env (of_string "words.xlsx") wb w in
  app_data_loaded w1 = false /\
  option_map status_loaded (delivered (snd (api_excel_status renv w1))) = Some true.
Proof.
  intros env wb p w renv w1.
  assert (Hpool : forall p0, app_db_pool w = Some p0 ->
                             pool_bounded p0 /\ DbPool.queue p0 <> []).
  { intros p0 E. injection E as <-.
    split; [intros _; vm_compute; discriminate | discriminate]. }
  assert (Hsome : app_db_pool w <> None) by discriminate.
  assert (Hfile : db_file w <> None) by discriminate.
  destruct (@cancelled_load_reported_loaded env (of_string "words.xlsx") wb w renv
              eq_refl Hpool Hsome eq_refl Hfile eq_refl eq_refl) as (H1 & (st & H2 & _) & _).
  split; [exact H1|].
  change (api_excel_status renv w1)
    with (api_excel_status renv (loader_worker env (of_string "words.xlsx") wb w)).
  rewrite H2. reflexivity.
Defined.



(** After [api_excel_unload] the connections of the pool keep the file
    that was removed.  A load that follows and is not cancelled writes the
    new workbook to a new file at the path and sets [data_loaded]; the
    handlers, which read through the pool, go on answering from the table
    that was unloaded: [api_wordbook_batches] reports the number of rows of
    that table, whatever the new workbook holds. *)
Theorem reload_after_unload_serves_old :
  forall env path wb t w renv,
    serving t w ->
    pool_file w = Attached ->
    cancel_observed env 0 (workbook_polls wb) = false ->
    sound_query renv ->
    let w1 := fst (api_excel_unload w) in
    let w2 := loader_worker env path wb (fst (start_loading path w1)) in
    let n := Py.len (table_rows t) in
    db_file w1 = None /\
    (exists t', db_file w2 = Some (Some t') /\ stores wb t') /\
    serving t w2 /\
    snd (api_wordbook_batches renv w2)
    = Ok (mkBatchList n 100
            (List.map (batch_at n) (List.seq 0 (Z.to_nat ((n + 99) / 100))))).
Proof.
  intros env path wb t w renv Hs Hatt Hobs Hq w1 w2 n.
  destruct Hs as (Hl & Hf & Hsz & p & Hp & Hb & Hne).
  assert (Hdb : db_file w = Some (Some t)).
  { unfold pooled_db, path_db in Hf. rewrite Hatt in Hf.
    destruct (db_file w) as [db|]; [now rewrite Hf | discriminate]. }
  assert (H1 : db_file w1 = None /\ pool_file w1 = Detached (Some t) /\
               app_db_pool w1 = Some p).
  { unfold w1, api_excel_unload, unload_data. cbn [fst].
    change (db_file (set_current_excel_file None (set_data_loaded false w)))
      with (db_file w).
    rewrite Hdb. unfold detach.
    change (pool_file (set_current_excel_file None (set_data_loaded false w)))
      with (pool_file w).
    rewrite Hatt. cbn. repeat split. exact Hp. }
  destruct H1 as (H1a & H1b & H1c).
  destruct (start_loading_pool path w1) as (S1 & S2).
  destruct (@loader_worker_cases env path wb (fst (start_loading path w1)) w2 eq_refl)
    as (_ & _ & _ & _ & _ & _ & Hp2 & _ & Hc).
  destruct Hc as [(_ & _ & Hd & _ & _ & rows & Hdb2 & Hr & _) | (Hobs' & _)];
    [|congruence].
  assert (Hpf : pool_file w2 = Detached (Some t)).
  { unfold w2. now rewrite loader_worker_pool_file, S2. }
  assert (Hs2 : serving t w2).
  { split; [exact Hd|]. split; [unfold pooled_db; now rewrite Hpf|].
    split; [exact Hsz|]. exists p.
    split; [now rewrite Hp2, S1|]. split; assumption. }
  split; [exact H1a|]. split; [eexists; split; [exact Hdb2 | exact Hr]|].
  split; [exact Hs2|].
  exact (proj1 (@api_wordbook_batches_serving renv t w2 Hs2 Hq)).
Qed.

Lemma reload_after_unload_serves_old_witness :
  let env := mkEnv (fun _ => of_string "2024-01-01T00:00:00") (fun _ => false) in
  let t := mkTable [mkEntry 1 (mkParams (SqlText (of_string "apple"))
                                        (SqlText (of_string "apple")) SqlNull SqlNull
                                        (SqlText (of_string "A")) (SqlInteger 0))] [] in
  let wb := [mkWorksheet (of_string "B") (Some 2%Z) (Some 2%Z)
               [[Some (of_string "1"); Some (of_string "pear")];
                [Some (of_string "2"); Some (of_string "plum")]]] in
  let p := fst (DbPool.initialize (DbPool.new_pool (of_string "paraphrase.sqlite") 2)) in
  let w := mkWorld true None (Some p) Loading.DEFAULT_STATE None [] (Some (Some t)) []
                   Attached in
  let renv := mkReqEnv (mkCheckEnv None None) (mkCheckEnv None None) (fun _ => None) true in
  let w2 := loader_worker env (of_string "b.xlsx") wb
              (fst (start_loading (of_string "b.xlsx") (fst (api_excel_unload w)))) in
  workbook_rows wb = 2%Z /\
  option_map batches_total (delivered (snd (api_wordbook_batches renv w2))) = Some 1%Z.
Proof.
  intros env t wb p w renv w2. split; [reflexivity|].
  assert (Hs : serving t w).
  { split; [reflexivity|]. split; [reflexivity|]. split; [reflexivity|]. exists p.
    split; [reflexivity|]. split; [intros _; vm_compute; discriminate | discriminate]. }
  destruct (@reload_after_unload_serves_old env (of_string "b.xlsx") wb t w renv
              Hs eq_refl eq_refl eq_refl) as (_ & _ & _ & E).
  change (api_wordbook_batches renv w2)
    with (api_wordbook_batches renv
            (loader_worker env (of_string "b.xlsx") wb
               (fst (start_loading (of_string "b.xlsx") (fst (api_excel_unload w)))))).
  rewrite E. reflexivity.
Defined.

(** *** Sequences of requests *)

Lemma serve_serving env t w req :
  serving t w -> sound_query env -> track_returns env = true ->
  snd (serve env req w) = true /\
  serving t (fst (serve env req w)) /\
  lendable (fst (serve env req w)) = lendable w /\
  loading_state (fst (serve env req w)) = loading_state w.
Proof.
  intros Hs Hq Htr.
  assert (Hsame : forall A (r : Reply A),
             answered r = true ->
             answered r = true /\ serving t w /\ lendable w = lendable w /\
             loading_state w = loading_state w)
    by (intros A r Hr; split; [exact Hr|]; split; [exact Hs|]; split; reflexivity).
  assert (Hpool : forall A (body : World -> outcome (Reply A)),
             (exists r, body w = Returned r /\ answered r = true) \/
             (exists e, body w = Raised e) ->
             let r := with_pool (at_query env) body w in
             answered (snd r) = true /\ serving t (fst r) /\
             lendable (fst r) = lendable w /\ loading_state (fst r) = loading_state w).
  { intros A body Hbody r. subst r.
    destruct (@with_pool_serving A (at_query env) body t w Hs)
      as (w' & E & Hs' & Hst & _ & _ & Hlen).
    { destruct Hbody as [(r & -> & _) | (e & ->)]; discriminate. }
    rewrite E. cbn [fst snd].
    split; [|split; [exact Hs' | split; [exact Hlen | exact Hst]]].
    destruct Hbody as [(r & -> & Hr) | (e & ->)]; [exact Hr | reflexivity]. }
  assert (Hsel : select_from_entries (at_query env) w = Returned t)
    by exact (select_serving Hs Hq).
  destruct req as [word|word|sheet_name row_idx| |start end_|]; unfold serve.
  - unfold api_lookup. rewrite (is_data_loaded_serving _ Hs).
    destruct (truthy word); cbn [negb]; [|now apply Hsame].
    cbv zeta.
    match goal with
    | |- context [with_pool ?c ?b w] => pose proof (Hpool LookupBody b) as H
    end.
    cbv zeta in H.
    destruct (with_pool _ _ w) as [w' r]. cbn [fst snd] in *. apply H.
    rewrite Hsel, Htr. left. destruct (List.filter _ _); eexists; split; reflexivity.
  - unfold api_excel_search. rewrite (is_data_loaded_serving _ Hs).
    destruct (truthy word); cbn [negb]; [|now apply Hsame].
    cbv zeta.
    match goal with
    | |- context [with_pool ?c ?b w] => pose proof (Hpool SearchBody b) as H
    end.
    cbv zeta in H.
    destruct (with_pool _ _ w) as [w' r]. cbn [fst snd] in *. apply H.
    rewrite Hsel. destruct (List.filter _ _) as [|e l];
      [left; eexists; split; reflexivity|].
    unfold match_of. destruct (row_index (fields e));
      try (left; eexists; split; reflexivity).
    destruct (py_int env s); [left | right]; eexists; try split; reflexivity.
  - unfold api_excel_row. rewrite (is_data_loaded_serving _ Hs).
    destruct (negb (truthy sheet_name) || (row_idx <? 0)%Z); [now apply Hsame|].
    match goal with
    | |- context [with_pool ?c ?b w] => pose proof (Hpool RowBody b) as H
    end.
    cbv zeta in H.
    destruct (with_pool _ _ w) as [w' r]. cbn [fst snd] in *. apply H.
    rewrite Hsel. unfold bind_int.
    destruct ((- 2 ^ 63 <=? row_idx)%Z && (row_idx <? 2 ^ 63)%Z);
      [|right; eexists; reflexivity].
    left. destruct (List.filter _ _); eexists; split; reflexivity.
  - unfold api_wordbook_batches. rewrite (is_data_loaded_serving _ Hs).
    match goal with
    | |- context [with_pool ?c ?b w] => pose proof (Hpool BatchList b) as H
    end.
    cbv zeta in H.
    destruct (with_pool _ _ w) as [w' r]. cbn [fst snd] in *. apply H.
    rewrite Hsel. left.
    assert (Hn : (0 <= Py.len (table_rows t))%Z) by (unfold Py.len; lia).
    rewrite (batch_list_of Hn). eexists; split; reflexivity.
  - unfold api_wordbook_range. rewrite (is_data_loaded_serving _ Hs).
    destruct ((start <=? 0)%Z || (end_ <? start)%Z || (end_ - start >? 1000)%Z);
      [now apply Hsame|].
    match goal with
    | |- context [with_pool ?c ?b w] => pose proof (Hpool RangeBody b) as H
    end.
    cbv zeta in H.
    destruct (with_pool _ _ w) as [w' r]. cbn [fst snd] in *. apply H.
    rewrite Hsel. unfold bind_int.
    destruct ((- 2 ^ 63 <=? start)%Z && (start <? 2 ^ 63)%Z);
      [|right; eexists; reflexivity].
    destruct ((- 2 ^ 63 <=? end_)%Z && (end_ <? 2 ^ 63)%Z);
      [left; eexists; split; reflexivity | right; eexists; reflexivity].
  - unfold api_excel_status. rewrite (is_data_loaded_serving _ Hs). cbn [fst snd].
    now apply Hsame.
Qed.

(** The handlers always give the connection they borrow back.  On a
    service that serves, whatever requests are sent one after the other,
    with whatever arguments, each of them is answered (with a body or an
    HTTP error), the pool can lend as many connections after them as
    before, the service still serves the same table, and the progress
    store is not touched. *)
Theorem requests_never_drain_pool :
  forall env t reqs w,
    serving t w ->
    sound_query env ->
    track_returns env = true ->
    let r := serve_all env reqs w in
    snd r = true /\
    serving t (fst r) /\
    lendable (fst r) = lendable w /\
    loading_state (fst r) = loading_state w.
Proof.
  intros env t reqs. induction reqs as [|req rest IH]; intros w Hs Hq Htr r; subst r.
  - cbn. split; [reflexivity|]. split; [exact Hs|]. split; reflexivity.
  - cbn [serve_all].
    destruct (@serve_serving env t w req Hs Hq Htr) as (A1 & A2 & A3 & A4).
    destruct (serve env req w) as [w1 a]. cbn [fst snd] in *. subst a.
    destruct (IH w1 A2 Hq Htr) as (B1 & B2 & B3 & B4).
    destruct (serve_all env rest w1) as [w2 b]. cbn [fst snd] in *. subst b.
    split; [reflexivity|]. split; [exact B2|]. split; congruence.
Qed.

Lemma requests_never_drain_pool_witness :
  let t := mkTable [mkEntry 1 (mkParams (SqlText (of_string "apple")) (SqlText (of_string "Apple"))
                                        SqlNull SqlNull (SqlText (of_string "A"))
                                        (SqlInteger 0))] [] in
  let p := fst (DbPool.initialize (DbPool.new_pool (of_string "paraphrase.sqlite") 2)) in
  let w := mkWorld true None (Some p) Loading.DEFAULT_STATE None [] (Some (Some t)) []
                   Attached in
  let env := mkReqEnv (mkCheckEnv None None) (mkCheckEnv None None) (fun _ => None) true in
  let reqs := [GetLookup (of_string "pear"); GetRange 5 1; GetRow [] 0; GetBatches;
               GetSearch (of_string "APPLE")] in
  snd (serve_all env reqs w) = true /\ lendable (fst (serve_all env reqs w)) = 2%nat.
Proof.
  intros t p w env reqs.
  assert (Hs : serving t w).
  { split; [reflexivity|]. split; [reflexivity|]. split; [reflexivity|]. exists p.
    split; [reflexivity|]. split; [intros _; vm_compute; discriminate | discriminate]. }
  destruct (@requests_never_drain_pool env t reqs w Hs eq_refl eq_refl) as (H1 & _ & H2 & _).
  split; [exact H1 | exact H2].
Defined.

End Service.

(** ** The shape of normalized words *)

Section NormalForm.

Lemma lstrip_suffix s : exists p, s = (p ++ lstrip s)%list.
Proof.
  induction s as [|c r [p Hp]]; [now exists []|]. cbn [lstrip].
  destruct (is_space c); [|now exists []].
  exists (c :: p). cbn. now f_equal.
Qed.

Lemma rstrip_prefix s : exists q, s = (rstrip s ++ q)%list.
Proof.
  induction s as [|c r [q Hq]]; [now exists []|]. cbn [rstrip].
  destruct (rstrip r) as [|y r'] eqn:E.
  - destruct (is_space c); [now exists (c :: r)|].
    exists q. cbn. f_equal. exact Hq.
  - exists q. cbn. f_equal. exact Hq.
Qed.

Lemma lstrip_head s c r : lstrip s = c :: r -> is_space c = false.
Proof.
  induction s as [|x s IH]; [discriminate|]. cbn [lstrip].
  destruct (is_space x) eqn:E; [exact IH|]. intros H. injection H as <- _. exact E.
Qed.

Lemma rstrip_last s : forall r c, rstrip s = (r ++ [c])%list -> is_space c = false.
Proof.
  induction s as [|x s IH]; intros r c H; [now destruct r|].
  cbn [rstrip] in H. destruct (rstrip s) as [|y r'] eqn:E.
  - destruct (is_space x) eqn:Ex; [now destruct r|].
    destruct r as [|a r]; [injection H as <-; exact Ex|].
    injection H as _ H. now destruct r.
  - destruct r as [|a r]; [discriminate|]. injection H as _ H.
    exact (IH r c (eq_sym (eq_sym H))).
Qed.

Lemma sub_runs_spacing s :
  forall b,
    (forall a t, sub_runs b s <> (a ++ SPACE :: SPACE :: t)%list) /\
    (b = true -> forall t, sub_runs b s <> SPACE :: t).
Proof.
  induction s as [|c r IH]; intros b.
  - split; intros; cbn; [now destruct a | discriminate].
  - cbn [sub_runs]. destruct (word_char c) eqn:Hc.
    + destruct (IH false) as [I1 _]. split.
      * intros [|x a] t H.
        -- injection H as -> _. rewrite word_char_SPACE in Hc. discriminate.
        -- injection H as _ H. exact (I1 a t H).
      * intros _ t H. injection H as -> _. rewrite word_char_SPACE in Hc. discriminate.
    + destruct (IH true) as [I1 I2]. destruct b.
      * split; [exact I1 | intros _; exact (I2 eq_refl)].
      * split; [|discriminate]. intros [|x a] t H.
        -- injection H as H. exact (I2 eq_refl _ H).
        -- injection H as _ H. exact (I1 a t H).
Qed.

Lemma lower_char_space c : lower_char c = SPACE -> c = SPACE.
Proof.
  unfold lower_char, is_upper, in_range, SPACE.
  destruct ((65 <=? c) && (c <=? 90))%N eqn:E; [|auto].
  apply andb_true_iff in E. destruct E as [E1 E2].
  apply N.leb_le in E1. lia.
Qed.

Lemma lower_char_alphabet c :
  word_char c = true \/ c = SPACE ->
  is_lower (lower_char c) = true \/ lower_char c = 45%N \/ lower_char c = 39%N
  \/ lower_char c = SPACE.
Proof.
  intros [H | ->]; [|now right; right; right].
  unfold word_char in H. unfold lower_char.
  destruct (is_upper c) eqn:Eu.
  - left. unfold is_upper, is_lower, in_range in *.
    apply andb_true_iff in Eu. destruct Eu as [E1 E2].
    apply N.leb_le in E1. apply N.leb_le in E2.
    apply andb_true_iff. split; apply N.leb_le; lia.
  - cbn [orb] in H. destruct (is_lower c); [now left|]. cbn [orb] in H.
    destruct (c =? 45)%N eqn:E45; [apply N.eqb_eq in E45; now right; left|].
    cbn [orb] in H. apply N.eqb_eq in H. now right; right; left.
Qed.

(** Whatever the input, a normalized word is made of lowercase ASCII
    letters, hyphens, apostrophes and spaces only; it neither starts nor
    ends with a space and never has two spaces in a row. *)
Theorem normalize_word_shape :
  forall w,
    let r := normalize_word w in
    List.Forall (fun c => is_lower c = true \/ c = 45%N \/ c = 39%N \/ c = SPACE) r /\
    (forall t, r <> SPACE :: t) /\
    (forall t, r <> (t ++ [SPACE])%list) /\
    (forall a t, r <> (a ++ SPACE :: SPACE :: t)%list).
Proof.
  intros [w|] r; subst r.
  2:{ cbn. repeat split; try constructor; intros; try discriminate.
      - now destruct t.
      - now destruct a. }
  rewrite normalize_word_unfold.
  set (s := sub_runs false w).
  destruct (rstrip_prefix (lstrip s)) as [q Hq].
  destruct (lstrip_suffix s) as [p Hp]. fold (strip s) in Hq.
  assert (Hs : s = (p ++ strip s ++ q)%list) by (rewrite <- Hq; exact Hp).
  repeat split.
  - unfold lower. apply Forall_map.
    pose proof (re_sub_alphabet false w) as Ha. fold s in Ha. rewrite Hs in Ha.
    apply Forall_app in Ha. destruct Ha as [_ Ha].
    apply Forall_app in Ha. destruct Ha as [Ha _].
    eapply Forall_impl; [|exact Ha]. intros c Hc. now apply lower_char_alphabet.
  - intros t H. unfold lower in H.
    destruct (strip s) as [|c r0] eqn:E; [discriminate|].
    cbn [List.map] in H. injection H as Hc _. apply lower_char_space in Hc. subst c.
    unfold strip in E. rewrite <- lstrip_rstrip in E.
    apply lstrip_head in E. rewrite is_space_SPACE in E. discriminate.
  - intros t H. unfold lower in H. apply map_eq_app in H.
    destruct H as (l1 & l2 & E & _ & H2).
    destruct l2 as [|c [|? ?]]; try discriminate.
    cbn [List.map] in H2. injection H2 as Hc. apply lower_char_space in Hc. subst c.
    unfold strip in E. apply rstrip_last in E. rewrite is_space_SPACE in E. discriminate.
  - intros a t H. unfold lower in H. apply map_eq_app in H.
    destruct H as (l1 & l2 & E & _ & H2).
    destruct l2 as [|c1 [|c2 l3]]; try discriminate.
    cbn [List.map] in H2. injection H2 as H1 H2 _.
    apply lower_char_space in H1. apply lower_char_space in H2. subst c1 c2.
    destruct (sub_runs_spacing w false) as [Hsp _]. fold s in Hsp.
    apply (Hsp (p ++ l1)%list (l3 ++ q)%list).
    rewrite Hs, E, <- !app_assoc. reflexivity.
Qed.

End NormalForm.
